(** * Span lifecycle of the tracing agent (lib/span.js)

    A shallow embedding of [lib/span.js]: the span constructor, the entry-span
    constructor, descent, the run wrappers, enter/exit, error attachment and
    transaction naming.  JavaScript objects live in a store and are named by
    references, because the skeleton span is shared and mutated in place;
    exceptions are explicit completions; user callbacks are parameters. *)

From Stdlib Require Import ZArith String List Bool Lia.
From stdpp Require Import base option list gmap strings pretty.

Local Open Scope Z_scope.
Local Open Scope string_scope.
Local Open Scope list_scope.

(** ** JavaScript values *)

(** A number is NaN or an integer (the counters and durations of this file
    never need fractions). *)
Inductive jsnum :=
| NaN
| Num (z : Z).

Inductive errkind := KError | KTypeError.

(** The values that reach span.js: primitives, instances of Error (a kind and
    a message) and any other object, known by its identity only. *)
Inductive value :=
| VUndefined
| VNull
| VBool (b : bool)
| VNumber (n : jsnum)
| VString (s : string)
| VError (k : errkind) (msg : string)
| VObject (id : nat).

#[global] Instance jsnum_eq_dec : EqDecision jsnum.
Proof. solve_decision. Defined.
#[global] Instance errkind_eq_dec : EqDecision errkind.
Proof. solve_decision. Defined.
#[global] Instance value_eq_dec : EqDecision value.
Proof. solve_decision. Defined.

(** ToBoolean: what [if (v)], [!v] and [a || b] test. *)
Definition truthy (v : value) : bool :=
  match v with
  | VUndefined | VNull => false
  | VBool b => b
  | VNumber NaN => false
  | VNumber (Num z) => negb (Z.eqb z 0)
  | VString s => negb (String.eqb s "")
  | VError _ _ | VObject _ => true
  end.

Definition falsy (v : value) : bool := negb (truthy v).

Definition kind_name (k : errkind) : string :=
  match k with KError => "Error" | KTypeError => "TypeError" end.

(** ToString, as used by template literals and by [+] on a string.  Integers
    print in decimal, which is what JavaScript does below 1e21. *)
Definition to_str (v : value) : string :=
  match v with
  | VUndefined => "undefined"
  | VNull => "null"
  | VBool true => "true"
  | VBool false => "false"
  | VNumber NaN => "NaN"
  | VNumber (Num z) => pretty z
  | VString s => s
  | VError k msg => if String.eqb msg "" then kind_name k else kind_name k +:+ ": " +:+ msg
  | VObject _ => "[object Object]"
  end.

(** [v += 1] on a property holding [v]: string concatenation when [v] is a
    string or an object, numeric addition otherwise ([undefined] is NaN). *)
Definition js_plus_one (v : value) : value :=
  match v with
  | VUndefined => VNumber NaN
  | VNull => VNumber (Num 1)
  | VBool b => VNumber (Num (if b then 2 else 1))
  | VNumber NaN => VNumber NaN
  | VNumber (Num z) => VNumber (Num (z + 1))
  | VString _ | VError _ _ | VObject _ => VString (to_str v +:+ "1")
  end.

Definition is_string (v : value) : bool :=
  match v with VString _ => true | _ => false end.

(** What a call of a user-supplied function does: return or throw. *)
Inductive outcome :=
| Returns (v : value)
| Raises (v : value).

(** ** Events *)

(** The native event behind an Event: the causal task identifier shared by a
    trace, the operation identifier of this event, and the sample flag. *)
Record AddonEvent := mkAddon {
  taskId : nat;
  opId : nat;
  sampleFlag : bool
}.

Definition getSampleFlag (e : AddonEvent) : bool := sampleFlag e.

(** An edge names a predecessor: by operation id when it comes from the
    constructor, by Event reference when [exit] pushes the last event. *)
Inductive edge :=
| EdgeOp (op : nat)
| EdgeEvent (ref : nat).

#[global] Instance edge_eq_dec : EqDecision edge.
Proof. solve_decision. Defined.

Module Event.

(** Modelled from the spec: lib/event.js is not among the sources; this is
    the Event of the data model (name and type, kept under the reserved
    annotation keys Layer and Label that span.js reads back, the native
    event, the edge list, the annotation mapping, the optional error and
    the flag that tells [exit] to skip edging). *)
Record t := mk {
  event : AddonEvent;
  edges : list edge;
  kv : gmap string value;
  error : option value;
  ignore : bool
}.

Definition with_kv (m : gmap string value) (e : t) : t :=
  mk (event e) (edges e) m (error e) (ignore e).
Definition with_edges (l : list edge) (e : t) : t :=
  mk (event e) l (kv e) (error e) (ignore e).
Definition with_error (x : option value) (e : t) : t :=
  mk (event e) (edges e) (kv e) x (ignore e).

(** Modelled from the spec: Construct(name, type, causalPredecessor,
    shouldEdge) of lib/event.js: the task id (and sample flag) is inherited
    from the predecessor, the operation id is fresh, and the edge list
    holds the predecessor's operation id when [shouldEdge] holds. *)
Definition construct (name : value) (label : string) (parent : AddonEvent)
    (shouldEdge : value) (fresh : nat) : t :=
  {| event := {| taskId := taskId parent; opId := fresh;
                 sampleFlag := sampleFlag parent |};
     edges := if truthy shouldEdge then [EdgeOp (opId parent)] else [];
     kv := <["Layer" := name]> (<["Label" := VString label]> ∅);
     error := None;
     ignore := false |}.

(** Modelled from the spec: Set(data) of lib/event.js merges key/value
    pairs into the annotation mapping, the new pairs winning. *)
Definition set (data : option (gmap string value)) (e : t) : t :=
  match data with
  | Some d => with_kv (d ∪ kv e) e
  | None => e
  end.

(** Modelled from the spec: Report(extraData) of lib/event.js
    ([sendReport]) merges the extra data into the annotation mapping and
    hands the event to the Reporter Bridge; it never throws.  The result is
    the event as it stands after the merge.  The spec's Report names no
    sample flag and no event sent before, and does not say that the
    reported event becomes the last event of the context store: lib/event.js
    may skip an unsampled or already sent event and record the last event,
    and none of that is part of this model. *)
Definition sendReport (data : option (gmap string value)) (e : t) : t :=
  set data e.

End Event.

(** The reserved annotation keys. *)
Definition reserved : gset string := {["Layer"; "Label"]}.

(** [obj.k] on an annotation mapping: [undefined] when the key is absent. *)
Definition kv_get (m : gmap string value) (k : string) : value :=
  default VUndefined (m !! k).

(** [const {Layer, Label} = kv; kv = {Layer, Label}]. *)
Definition keep_reserved (m : gmap string value) : gmap string value :=
  <["Layer" := kv_get m "Layer"]> (<["Label" := kv_get m "Label"]> ∅).

(** ** Spans *)

(** The custom transaction name: unset, a function (what a call of it does),
    or any other value. *)
Inductive custom_name :=
| TxUnset
| TxFunction (call : unit -> outcome)
| TxValue (v : value).

Module Span.

Record t := mk {
  topSpan : bool;
  doMetrics : bool;
  _async : value;
  name : value;
  events_internal : list nat;
  events_entry : nat;
  events_exit : nat;
  doSample : bool;
  ignoreErrorFn : option (value -> outcome);
  skeleton : option nat;
  isSkeleton : bool;
  count : value;
  defaultTxName : value;
  customTxName : custom_name
}.

Definition with_topSpan (b : bool) (s : t) : t :=
  mk b (doMetrics s) (_async s) (name s) (events_internal s) (events_entry s)
     (events_exit s) (doSample s) (ignoreErrorFn s) (skeleton s)
     (isSkeleton s) (count s) (defaultTxName s) (customTxName s).
Definition with_doMetrics (b : bool) (s : t) : t :=
  mk (topSpan s) b (_async s) (name s) (events_internal s) (events_entry s)
     (events_exit s) (doSample s) (ignoreErrorFn s) (skeleton s)
     (isSkeleton s) (count s) (defaultTxName s) (customTxName s).
Definition with_async (v : value) (s : t) : t :=
  mk (topSpan s) (doMetrics s) v (name s) (events_internal s) (events_entry s)
     (events_exit s) (doSample s) (ignoreErrorFn s) (skeleton s)
     (isSkeleton s) (count s) (defaultTxName s) (customTxName s).
Definition with_ignoreErrorFn (f : option (value -> outcome)) (s : t) : t :=
  mk (topSpan s) (doMetrics s) (_async s) (name s) (events_internal s)
     (events_entry s) (events_exit s) (doSample s) f (skeleton s)
     (isSkeleton s) (count s) (defaultTxName s) (customTxName s).
Definition with_skeleton (k : option nat) (s : t) : t :=
  mk (topSpan s) (doMetrics s) (_async s) (name s) (events_internal s)
     (events_entry s) (events_exit s) (doSample s) (ignoreErrorFn s) k
     (isSkeleton s) (count s) (defaultTxName s) (customTxName s).
Definition with_isSkeleton (b : bool) (s : t) : t :=
  mk (topSpan s) (doMetrics s) (_async s) (name s) (events_internal s)
     (events_entry s) (events_exit s) (doSample s) (ignoreErrorFn s)
     (skeleton s) b (count s) (defaultTxName s) (customTxName s).
Definition with_count (v : value) (s : t) : t :=
  mk (topSpan s) (doMetrics s) (_async s) (name s) (events_internal s)
     (events_entry s) (events_exit s) (doSample s) (ignoreErrorFn s)
     (skeleton s) (isSkeleton s) v (defaultTxName s) (customTxName s).
Definition with_defaultTxName (v : value) (s : t) : t :=
  mk (topSpan s) (doMetrics s) (_async s) (name s) (events_internal s)
     (events_entry s) (events_exit s) (doSample s) (ignoreErrorFn s)
     (skeleton s) (isSkeleton s) (count s) v (customTxName s).
Definition with_customTxName (c : custom_name) (s : t) : t :=
  mk (topSpan s) (doMetrics s) (_async s) (name s) (events_internal s)
     (events_entry s) (events_exit s) (doSample s) (ignoreErrorFn s)
     (skeleton s) (isSkeleton s) (count s) (defaultTxName s) c.

End Span.

(** ** The process state *)

(** The counters of [stats]. *)
Record Stats := mkStats {
  totalCreated : Z;
  topSpansCreated : Z;
  topSpansActive : Z;
  topSpansMax : Z;
  topSpansExited : Z;
  otherSpansActive : Z
}.

(** The argument object of [ao.reporter.sendNonHttpSpan] (the Reporter
    Bridge): transaction name, duration in microseconds, error flag. *)
Record TxArgs := mkTxArgs {
  args_txname : value;
  args_duration : jsnum;
  args_error : bool
}.

(** A context of [ao.requestStore]. *)
Record Context := mkContext {
  ctx_id : nat;
  newContext : bool
}.

Record LogEntry := mkLog {
  level : string;
  message : string
}.

(** Everything span.js reads or writes besides its arguments: the object
    store (spans and events by reference), the counters, the context store
    ([ao.lastEvent], [ao.lastSpan], the entered contexts and the key
    [topSpan]), the collaborators (the events [sendReport] was called on,
    the transaction summaries sent to the Reporter Bridge and what it
    answers, the loggers, the clock), the closure cells of [runAsync] and the supplies of fresh
    identifiers.  [ao.lastEvent] is [None] when it is null or undefined. *)
Record World := mkWorld {
  span_store : list Span.t;
  event_store : list Event.t;
  closures : list (gmap string value);
  stats : Stats;
  lastEvent : option nat;
  lastSpan : option nat;
  contexts : list Context;
  next_context : nat;
  store_topSpan : option nat;
  reported : list (nat * Event.t);
  sent : list TxArgs;
  reporter : TxArgs -> value;
  logs : list LogEntry;
  clock : Z;
  next_op : nat
}.

Definition with_span_store (x : list Span.t) (w : World) : World :=
  mkWorld x (event_store w) (closures w) (stats w) (lastEvent w) (lastSpan w)
    (contexts w) (next_context w) (store_topSpan w) (reported w) (sent w)
    (reporter w) (logs w) (clock w) (next_op w).
Definition with_event_store (x : list Event.t) (w : World) : World :=
  mkWorld (span_store w) x (closures w) (stats w) (lastEvent w) (lastSpan w)
    (contexts w) (next_context w) (store_topSpan w) (reported w) (sent w)
    (reporter w) (logs w) (clock w) (next_op w).
Definition with_closures (x : list (gmap string value)) (w : World) : World :=
  mkWorld (span_store w) (event_store w) x (stats w) (lastEvent w) (lastSpan w)
    (contexts w) (next_context w) (store_topSpan w) (reported w) (sent w)
    (reporter w) (logs w) (clock w) (next_op w).
Definition with_stats (x : Stats) (w : World) : World :=
  mkWorld (span_store w) (event_store w) (closures w) x (lastEvent w)
    (lastSpan w) (contexts w) (next_context w) (store_topSpan w) (reported w)
    (sent w) (reporter w) (logs w) (clock w) (next_op w).
Definition with_lastEvent (x : option nat) (w : World) : World :=
  mkWorld (span_store w) (event_store w) (closures w) (stats w) x (lastSpan w)
    (contexts w) (next_context w) (store_topSpan w) (reported w) (sent w)
    (reporter w) (logs w) (clock w) (next_op w).
Definition with_lastSpan (x : option nat) (w : World) : World :=
  mkWorld (span_store w) (event_store w) (closures w) (stats w) (lastEvent w) x
    (contexts w) (next_context w) (store_topSpan w) (reported w) (sent w)
    (reporter w) (logs w) (clock w) (next_op w).
Definition with_contexts (x : list Context) (n : nat) (w : World) : World :=
  mkWorld (span_store w) (event_store w) (closures w) (stats w) (lastEvent w)
    (lastSpan w) x n (store_topSpan w) (reported w) (sent w) (reporter w)
    (logs w) (clock w) (next_op w).
Definition with_store_topSpan (x : option nat) (w : World) : World :=
  mkWorld (span_store w) (event_store w) (closures w) (stats w) (lastEvent w)
    (lastSpan w) (contexts w) (next_context w) x (reported w) (sent w)
    (reporter w) (logs w) (clock w) (next_op w).
Definition with_reported (x : list (nat * Event.t)) (w : World) : World :=
  mkWorld (span_store w) (event_store w) (closures w) (stats w) (lastEvent w)
    (lastSpan w) (contexts w) (next_context w) (store_topSpan w) x (sent w)
    (reporter w) (logs w) (clock w) (next_op w).
Definition with_sent (x : list TxArgs) (w : World) : World :=
  mkWorld (span_store w) (event_store w) (closures w) (stats w) (lastEvent w)
    (lastSpan w) (contexts w) (next_context w) (store_topSpan w) (reported w) x
    (reporter w) (logs w) (clock w) (next_op w).
Definition with_logs (x : list LogEntry) (w : World) : World :=
  mkWorld (span_store w) (event_store w) (closures w) (stats w) (lastEvent w)
    (lastSpan w) (contexts w) (next_context w) (store_topSpan w) (reported w)
    (sent w) (reporter w) x (clock w) (next_op w).
Definition with_next_op (x : nat) (w : World) : World :=
  mkWorld (span_store w) (event_store w) (closures w) (stats w) (lastEvent w)
    (lastSpan w) (contexts w) (next_context w) (store_topSpan w) (reported w)
    (sent w) (reporter w) (logs w) (clock w) x.

(** ** Computations: state and exceptions *)

(** How a piece of JavaScript ends: normally with a value, or by throwing.
    [Stuck] is not a JavaScript outcome: it marks a reference that names no
    object of the store, which no JavaScript program can hold. *)
Inductive completion (A : Type) :=
| Normal (a : A)
| Throw (v : value)
| Stuck.
Arguments Normal {A} a.
Arguments Throw {A} v.
Arguments Stuck {A}.

Definition M (A : Type) : Type := World -> completion A * World.

Definition ret {A} (a : A) : M A := fun w => (Normal a, w).
Definition throw {A} (v : value) : M A := fun w => (Throw v, w).

Definition bind {A B} (m : M A) (k : A -> M B) : M B :=
  fun w =>
    match m w with
    | (Normal a, w') => k a w'
    | (Throw v, w') => (Throw v, w')
    | (Stuck, w') => (Stuck, w')
    end.

Declare Scope js_scope.
Delimit Scope js_scope with js.
Notation "x <- c1 ;; c2" := (bind c1 (fun x => c2))
  (at level 100, c1 at next level, right associativity) : js_scope.
Notation "c1 ;; c2" := (bind c1 (fun _ => c2))
  (at level 100, right associativity) : js_scope.
Local Open Scope js_scope.

Definition gets {A} (f : World -> A) : M A := fun w => (Normal (f w), w).
Definition modify (f : World -> World) : M unit := fun w => (Normal tt, f w).

(** Run [m] and hand back how it ended, as a value. *)
Definition attempt {A} (m : M A) : M (completion A) :=
  fun w =>
    match m w with
    | (Stuck, w') => (Stuck, w')
    | (c, w') => (Normal c, w')
    end.

(** Take up a completion again. *)
Definition resume {A} (c : completion A) : M A := fun w => (c, w).

(** [try { body } catch (e) { handler e }]. *)
Definition try_catch {A} (body : M A) (handler : value -> M A) : M A :=
  c <- attempt body ;;
  match c with
  | Throw e => handler e
  | _ => resume c
  end.

Definition when (b : bool) (m : M unit) : M unit := if b then m else ret tt.

(** *** The loggers *)

(** Modelled from the spec: the loggers of [ao.loggers] ([log.span],
    [log.debug], [log.warn], [log.error] and the debounced [dbSendError]) are
    not among the sources; failures are "logged", so a logger records its
    level and format string and never throws. *)
Definition log (lvl msg : string) : M unit :=
  modify (fun w => with_logs (logs w ++ [mkLog lvl msg]) w).

(** *** The object store *)

Definition read_span (r : nat) : M Span.t :=
  fun w => match span_store w !! r with
           | Some s => (Normal s, w)
           | None => (Stuck, w)
           end.

Definition read_event (r : nat) : M Event.t :=
  fun w => match event_store w !! r with
           | Some e => (Normal e, w)
           | None => (Stuck, w)
           end.

Definition update_span (r : nat) (f : Span.t -> Span.t) : M unit :=
  s <- read_span r ;;
  modify (fun w => with_span_store (<[r := f s]> (span_store w)) w).

Definition update_event (r : nat) (f : Event.t -> Event.t) : M unit :=
  e <- read_event r ;;
  modify (fun w => with_event_store (<[r := f e]> (event_store w)) w).

Definition alloc_span (s : Span.t) : M nat :=
  fun w => (Normal (length (span_store w)),
            with_span_store (span_store w ++ [s]) w).

Definition alloc_event (e : Event.t) : M nat :=
  fun w => (Normal (length (event_store w)),
            with_event_store (event_store w ++ [e]) w).

Definition fresh_op : M nat :=
  fun w => (Normal (next_op w), with_next_op (S (next_op w)) w).

(** Modelled from the spec: [new Event(name, label, parent, edge)] of
    lib/event.js makes a new object with a unique operation identifier. *)
Definition newEvent (name : value) (label : string) (parent : AddonEvent)
    (shouldEdge : value) : M nat :=
  op <- fresh_op ;;
  alloc_event (Event.construct name label parent shouldEdge op).

(** Modelled from the spec: [event.sendReport(data)] of lib/event.js on the
    Event at [r]: the event is updated in place and the call is recorded.
    [reported] lists the calls of [sendReport] that span.js makes, in order,
    each with the event as it stands after the merge; what lib/event.js
    lets through to the Reporter Bridge is not in the sources. *)
Definition sendReport (r : nat) (data : option (gmap string value)) : M unit :=
  update_event r (Event.sendReport data) ;;
  e <- read_event r ;;
  modify (fun w => with_reported (reported w ++ [(r, e)]) w).

(** Modelled from the spec: [ao.addon.Event.makeRandom(doSample)] of the
    native addon synthesizes a fresh random causal id tagged with the sample
    decision: here a native event with a fresh task and operation
    identifier. *)
Definition makeRandom (doSample : bool) : M AddonEvent :=
  task <- fresh_op ;;
  op <- fresh_op ;;
  ret (mkAddon task op doSample).

(** *** The context store [ao.requestStore] and the clock *)

(** Modelled from the spec: the Trace Context Store API of [ao.requestStore]
    (not among the sources): [createContext(options)] gives a context handle,
    [enter] and [exit] take a handle, [set(key, value)] stores a value; the
    entered contexts form a stack. *)
Definition createContext (new : bool) : M Context :=
  fun w => (Normal (mkContext (next_context w) new),
            with_contexts (contexts w) (S (next_context w)) w).

Definition store_enter (c : Context) : M unit :=
  modify (fun w => with_contexts (c :: contexts w) (next_context w) w).

Definition store_exit (c : Context) : M unit :=
  modify (fun w => with_contexts (tail (contexts w)) (next_context w) w).

Definition store_set_topSpan (r : nat) : M unit :=
  modify (with_store_topSpan (Some r)).

(** [Date.now()]. *)
Definition Date_now : M Z := gets clock.

(** An update of the counters [stats]. *)
Definition bump (f : Stats -> Stats) : M unit :=
  modify (fun w => with_stats (f (stats w)) w).

(** ** lib/span.js *)

Module SpanSettings.
(** The settings object the constructor reads: [traceTaskId] must be
    present; [edge] is [None] when the object has no such key. *)
Record t := mk {
  traceTaskId : AddonEvent;
  edge : option value
}.
End SpanSettings.

Module Settings.
(** What [ao.getTraceSettings()] returns. [traceTaskId] may be missing. *)
Record t := mk {
  traceTaskId : option AddonEvent;
  edge : value;
  doSample : bool;
  doMetrics : bool;
  source : value;
  rate : value
}.
End Settings.

(** [new Span(name, settings, data)].  The object enters the store when the
    constructor returns; when it throws, nothing refers to it. *)
Definition newSpan (name : value) (settings : SpanSettings.t)
    (data : option (gmap string value)) : M nat :=
  if falsy name then
    throw (VError KTypeError ("invalid span name " +:+ to_str name))
  else
    bump (fun s => mkStats (totalCreated s + 1) (topSpansCreated s)
                     (topSpansActive s) (topSpansMax s) (topSpansExited s)
                     (otherSpansActive s)) ;;
    let doSample := getSampleFlag (SpanSettings.traceTaskId settings) in
    let edge := match SpanSettings.edge settings with
                | Some v => v
                | None => VBool true
                end in
    entry <- newEvent name "entry" (SpanSettings.traceTaskId settings) edge ;;
    entry_event <- read_event entry ;;
    exit <- newEvent name "exit" (Event.event entry_event) (VBool true) ;;
    update_event entry (Event.set data) ;;
    alloc_span {| Span.topSpan := false;
                  Span.doMetrics := false;
                  Span._async := VBool false;
                  Span.name := name;
                  Span.events_internal := [];
                  Span.events_entry := entry;
                  Span.events_exit := exit;
                  Span.doSample := doSample;
                  Span.ignoreErrorFn := None;
                  Span.skeleton := None;
                  Span.isSkeleton := false;
                  Span.count := VUndefined;
                  Span.defaultTxName := VUndefined;
                  Span.customTxName := TxUnset |}.

(** [Span.makeEntrySpan(name, settings, kvpairs)]. *)
Definition makeEntrySpan (name : value) (settings : Settings.t)
    (kvpairs : option (gmap string value)) : M nat :=
  bump (fun s => mkStats (totalCreated s) (topSpansCreated s + 1)
                   (topSpansActive s) (topSpansMax s) (topSpansExited s)
                   (otherSpansActive s)) ;;
  log "span" "Span.makeEntrySpan %s from inbound %x" ;;
  traceTaskId <- match Settings.traceTaskId settings with
                 | Some e => ret e
                 | None => makeRandom (Settings.doSample settings)
                 end ;;
  span <- newSpan name
            (SpanSettings.mk traceTaskId (Some (Settings.edge settings)))
            kvpairs ;;
  update_span span (Span.with_skeleton None) ;;
  s <- read_span span ;;
  (if negb (Span.doSample s) then
     entry <- read_event (Span.events_entry s) ;;
     skeleton <- newSpan (VString "__skeleton__")
                   (SpanSettings.mk (Event.event entry) None) None ;;
     update_span span (Span.with_skeleton (Some skeleton)) ;;
     update_span skeleton (Span.with_isSkeleton true)
   else ret tt) ;;
  update_span span (Span.with_topSpan true) ;;
  update_span span (Span.with_doMetrics (Settings.doMetrics settings)) ;;
  update_span span
    (fun s => Span.with_defaultTxName
                (if truthy (Span.name s)
                 then VString ("custom-" +:+ to_str (Span.name s))
                 else VString "") s) ;;
  update_span span (Span.with_customTxName TxUnset) ;;
  update_event (Span.events_entry s)
    (Event.set (Some (<["SampleSource" := Settings.source settings]>
                        (<["SampleRate" := Settings.rate settings]> ∅)))) ;;
  ret span.

Definition count_plus_one (s : Span.t) : Span.t :=
  Span.with_count (js_plus_one (Span.count s)) s.

(** [span.descend(name, data)]. *)
Definition descend (this : nat) (name : value)
    (data : option (gmap string value)) : M nat :=
  last <- gets lastEvent ;;
  log "span" "span.descend %s from ao.lastEvent %e" ;;
  s <- read_span this ;;
  if negb (Span.doSample s) then
    if Span.topSpan s then
      match Span.skeleton s with
      | Some span => update_span span count_plus_one ;; ret span
      | None =>
          throw (VError KTypeError "Cannot read property 'count' of undefined")
      end
    else
      when (negb (Span.isSkeleton s)) (log "debug" "expected isSkeleton") ;;
      update_span this count_plus_one ;;
      ret this
  else
    match last with
    | None => throw (VError KTypeError "Cannot read property 'event' of null")
    | Some l =>
        e <- read_event l ;;
        newSpan name (SpanSettings.mk (Event.event e) None) data
    end.

(** The setter of [span.async]. *)
Definition set_async (this : nat) (val : value) : M unit :=
  try_catch
    (update_span this (Span.with_async val) ;;
     s <- read_span this ;;
     (if truthy val then
        update_event (Span.events_entry s)
          (fun e => Event.with_kv (<["Async" := VBool true]> (Event.kv e)) e)
      else
        update_event (Span.events_entry s)
          (fun e => Event.with_kv (delete "Async" (Event.kv e)) e)) ;;
     log "span" "span enabled or disabled async")
    (fun e => log "error" "span failed to set async").

(** [Span.toError(error)]. *)
Definition toError (error : value) : value :=
  match error with
  | VString s => VError KError s
  | VError _ _ => error
  | _ => VUndefined
  end.

(** [span.setExitError(error)]. *)
Definition setExitError (this : nat) (error : value) : M unit :=
  try_catch
    (let error := toError error in
     if truthy error then
       s <- read_span this ;;
       match Span.ignoreErrorFn s with
       | None => update_event (Span.events_exit s) (Event.with_error (Some error))
       | Some ignoreErrorFn =>
           match ignoreErrorFn error with
           | Returns b =>
               when (falsy b)
                 (update_event (Span.events_exit s) (Event.with_error (Some error)))
           | Raises e => throw e
           end
       end
     else ret tt)
    (fun e => log "error" "span failed to set exit error").

(** [span.setIgnoreErrorFn(fn)]. *)
Definition setIgnoreErrorFn (this : nat) (fn : value -> outcome) : M unit :=
  s <- read_span this ;;
  when (bool_decide (is_Some (Span.ignoreErrorFn s)))
    (log "warn" "resetting ignoreErrorFn") ;;
  update_span this (Span.with_ignoreErrorFn (Some fn)).

(** [span.enter(data)]. *)
Definition enter (this : nat) (data : option (gmap string value)) : M unit :=
  log "span" "span.enter %e" ;;
  s <- read_span this ;;
  (if Span.topSpan s then
     store_set_topSpan this ;;
     bump (fun s => mkStats (totalCreated s) (topSpansCreated s)
                      (topSpansActive s + 1) (topSpansMax s) (topSpansExited s)
                      (otherSpansActive s)) ;;
     bump (fun s => if Z.ltb (topSpansMax s) (topSpansActive s)
                    then mkStats (totalCreated s) (topSpansCreated s)
                           (topSpansActive s) (topSpansActive s)
                           (topSpansExited s) (otherSpansActive s)
                    else s)
   else
     bump (fun s => mkStats (totalCreated s) (topSpansCreated s)
                      (topSpansActive s) (topSpansMax s) (topSpansExited s)
                      (otherSpansActive s + 1))) ;;
  try_catch
    (modify (with_lastSpan (Some this)) ;;
     let entry := Span.events_entry s in
     sendReport entry data ;;
     when (Span.isSkeleton s)
       (update_event entry (fun e => Event.with_kv (keep_reserved (Event.kv e)) e)))
    (fun e => log "error" "span failed to enter").

(** [span.exit(data)]. *)
Definition exit (this : nat) (data : option (gmap string value)) : M unit :=
  s <- read_span this ;;
  let exit := Span.events_exit s in
  log "span" "span.exit for %e" ;;
  (if Span.topSpan s then
     bump (fun s => mkStats (totalCreated s) (topSpansCreated s)
                      (topSpansActive s - 1) (topSpansMax s)
                      (topSpansExited s + 1) (otherSpansActive s))
   else
     bump (fun s => mkStats (totalCreated s) (topSpansCreated s)
                      (topSpansActive s) (topSpansMax s) (topSpansExited s)
                      (otherSpansActive s - 1))) ;;
  try_catch
    (last <- gets lastEvent ;;
     match last with
     | Some l =>
         if bool_decide (l ≠ Span.events_entry s) then
           e <- read_event exit ;;
           if negb (Event.ignore e) then
             update_event exit
               (fun e => Event.with_edges (Event.edges e ++ [EdgeEvent l]) e)
           else log "span" "span.exit - no extra edge found for %e"
         else log "span" "span.exit - no extra edge found for %e"
     | None => log "debug" "span.exit - no last event %l"
     end ;;
     sendReport exit data ;;
     when (Span.isSkeleton s)
       (update_event (Span.events_entry s)
          (fun e => Event.with_kv (keep_reserved (Event.kv e)) e)))
    (fun e => log "error" "span failed to exit").

(** [span.exitCheckingError(error, data)]. *)
Definition exitCheckingError (this : nat) (error : value)
    (data : option (gmap string value)) : M unit :=
  setExitError this error ;;
  exit this data.

(** [Span.sendNonHttpSpan(txname, duration, error)]. *)
Definition sendNonHttpSpan (txname : value) (duration : jsnum) (error : value)
    : M value :=
  let args := {| args_txname := txname;
                 args_duration := duration;
                 args_error := truthy error |} in
  finalTxName <- (fun w => (Normal (reporter w args),
                            with_sent (sent w ++ [args]) w)) ;;
  if is_string finalTxName && truthy finalTxName then
    ret finalTxName
  else
    log "error" "sendNonHttpSpan() code" ;;
    ret (if truthy (args_txname args) then args_txname args
         else VString "unknown").

(** [span.getTransactionName()]. *)
Definition getTransactionName (this : nat) : M value :=
  s <- read_span this ;;
  txname <- match Span.customTxName s with
            | TxUnset => ret VUndefined
            | TxValue v =>
                if truthy v then
                  if is_string v then ret v else ret VUndefined
                else ret VUndefined
            | TxFunction customTxName =>
                match customTxName tt with
                | Returns v => ret v
                | Raises e =>
                    log "error" "customTxName function %s" ;;
                    ret VUndefined
                end
            end ;;
  if falsy txname then ret (Span.defaultTxName s) else ret txname.

(** [(Date.now() - startTime) * 1000]; NaN when [startTime] is undefined. *)
Definition elapsed (now : Z) (startTime : option Z) : jsnum :=
  match startTime with
  | Some t => Num ((now - t) * 1000)
  | None => NaN
  end.

(** A callback takes its arguments and runs in the process. *)
Definition Callback : Type := list value -> M value.

(** What [runAsync] passes to its function: [(cb, handler) => bound]. *)
Definition Wrapper : Type := Callback -> option Callback -> Callback.

Module Fn.
(** A function handed to [run]: its declared arity ([fn.length]) and what
    [fn.call(span, wrap)] does; [wrap] is absent on the sync path. *)
Record t := mk {
  length : nat;
  call : nat -> option Wrapper -> M value
}.
End Fn.

(** The closure cell behind [kvpairs] in [runAsync]: the callbacks it binds
    share the object. *)
Definition new_kvpairs : M nat :=
  fun w => (Normal (List.length (closures w)),
            with_closures (closures w ++ [∅]) w).

Definition read_kvpairs (r : nat) : M (gmap string value) :=
  fun w => match closures w !! r with
           | Some m => (Normal m, w)
           | None => (Stuck, w)
           end.

Definition set_kvpairs (r : nat) (k : string) (v : value) : M unit :=
  modify (fun w => with_closures (alter (insert k v) r (closures w)) w).

(** [span.runAsync(fn)].  [ao.bind] leaves the behaviour of the function it
    binds as it is. *)
Definition runAsync (this : nat) (fn : Fn.t) : M value :=
  set_async this (VBool true) ;;
  let span := this in
  kvpairs <- new_kvpairs ;;
  ctx <- try_catch
           (s <- read_span this ;;
            ctx <- createContext (Span.topSpan s) ;;
            store_enter ctx ;;
            ret (Some ctx))
           (fun e => log "error" "span failed to enter context" ;; ret None) ;;
  s <- read_span span ;;
  startTime <- (if Span.doMetrics s then
                  now <- Date_now ;; ret (Some now)
                else ret None) ;;
  enter span None ;;
  r <- Fn.call fn span
         (Some (fun cb handler args =>
            let err := hd VUndefined args in
            match handler with
            | Some handler => _ <- handler args ;; ret tt
            | None =>
                s <- read_span span ;;
                when (Span.topSpan s && Span.doMetrics s)
                  (txname <- getTransactionName span ;;
                   now <- Date_now ;;
                   let et := elapsed now startTime in
                   finaltxname <- sendNonHttpSpan txname et err ;;
                   set_kvpairs kvpairs "TransactionName" finaltxname ;;
                   when (bool_decide (txname ≠ finaltxname))
                     (log "warn" "Span.runAsync txname mismatch: %s !== %s")) ;;
                kv <- read_kvpairs kvpairs ;;
                exitCheckingError span err (Some kv)
            end ;;
            cb args)) ;;
  try_catch
    (match ctx with
     | Some ctx => store_exit ctx
     | None => ret tt
     end)
    (fun e => log "error" "span failed to exit context") ;;
  ret r.

(** [span.runSync(fn)].  [kvpairs] never leaves the call, so it is a local
    value here. *)
Definition runSync (this : nat) (fn : Fn.t) : M value :=
  entered <-
     try_catch
       (s <- read_span this ;;
        if Span.topSpan s then
          startTime <- (if Span.doMetrics s then
                          now <- Date_now ;; ret (Some now)
                        else ret None) ;;
          ctx <- createContext true ;;
          store_enter ctx ;;
          ret (Some ctx, startTime)
        else ret (None, None))
       (fun e => log "error" "span failed to enter context" ;;
                 ret (None, None)) ;;
  let '(ctx, startTime) := entered in
  enter this None ;;
  tried <- attempt (Fn.call fn this None) ;;
  let error := match tried with Throw err => err | _ => VUndefined end in
  caught <- attempt match tried with
                    | Throw err => setExitError this err ;; throw err
                    | _ => resume tried
                    end ;;
  s <- read_span this ;;
  kvpairs <- (if Span.topSpan s && Span.doMetrics s then
                txname <- getTransactionName this ;;
                now <- Date_now ;;
                let et := elapsed now startTime in
                finaltxname <- sendNonHttpSpan txname et error ;;
                when (bool_decide (txname ≠ finaltxname))
                  (log "warn" "Span.runAsync txname error: %s !== %s") ;;
                ret (<["TransactionName" := finaltxname]> ∅)
              else ret ∅) ;;
  exit this (Some kvpairs) ;;
  try_catch
    (match ctx with
     | Some ctx => store_exit ctx
     | None => ret tt
     end)
    (fun e => log "error" "span failed to exit context") ;;
  resume caught.

(** [span.run(fn)]. *)
Definition run (this : nat) (fn : Fn.t) : M value :=
  if Nat.eqb (Fn.length fn) 1 then runAsync this fn else runSync this fn.

(** The getter of [span.async]. *)
Definition get_async (this : nat) : M value :=
  s <- read_span this ;;
  ret (Span._async s).

(** What a caller hands to [span.info]: an object whose class tag is
    [Object] (an object literal, seen as its key/value pairs), or any other
    value: a primitive, an Error, an array, a function. *)
Inductive js_arg :=
| ArgObject (kv : gmap string value)
| ArgValue (v : value).

(** [isRealObject(v)]: [Object.prototype.toString.call(v) === '[object Object]']. *)
Definition isRealObject (v : js_arg) : bool :=
  match v with
  | ArgObject _ => true
  | ArgValue _ => false
  end.

(** [this.events.internal.push(event)]. *)
Definition push_internal (event : nat) (s : Span.t) : Span.t :=
  Span.mk (Span.topSpan s) (Span.doMetrics s) (Span._async s) (Span.name s)
    (Span.events_internal s ++ [event]) (Span.events_entry s)
    (Span.events_exit s) (Span.doSample s) (Span.ignoreErrorFn s)
    (Span.skeleton s) (Span.isSkeleton s) (Span.count s)
    (Span.defaultTxName s) (Span.customTxName s).

(** [span._internal(label, data)]. *)
Definition _internal (this : nat) (label : string)
    (data : option (gmap string value)) : M unit :=
  last <- gets lastEvent ;;
  match last with
  | None => log "error" "span call could not find last event"
  | Some last =>
      last_event <- read_event last ;;
      event <- newEvent VNull label (Event.event last_event) (VBool true) ;;
      update_span this (push_internal event) ;;
      sendReport event data
  end.

(** [span.info(data)]. *)
Definition info (this : nat) (data : js_arg) : M unit :=
  log "span" "span.info" ;;
  try_catch
    (if negb (isRealObject data) then
       log "info" "span.info invalid input"
     else
       _internal this "info"
         match data with
         | ArgObject kv => Some kv
         | ArgValue _ => None
         end)
    (fun e => log "error" "span failed to send info event").

(** [span.error(error)]. *)
Definition error (this : nat) (error : value) : M unit :=
  log "span" "span.error on" ;;
  try_catch
    (let error := toError error in
     if falsy error then
       log "info" "invalid input to span.error(...)"
     else
       _internal this "error" (Some (<["error" := error]> ∅)))
    (fun e => log "error" "span failed to send error event").

(** ** An initial process, for examples *)

Definition init_world (bridge : TxArgs -> value) : World :=
  {| span_store := []; event_store := []; closures := [];
     stats := mkStats 0 0 0 0 0 0;
     lastEvent := None; lastSpan := None;
     contexts := []; next_context := 0; store_topSpan := None;
     reported := []; sent := []; reporter := bridge; logs := [];
     clock := 0; next_op := 0 |}.

(** A bridge that refuses every summary with the numeric code 1. *)
Definition refusing_bridge (_ : TxArgs) : value := VNumber (Num 1).

(** Settings of a fresh trace (no inbound context) with the given sample
    decision; metrics are on. *)
Definition fresh_settings (sample : bool) : Settings.t :=
  {| Settings.traceTaskId := None; Settings.edge := VBool false;
     Settings.doSample := sample; Settings.doMetrics := true;
     Settings.source := VNumber (Num 1); Settings.rate := VNumber (Num 1000000) |}.

(** The process after [Span.makeEntrySpan('http', settings)]. *)
Definition http_world (sample : bool) : World :=
  snd (makeEntrySpan (VString "http") (fresh_settings sample) None
         (init_world refusing_bridge)).

(** ** Vocabulary of the statements *)

(** A span of the store whose two events are in the store and distinct, as
    the constructor builds them. *)
Definition span_wf (w : World) (this : nat) : Prop :=
  exists s, span_store w !! this = Some s /\
    is_Some (event_store w !! Span.events_entry s) /\
    is_Some (event_store w !! Span.events_exit s) /\
    Span.events_entry s <> Span.events_exit s.

(** What is asked of a function wrapped by [runSync]: whatever it does to the
    process, the span it runs in is still a span with its two events when it
    ends (JavaScript cannot destroy an object that [runSync] still holds). *)
Definition keeps_span (this : nat) (fn : Fn.t) : Prop :=
  forall w, span_wf w this ->
    fst (Fn.call fn this None w) <> Stuck /\
    span_wf (snd (Fn.call fn this None w)) this.

(** The extra edge of [exit]: one edge to the last event exactly when there
    is a last event, it is not the span's own entry event, and the exit event
    is not flagged to skip edging. *)
Definition extra_edge (w : World) (s : Span.t) (x : Event.t) : list edge :=
  match lastEvent w with
  | Some l =>
      if bool_decide (l ≠ Span.events_entry s) && negb (Event.ignore x)
      then [EdgeEvent l] else []
  | None => []
  end.

(** The error of the exit event once [error] went through [setExitError],
    [old] being the error it held before: a string is attached as a new Error
    with that message and an Error as itself, unless the ignore-predicate
    returns a truthy value for it (or throws); any other value attaches
    nothing. *)
Definition exit_error_after (s : Span.t) (error : value) (old : option value)
    : option value :=
  match toError error with
  | VError k m =>
      match Span.ignoreErrorFn s with
      | None => Some (VError k m)
      | Some ignoreErrorFn =>
          match ignoreErrorFn (VError k m) with
          | Returns b => if truthy b then old else Some (VError k m)
          | Raises _ => old
          end
      end
  | _ => old
  end.

(** The precedence of transaction names: the custom name when it is a
    non-empty string; when it is a function, what a call of it returns if
    that is truthy; in every other case (unset, another value, a call that
    throws or returns a falsy value) the default name. *)
Definition chosen_name (s : Span.t) : value :=
  match Span.customTxName s with
  | TxValue (VString n) =>
      if String.eqb n "" then Span.defaultTxName s else VString n
  | TxFunction customTxName =>
      match customTxName tt with
      | Returns v => if truthy v then v else Span.defaultTxName s
      | Raises _ => Span.defaultTxName s
      end
  | _ => Span.defaultTxName s
  end.

(** The name [sendNonHttpSpan] returns: the bridge's answer when it is a
    non-empty string, else the name it was given when that is truthy, else
    ["unknown"]. *)
Definition final_name (bridge : TxArgs -> value) (args : TxArgs) : value :=
  let answer := bridge args in
  if is_string answer && truthy answer then answer
  else if truthy (args_txname args) then args_txname args
  else VString "unknown".

(** The span object the constructor leaves in the store. *)
Definition fresh_span (name : value) (doSample : bool) (entry : nat) : Span.t :=
  {| Span.topSpan := false; Span.doMetrics := false; Span._async := VBool false;
     Span.name := name; Span.events_internal := [];
     Span.events_entry := entry; Span.events_exit := S entry;
     Span.doSample := doSample; Span.ignoreErrorFn := None;
     Span.skeleton := None; Span.isSkeleton := false; Span.count := VUndefined;
     Span.defaultTxName := VUndefined; Span.customTxName := TxUnset |}.

Definition edge_flag (settings : SpanSettings.t) : value :=
  match SpanSettings.edge settings with Some v => v | None => VBool true end.

(** The sample decision of a trace: the flag of the inbound task id, or of
    the random one made from [settings.doSample]. *)
Definition sample_of (settings : Settings.t) : bool :=
  match Settings.traceTaskId settings with
  | Some e => sampleFlag e
  | None => Settings.doSample settings
  end.

(** The entry span and the skeleton that [makeEntrySpan] leaves in the store. *)
Definition entry_span (name : value) (settings : Settings.t) (top entry : nat)
    : Span.t :=
  {| Span.topSpan := true; Span.doMetrics := Settings.doMetrics settings;
     Span._async := VBool false;
     Span.name := name; Span.events_internal := [];
     Span.events_entry := entry; Span.events_exit := S entry;
     Span.doSample := sample_of settings; Span.ignoreErrorFn := None;
     Span.skeleton := if sample_of settings then None else Some (S top);
     Span.isSkeleton := false; Span.count := VUndefined;
     Span.defaultTxName := VString ("custom-" +:+ to_str name);
     Span.customTxName := TxUnset |}.

Definition skeleton_span (entry : nat) : Span.t :=
  Span.with_isSkeleton true (fresh_span (VString "__skeleton__") false entry).

(** Nested descents: [s1 = this.descend(..)], [s2 = s1.descend(..)], ...,
    one per argument pair; the result lists the spans returned. *)
Fixpoint descend_nested (args : list (value * option (gmap string value)))
    (this : nat) : M (list nat) :=
  match args with
  | [] => ret []
  | (name, data) :: rest =>
      span <- descend this name data ;;
      spans <- descend_nested rest span ;;
      ret (span :: spans)
  end.

(** A sequence of entry and exit reports on one span, each with its data. *)
Inductive report_op :=
| OpEnter (data : option (gmap string value))
| OpExit (data : option (gmap string value)).

Fixpoint run_ops (this : nat) (ops : list report_op) : M unit :=
  match ops with
  | [] => ret tt
  | OpEnter data :: rest => enter this data ;; run_ops this rest
  | OpExit data :: rest => exit this data ;; run_ops this rest
  end.

(** For the examples: a function of no parameter that throws [v], and a
    custom-name function that returns the empty string. *)
Definition throws (v : value) : Fn.t :=
  {| Fn.length := 0; Fn.call := fun _ _ => throw v |}.

Definition names_nothing (_ : unit) : outcome := Returns (VString "").

(** An ignore-predicate that matches every error. *)
Definition ignores_all (_ : value) : outcome := Returns (VBool true).

(** Extra data for a report: the one key [Foo]. *)
Definition foo_data : option (gmap string value) :=
  Some (<["Foo" := VNumber (Num 1)]> ∅).

(** The number of entry reports and of exit reports in a sequence. *)
Fixpoint enters (ops : list report_op) : Z :=
  match ops with
  | [] => 0
  | OpEnter _ :: rest => (1 + enters rest)%Z
  | OpExit _ :: rest => enters rest
  end.

Fixpoint exits (ops : list report_op) : Z :=
  match ops with
  | [] => 0
  | OpEnter _ :: rest => exits rest
  | OpExit _ :: rest => (1 + exits rest)%Z
  end.

(** [try { if (ctx) ao.requestStore.exit(ctx) } catch (e) { log.error(..) }],
    the end of both run wrappers. *)
Definition release (ctx : option Context) : M unit :=
  try_catch
    (match ctx with
     | Some ctx => store_exit ctx
     | None => ret tt
     end)
    (fun e => log "error" "span failed to exit context").

(** The function [runAsync] hands to the function it runs, for the span
    [span], the cell [kvpairs] and the start time it captured. *)
Definition async_wrapper (span kvpairs : nat) (startTime : option Z) : Wrapper :=
  fun cb handler args =>
    let err := hd VUndefined args in
    match handler with
    | Some handler => _ <- handler args ;; ret tt
    | None =>
        s <- read_span span ;;
        when (Span.topSpan s && Span.doMetrics s)
          (txname <- getTransactionName span ;;
           now <- Date_now ;;
           let et := elapsed now startTime in
           finaltxname <- sendNonHttpSpan txname et err ;;
           set_kvpairs kvpairs "TransactionName" finaltxname ;;
           when (bool_decide (txname ≠ finaltxname))
             (log "warn" "Span.runAsync txname mismatch: %s !== %s")) ;;
        kv <- read_kvpairs kvpairs ;;
        exitCheckingError span err (Some kv)
    end ;;
    cb args.

(** A function of one parameter that never uses it. *)
Definition ignores_wrapper (fn : Fn.t) : Prop :=
  forall this wrap w, Fn.call fn this wrap w = Fn.call fn this None w.

(** [function (wrap) { return wrap(cb, handler)(...args) }]: a function of
    one parameter that wraps its callback and calls it at once. *)
Definition calls_back (cb : Callback) (handler : option Callback)
    (args : list value) : Fn.t :=
  {| Fn.length := 1;
     Fn.call := fun _ wrap =>
       match wrap with
       | Some wrap => wrap cb handler args
       | None => throw (VError KTypeError "wrap is not a function")
       end |}.

(** A callback that returns [v] and does nothing else. *)
Definition answers (v : value) : Callback := fun _ => ret v.

(** ** Symbolic execution of the store and the monad *)

Local Close Scope Z_scope.

Ltac exec :=
  unfold enter, exit, sendReport, update_event, update_span, read_event, read_span,
    try_catch, attempt, bind, log, bump, modify, gets, when, resume, ret, throw,
    store_set_topSpan; cbn.

Ltac exec_run :=
  unfold try_catch, when, createContext, store_enter, store_exit, Date_now, log,
    attempt, resume, bind, ret, throw, modify, gets, read_span; cbn.

Lemma bind_normal {A B} (m : M A) (k : A -> M B) w a w' :
  m w = (Normal a, w') -> bind m k w = k a w'.
Proof. intros H. unfold bind. rewrite H. reflexivity. Qed.

Lemma attempt_eq {A} (m : M A) w c w' :
  m w = (c, w') -> c <> Stuck -> attempt m w = (Normal c, w').
Proof. intros H Hc. unfold attempt. rewrite H. destruct c; congruence. Qed.

Lemma read_span_eq r w s : span_store w !! r = Some s -> read_span r w = (Normal s, w).
Proof. intros H. unfold read_span. rewrite H. reflexivity. Qed.

Lemma read_event_eq r w e : event_store w !! r = Some e -> read_event r w = (Normal e, w).
Proof. intros H. unfold read_event. rewrite H. reflexivity. Qed.

Lemma update_span_eq r f w s :
  span_store w !! r = Some s ->
  update_span r f w = (Normal tt, with_span_store (<[r := f s]> (span_store w)) w).
Proof. intros H. unfold update_span. rewrite (bind_normal _ _ _ _ _ (read_span_eq _ _ _ H)). reflexivity. Qed.

Lemma update_event_eq r f w e :
  event_store w !! r = Some e ->
  update_event r f w = (Normal tt, with_event_store (<[r := f e]> (event_store w)) w).
Proof. intros H. unfold update_event. rewrite (bind_normal _ _ _ _ _ (read_event_eq _ _ _ H)). reflexivity. Qed.

Lemma bump_eq f w : bump f w = (Normal tt, with_stats (f (stats w)) w).
Proof. reflexivity. Qed.

Lemma log_eq lvl msg w : log lvl msg w = (Normal tt, with_logs (logs w ++ [mkLog lvl msg]) w).
Proof. reflexivity. Qed.

Lemma lookup_snoc {A} (l : list A) x : (l ++ [x]) !! length l = Some x.
Proof. rewrite lookup_app_r by lia. rewrite Nat.sub_diag. reflexivity. Qed.

Lemma insert_snoc {A} (l : list A) x y : <[length l := y]> (l ++ [x]) = l ++ [y].
Proof. rewrite insert_app_r_alt by lia. rewrite Nat.sub_diag. reflexivity. Qed.

Lemma lookup_first {A} (l : list A) x r : (l ++ x :: r) !! length l = Some x.
Proof. induction l; cbn; auto. Qed.

Lemma insert_first {A} (l : list A) x y r :
  <[length l := y]> (l ++ x :: r) = l ++ y :: r.
Proof. induction l; cbn; [reflexivity|]. f_equal. exact IHl. Qed.

Lemma lookup_second {A} (l : list A) x y r :
  (l ++ x :: y :: r) !! S (length l) = Some y.
Proof. induction l; cbn; auto. Qed.

Lemma insert_second {A} (l : list A) x y z r :
  <[S (length l) := z]> (l ++ x :: y :: r) = l ++ x :: z :: r.
Proof. induction l; cbn; [reflexivity|]. f_equal. exact IHl. Qed.

Lemma is_Some_insert {A} (l : list A) i j x :
  is_Some (l !! i) -> is_Some (<[j := x]> l !! i).
Proof.
  intros H. apply lookup_lt_is_Some. rewrite length_insert.
  apply lookup_lt_is_Some. exact H.
Qed.

Lemma with_error_id x : Event.with_error (Event.error x) x = x.
Proof. destruct x; reflexivity. Qed.

Lemma with_logs_id w : with_logs (logs w) w = w.
Proof. destruct w; reflexivity. Qed.

Lemma with_event_store_id w : with_event_store (event_store w) w = w.
Proof. destruct w; reflexivity. Qed.

Lemma same_exit_error w r x :
  event_store w !! r = Some x ->
  with_logs (logs w)
    (with_event_store
       (<[r := Event.with_error (Event.error x) x]> (event_store w)) w) = w.
Proof.
  intros Hx. rewrite with_error_id, list_insert_id by exact Hx.
  rewrite with_event_store_id. apply with_logs_id.
Qed.

(** ** What each operation does to the process *)

(** The constructor, given a truthy name: two events and one span enter the
    stores, at the next free references. *)
Lemma newSpan_spec name settings data w :
  truthy name = true ->
  let t := SpanSettings.traceTaskId settings in
  let entry := Event.construct name "entry" t (edge_flag settings) (next_op w) in
  let exit := Event.construct name "exit" (Event.event entry) (VBool true)
                (S (next_op w)) in
  exists st,
    newSpan name settings data w =
      (Normal (length (span_store w)),
       with_span_store
         (span_store w ++
            [fresh_span name (sampleFlag t) (length (event_store w))])
         (with_event_store (event_store w ++ [Event.set data entry; exit])
            (with_next_op (S (S (next_op w))) (with_stats st w)))).
Proof.
  intros Hname t entry exit. unfold newSpan, falsy. rewrite Hname. cbn.
  unfold newEvent, fresh_op, alloc_event, alloc_span, update_event, read_event,
    bump, bind, modify, ret. cbn.
  rewrite lookup_snoc. cbn.
  rewrite length_app. cbn.
  rewrite lookup_app_l by (rewrite length_app; cbn; lia).
  rewrite lookup_snoc. cbn.
  rewrite insert_app_l by (rewrite length_app; cbn; lia).
  rewrite insert_snoc. rewrite <- app_assoc. cbn.
  rewrite Nat.add_1_r.
  eexists. reflexivity.
Qed.

(** [makeEntrySpan], given a truthy name: the entry span, then the skeleton
    when the trace is not sampled. *)
Lemma makeEntrySpan_spec name settings kvpairs w :
  truthy name = true ->
  let top := length (span_store w) in
  let n := length (event_store w) in
  exists w1 evs,
    makeEntrySpan name settings kvpairs w = (Normal top, w1) /\
    span_store w1 =
      span_store w ++
        entry_span name settings top n ::
        (if sample_of settings then [] else [skeleton_span (S (S n))]) /\
    event_store w1 = event_store w ++ evs /\
    length evs = (if sample_of settings then 2 else 4)%nat /\
    lastEvent w1 = lastEvent w /\ reported w1 = reported w.
Proof.
  intros Hname top n. subst top n.
  remember (makeEntrySpan name settings kvpairs w) as R eqn:HR.
  pose proof HR as Hrun. unfold makeEntrySpan in Hrun.
  rewrite (bind_normal _ _ _ _ _ (bump_eq _ _)) in Hrun.
  rewrite (bind_normal _ _ _ _ _ (log_eq _ _ _)) in Hrun.
  match type of Hrun with _ = bind ?m _ ?W =>
    assert (Htask : exists t W', m W = (Normal t, W') /\ sampleFlag t = sample_of settings /\
       span_store W' = span_store w /\ event_store W' = event_store w /\
       lastEvent W' = lastEvent w /\ reported W' = reported w)
  end.
  { unfold sample_of. destruct (Settings.traceTaskId settings); do 2 eexists; (split; [reflexivity|]); cbn; auto. }
  destruct Htask as (t & W' & Htask & Hsample & Hs0 & He0 & Hl0 & Hr0).
  rewrite (bind_normal _ _ _ _ _ Htask) in Hrun.
  match type of Hrun with _ = bind (newSpan ?a ?b ?c) _ ?W =>
    destruct (newSpan_spec a b c W Hname) as [st Hnew] end.
  rewrite (bind_normal _ _ _ _ _ Hnew) in Hrun. clear Hnew.
  cbn [SpanSettings.traceTaskId] in Hrun. rewrite Hs0, He0, Hsample in Hrun.
  erewrite bind_normal in Hrun by (apply update_span_eq; cbn; apply lookup_snoc).
  erewrite bind_normal in Hrun by (apply read_span_eq; cbn; rewrite insert_snoc; apply lookup_snoc).
  cbn [Span.doSample Span.events_entry Span.with_skeleton fresh_span] in Hrun.
  set (W1 := with_span_store _ _) in Hrun.
  assert (HsW1 : span_store W1 = span_store w ++ [fresh_span name (sample_of settings) (length (event_store w))]).
  { subst W1. cbn. rewrite insert_snoc. reflexivity. }
  assert (HeW1 : exists a b, event_store W1 = event_store w ++ [a; b] /\
            sampleFlag (Event.event a) = sample_of settings).
  { subst W1. cbn. do 2 eexists. split; [reflexivity|].
    rewrite <- Hsample. destruct kvpairs; reflexivity. }
  destruct HeW1 as (ea & eb & HeW1 & Hsea).
  assert (HlW1 : lastEvent W1 = lastEvent w /\ reported W1 = reported w).
  { subst W1. cbn. auto. }
  clearbody W1.
  match type of Hrun with _ = bind ?m _ _ =>
    assert (Hsk : exists W2 evs, m W1 = (Normal tt, W2) /\
      span_store W2 = span_store w ++
        Span.with_skeleton (if sample_of settings then None else Some (S (length (span_store w))))
          (fresh_span name (sample_of settings) (length (event_store w))) ::
        (if sample_of settings then [] else [skeleton_span (S (S (length (event_store w))))]) /\
      event_store W2 = event_store w ++ ea :: evs /\
      length evs = (if sample_of settings then 1 else 3)%nat /\
      lastEvent W2 = lastEvent w /\ reported W2 = reported w)
  end.
  { destruct (sample_of settings); cbn [negb].
    - exists W1, [eb]. split; [reflexivity|]. rewrite HsW1, HeW1. destruct HlW1. auto.
    - 
      erewrite bind_normal by (apply read_event_eq; rewrite HeW1; apply lookup_first).
      match goal with |- context [bind (newSpan ?a ?b ?c) _ ?W] =>
        destruct (newSpan_spec a b c W eq_refl) as [st2 Hnew] end.
      rewrite (bind_normal _ _ _ _ _ Hnew). clear Hnew.
      rewrite HsW1, HeW1. cbn [SpanSettings.traceTaskId].
      rewrite !length_app. cbn [length]. rewrite !Nat.add_1_r.
      replace (length (event_store w) + 2)%nat with (S (S (length (event_store w)))) by lia.
      erewrite bind_normal by
        (apply update_span_eq; cbn; rewrite <- app_assoc; cbn [app]; apply lookup_first).
      erewrite update_span_eq by
        (cbn; rewrite <- app_assoc; cbn [app];
         rewrite insert_first; apply lookup_second).
      do 2 eexists. split; [reflexivity|]. cbn.
      rewrite <- !app_assoc. cbn [app]. rewrite insert_first, insert_second.
      rewrite Hsea.
      split; [reflexivity|]. split; [reflexivity|]. destruct HlW1. auto. }
  destruct Hsk as (W2 & evs & Hsk & HsW2 & HeW2 & Hlen & HlW2 & HrW2).
  rewrite (bind_normal _ _ _ _ _ Hsk) in Hrun.
  erewrite bind_normal in Hrun by (apply update_span_eq; rewrite HsW2; apply lookup_first).
  erewrite bind_normal in Hrun by
    (apply update_span_eq; cbn; rewrite HsW2, insert_first; apply lookup_first).
  erewrite bind_normal in Hrun by
    (apply update_span_eq; cbn; rewrite HsW2, !insert_first; apply lookup_first).
  erewrite bind_normal in Hrun by
    (apply update_span_eq; cbn; rewrite HsW2, !insert_first; apply lookup_first).
  erewrite bind_normal in Hrun by
    (apply update_event_eq; cbn; rewrite HeW2; apply lookup_first).
  rewrite Hrun.
  do 2 eexists. split; [reflexivity|]. cbn.
  rewrite HsW2, HeW2, !insert_first. cbn. rewrite Hname.
  split; [reflexivity|]. split; [reflexivity|]. cbn. rewrite Hlen.
  split; [destruct (sample_of settings); reflexivity|]. auto.
Qed.

(** [makeEntrySpan], given a falsy name: the constructor's TypeError. *)
Lemma makeEntrySpan_falsy_name name settings kvpairs w :
  truthy name = false ->
  exists w',
    makeEntrySpan name settings kvpairs w =
      (Throw (VError KTypeError ("invalid span name " +:+ to_str name)), w') /\
    span_store w' = span_store w /\ event_store w' = event_store w.
Proof.
  intros Hname. unfold makeEntrySpan.
  rewrite (bind_normal _ _ _ _ _ (bump_eq _ _)).
  rewrite (bind_normal _ _ _ _ _ (log_eq _ _ _)).
  unfold newSpan, falsy. rewrite Hname. cbn [negb].
  destruct (Settings.traceTaskId settings);
    (eexists; split; [reflexivity|]; cbn; auto).
Qed.

(** [setExitError] never throws and changes the exit event's error only. *)
Lemma setExitError_spec this err w s x :
  span_store w !! this = Some s ->
  event_store w !! Span.events_exit s = Some x ->
  exists l,
    setExitError this err w =
      (Normal tt,
       with_logs l
         (with_event_store
            (<[Span.events_exit s :=
                 Event.with_error (exit_error_after s err (Event.error x)) x]>
               (event_store w)) w)).
Proof.
  intros Hs Hx. unfold setExitError, exit_error_after.
  destruct err as [| |b|n|str|k m|o]; cbn [toError truthy]; exec;
    try (exists (logs w); rewrite same_exit_error by exact Hx; reflexivity).
  all: rewrite Hs; destruct (Span.ignoreErrorFn s) as [f|]; cbn;
    [ | rewrite Hx; cbn; exists (logs w); reflexivity ].
  all: match goal with f : value -> outcome |- context [?g (VError ?k ?m)] =>
         constr_eq g f; destruct (f (VError k m)) as [b|e] end; cbn;
    [ unfold falsy; destruct (truthy b); cbn; rewrite ?Hx; cbn;
      [ exists (logs w); rewrite same_exit_error by exact Hx; reflexivity
      | exists (logs w); reflexivity ]
    | eexists; rewrite with_error_id, list_insert_id by exact Hx;
      rewrite with_event_store_id; reflexivity ].
Qed.

(** [getTransactionName] never throws and changes the log only. *)
Lemma getTransactionName_spec this w s :
  span_store w !! this = Some s ->
  exists l, getTransactionName this w = (Normal (chosen_name s), with_logs l w).
Proof.
  intros Hs. unfold getTransactionName, chosen_name. exec. rewrite Hs.
  pose proof (with_logs_id w) as Hw.
  destruct (Span.customTxName s) as [|f|v]; cbn.
  - exists (logs w). rewrite Hw. reflexivity.
  - destruct (f tt) as [v|e]; cbn.
    + unfold falsy. destruct (truthy v); cbn; exists (logs w); rewrite Hw; reflexivity.
    + eexists. reflexivity.
  - destruct v as [| |b|n|n|k m|o]; cbn; try (exists (logs w); rewrite Hw; reflexivity).
    + destruct b; cbn; exists (logs w); rewrite Hw; reflexivity.
    + destruct n as [|z]; cbn; [|destruct (Z.eqb z 0)]; cbn; exists (logs w); rewrite Hw; reflexivity.
    + unfold falsy; cbn. destruct (String.eqb n "") eqn:E; cbn; rewrite ?E; cbn;
        exists (logs w); rewrite Hw; reflexivity.
Qed.

(** [sendNonHttpSpan] sends one summary and may log. *)
Lemma sendNonHttpSpan_spec txname duration error w :
  let args := mkTxArgs txname duration (truthy error) in
  exists l,
    sendNonHttpSpan txname duration error w =
      (Normal (final_name (reporter w) args),
       with_logs l (with_sent (sent w ++ [args]) w)).
Proof.
  intros args. unfold sendNonHttpSpan, final_name. exec. fold args.
  destruct (is_string (reporter w args) && truthy (reporter w args)); cbn.
  - exists (logs w). reflexivity.
  - eexists. reflexivity.
Qed.

(** [enter] reports the entry event once and, on a skeleton, resets its
    annotation mapping. *)
Lemma enter_spec this data w s e :
  span_store w !! this = Some s ->
  event_store w !! Span.events_entry s = Some e ->
  exists w',
    enter this data w = (Normal tt, w') /\
    span_store w' = span_store w /\
    event_store w' =
      <[Span.events_entry s :=
          if Span.isSkeleton s
          then Event.with_kv (keep_reserved (Event.kv (Event.sendReport data e)))
                 (Event.sendReport data e)
          else Event.sendReport data e]> (event_store w) /\
    reported w' = reported w ++ [(Span.events_entry s, Event.sendReport data e)] /\
    lastEvent w' = lastEvent w /\
    closures w' = closures w /\
    sent w' = sent w /\ reporter w' = reporter w /\ clock w' = clock w /\
    contexts w' = contexts w.
Proof.
  intros Hs He.
  exec.
  rewrite Hs.
  pose proof (lookup_lt_Some _ _ _ He) as Hlt.
  destruct (Span.topSpan s); cbn; rewrite He; cbn;
    rewrite list_lookup_insert_eq by exact Hlt; cbn;
    destruct (Span.isSkeleton s); cbn;
    rewrite ?list_lookup_insert_eq by exact Hlt; cbn;
    rewrite ?list_insert_insert_eq;
    (eexists; split; [reflexivity|]; cbn; repeat split; reflexivity).
Qed.

(** [exit] pushes the extra edge, reports the exit event once and, on a
    skeleton, resets the annotation mapping of the entry event. *)
Lemma exit_spec this data w s e x :
  span_store w !! this = Some s ->
  event_store w !! Span.events_entry s = Some e ->
  event_store w !! Span.events_exit s = Some x ->
  Span.events_entry s <> Span.events_exit s ->
  let x' := Event.sendReport data
              (Event.with_edges (Event.edges x ++ extra_edge w s x) x) in
  exists w',
    exit this data w = (Normal tt, w') /\
    span_store w' = span_store w /\
    event_store w' =
      <[Span.events_entry s :=
          if Span.isSkeleton s
          then Event.with_kv (keep_reserved (Event.kv e)) e else e]>
        (<[Span.events_exit s := x']> (event_store w)) /\
    reported w' = reported w ++ [(Span.events_exit s, x')] /\
    lastEvent w' = lastEvent w /\ lastSpan w' = lastSpan w /\
    closures w' = closures w /\
    sent w' = sent w /\ reporter w' = reporter w /\ clock w' = clock w /\
    contexts w' = contexts w /\ next_context w' = next_context w.
Proof.
  intros Hs He Hx Hne x'. subst x'. unfold extra_edge.
  pose proof (lookup_lt_Some _ _ _ He) as Hlte.
  pose proof (lookup_lt_Some _ _ _ Hx) as Hltx.
  exec. rewrite Hs. cbn.
  destruct (Span.topSpan s); cbn;
  destruct (lastEvent w) as [l|] eqn:Hl; cbn;
  try (destruct (bool_decide (l ≠ Span.events_entry s)); cbn);
  rewrite ?Hx; cbn;
  try (destruct (Event.ignore x); cbn).
  all: rewrite ?Hx; cbn.
  all: rewrite ?list_lookup_insert_eq by (rewrite ?length_insert; exact Hltx); cbn.
  all: rewrite ?list_insert_insert_eq.
  all: rewrite ?list_lookup_insert_eq by (rewrite ?length_insert; exact Hltx); cbn.
  all: rewrite ?list_insert_insert_eq.
  all: destruct (Span.isSkeleton s); cbn.
  all: rewrite ?list_lookup_insert_ne by (intros E; apply Hne; symmetry; exact E); rewrite ?He; cbn.
  all: eexists; (split; [reflexivity|]); cbn.
  all: repeat split; try reflexivity.
  all: rewrite ?app_nil_r.
  all: replace (Event.with_edges (Event.edges x) x) with x by (destruct x; reflexivity).
  all: try reflexivity.
  all: try (symmetry; exact Hl); try exact Hl.
  all: symmetry; apply list_insert_id.
  all: rewrite list_lookup_insert_ne by (intros E; apply Hne; symmetry; exact E); exact He.
Qed.

(** [runSync], step by step: the entry report, the wrapped function, the
    attachment of what it threw, the exit report, its completion again. *)
Lemma runSync_spec this fn w s e :
  span_store w !! this = Some s ->
  event_store w !! Span.events_entry s = Some e ->
  is_Some (event_store w !! Span.events_exit s) ->
  Span.events_entry s <> Span.events_exit s ->
  keeps_span this fn ->
  exists w1 c w2 s2 x2 x' w',
    reported w1 = reported w ++ [(Span.events_entry s, Event.sendReport None e)] /\
    span_store w1 = span_store w /\
    Fn.call fn this None w1 = (c, w2) /\ c <> Stuck /\
    span_store w2 !! this = Some s2 /\
    event_store w2 !! Span.events_exit s2 = Some x2 /\
    runSync this fn w = (c, w') /\
    reported w' = reported w2 ++ [(Span.events_exit s2, x')] /\
    event_store w' !! Span.events_exit s2 = Some x' /\
    Event.error x' =
      match c with
      | Throw err => exit_error_after s2 err (Event.error x2)
      | _ => Event.error x2
      end.
Proof.
  intros Hs He Hx Hne Hfn.
  assert (Hentered : exists ctx startTime wp,
    try_catch
       (bind (read_span this) (fun s =>
        if Span.topSpan s then
          bind (if Span.doMetrics s then
                          bind Date_now (fun now => ret (Some now))
                        else ret None) (fun startTime =>
          bind (createContext true) (fun ctx =>
          bind (store_enter ctx) (fun _ =>
          ret (Some ctx, startTime))))
        else ret (None, None)))
       (fun e => bind (log "error" "span failed to enter context") (fun _ =>
                 ret (None, None))) w = (Normal (ctx, startTime), wp) /\
    span_store wp = span_store w /\ event_store wp = event_store w /\
    reported wp = reported w).
  { exec_run. rewrite Hs. destruct (Span.topSpan s); cbn;
      [destruct (Span.doMetrics s); cbn|]; do 3 eexists; (split; [reflexivity|]);
      cbn; auto. }
  destruct Hentered as (ctx & startTime & wp & Hpro & Hsp & Hep & Hrp).
  pose proof (eq_refl (runSync this fn w)) as Hrun.
  unfold runSync at 2 in Hrun.
  rewrite (bind_normal _ _ _ _ _ Hpro) in Hrun. cbv beta iota in Hrun.
  destruct (enter_spec this None wp s e) as (w1 & Hent & Hs1 & He1 & Hr1 & _);
    [rewrite Hsp; exact Hs | rewrite Hep; exact He |].
  rewrite (bind_normal _ _ _ _ _ Hent) in Hrun.
  assert (Hwf1 : span_wf w1 this).
  { exists s. rewrite Hs1, Hsp, He1, Hep. split; [exact Hs|].
    split; [apply is_Some_insert; eauto|]. split; [apply is_Some_insert; exact Hx|exact Hne]. }
  destruct (Hfn w1 Hwf1) as [Hc Hwf2].
  destruct (Fn.call fn this None w1) as [c w2] eqn:Hcall. cbn in Hc, Hwf2.
  destruct Hwf2 as (s2 & Hs2 & [e2 He2] & [x2 Hx2] & Hne2).
  rewrite (bind_normal _ _ _ _ _ (attempt_eq _ _ _ _ Hcall Hc)) in Hrun.
  cbv beta iota in Hrun.
  set (x3 := Event.with_error
               match c with
               | Throw err => exit_error_after s2 err (Event.error x2)
               | _ => Event.error x2
               end x2).
  match type of Hrun with _ = bind ?m _ _ =>
    assert (Hcatch : exists w3, m w2 = (Normal c, w3) /\
      span_store w3 = span_store w2 /\
      event_store w3 = <[Span.events_exit s2 := x3]> (event_store w2) /\
      reported w3 = reported w2 /\ lastEvent w3 = lastEvent w2)
  end.
  { subst x3. destruct c as [v|err|]; [| |congruence].
    - eexists. split; [reflexivity|]. rewrite with_error_id, list_insert_id by exact Hx2. auto.
    - destruct (setExitError_spec this err w2 s2 x2 Hs2 Hx2) as [l Hset].
      eexists. split.
      + apply attempt_eq; [|discriminate]. rewrite (bind_normal _ _ _ _ _ Hset). reflexivity.
      + cbn. auto. }
  destruct Hcatch as (w3 & Hcatch & Hs3 & He3 & Hr3 & Hl3).
  rewrite (bind_normal _ _ _ _ _ Hcatch) in Hrun.
  assert (Hread : read_span this w3 = (Normal s2, w3)).
  { unfold read_span. rewrite Hs3, Hs2. reflexivity. }
  rewrite (bind_normal _ _ _ _ _ Hread) in Hrun.
  match type of Hrun with _ = bind ?m _ _ =>
    assert (Hkv : exists kv w4, m w3 = (Normal kv, w4) /\
      span_store w4 = span_store w3 /\ event_store w4 = event_store w3 /\
      reported w4 = reported w3 /\ lastEvent w4 = lastEvent w3)
  end.
  { destruct (Span.topSpan s2 && Span.doMetrics s2).
    - destruct (getTransactionName_spec this w3 s2) as [l1 Hget]; [rewrite Hs3; exact Hs2|].
      rewrite (bind_normal _ _ _ _ _ Hget).
      rewrite (bind_normal Date_now _ _ _ _ eq_refl).
      match goal with |- context [bind (sendNonHttpSpan ?a ?b ?c) _ ?d] =>
        destruct (sendNonHttpSpan_spec a b c d) as [l2 Hsend] end.
      rewrite (bind_normal _ _ _ _ _ Hsend).
      unfold when. destruct (bool_decide _); exec_run; do 2 eexists; (split; [reflexivity|]); cbn; auto. 
    - do 2 eexists. split; [reflexivity|]. auto. }
  destruct Hkv as (kv & w4 & Hkv & Hs4 & He4 & Hr4 & Hl4).
  rewrite (bind_normal _ _ _ _ _ Hkv) in Hrun.
  assert (Hx3 : event_store w4 !! Span.events_exit s2 = Some x3).
  { rewrite He4, He3. apply list_lookup_insert_eq. eapply lookup_lt_Some; exact Hx2. }
  assert (He3' : event_store w4 !! Span.events_entry s2 = Some e2).
  { rewrite He4, He3. rewrite list_lookup_insert_ne by (intros E; apply Hne2; symmetry; exact E).
    exact He2. }
  destruct (exit_spec this (Some kv) w4 s2 e2 x3) as (w5 & Hexit & Hs5 & He5 & Hr5 & _);
    [rewrite Hs4, Hs3; exact Hs2 | exact He3' | exact Hx3 | exact Hne2 |].
  rewrite (bind_normal _ _ _ _ _ Hexit) in Hrun.
  set (x' := Event.sendReport (Some kv)
               (Event.with_edges (Event.edges x3 ++ extra_edge w4 s2 x3) x3)) in *.
  assert (Hfinal : exists w', runSync this fn w = (c, w') /\
            event_store w' = event_store w5 /\ reported w' = reported w5).
  { rewrite Hrun. exec_run. destruct ctx; cbn; eexists; (split; [reflexivity|]); cbn; auto. }
  destruct Hfinal as (w' & Hres & He' & Hr').
  exists w1, c, w2, s2, x2, x', w'.
  split; [rewrite Hr1, Hrp; reflexivity|].
  split; [rewrite Hs1, Hsp; reflexivity|].
  split; [exact Hcall|]. split; [exact Hc|]. split; [exact Hs2|]. split; [exact Hx2|].
  split; [exact Hres|].
  split; [rewrite Hr', Hr5, Hr4, Hr3; reflexivity|].
  split.
  - rewrite He', He5.
    rewrite list_lookup_insert_ne by exact Hne2.
    apply list_lookup_insert_eq. eapply lookup_lt_Some; exact Hx3.
  - subst x' x3. cbn. destruct c; reflexivity.
Qed.

(** [descend] on an unsampled top span returns its skeleton. *)
Lemma descend_top_unsampled this name data w s k sk :
  span_store w !! this = Some s ->
  Span.doSample s = false -> Span.topSpan s = true ->
  Span.skeleton s = Some k ->
  span_store w !! k = Some sk ->
  exists l,
    descend this name data w =
      (Normal k,
       with_span_store (<[k := count_plus_one sk]> (span_store w))
         (with_logs l w)).
Proof.
  intros Hs Hd Ht Hk Hsk. unfold descend.
  rewrite (bind_normal (gets lastEvent) _ _ _ _ eq_refl).
  rewrite (bind_normal _ _ _ _ _ (log_eq _ _ _)).
  erewrite bind_normal by (apply read_span_eq; exact Hs).
  rewrite Hd, Ht, Hk. cbn [negb].
  erewrite bind_normal by (apply update_span_eq; exact Hsk).
  eexists. reflexivity.
Qed.

(** [descend] on an unsampled span that is no top span returns that span. *)
Lemma descend_skeleton this name data w s :
  span_store w !! this = Some s ->
  Span.doSample s = false -> Span.topSpan s = false ->
  exists l,
    descend this name data w =
      (Normal this,
       with_span_store (<[this := count_plus_one s]> (span_store w))
         (with_logs l w)).
Proof.
  intros Hs Hd Ht. unfold descend.
  rewrite (bind_normal (gets lastEvent) _ _ _ _ eq_refl).
  rewrite (bind_normal _ _ _ _ _ (log_eq _ _ _)).
  erewrite bind_normal by (apply read_span_eq; exact Hs).
  rewrite Hd, Ht. cbn [negb].
  unfold when. destruct (negb (Span.isSkeleton s)).
  - rewrite (bind_normal _ _ _ _ _ (log_eq _ _ _)).
    erewrite bind_normal by (apply update_span_eq; exact Hs).
    eexists. reflexivity.
  - rewrite (bind_normal (ret tt) _ _ _ _ eq_refl).
    erewrite bind_normal by (apply update_span_eq; exact Hs).
    eexists. reflexivity.
Qed.

(** Nested descents from a skeleton stay on it. *)
Lemma descend_nested_skeleton args : forall k w sk,
  span_store w !! k = Some sk ->
  Span.doSample sk = false -> Span.topSpan sk = false ->
  exists w' sk',
    descend_nested args k w = (Normal (replicate (length args) k), w') /\
    span_store w' = <[k := sk']> (span_store w) /\
    event_store w' = event_store w /\ reported w' = reported w.
Proof.
  induction args as [|[name data] rest IH]; intros k w sk Hk Hd Ht.
  - exists w, sk. split; [reflexivity|]. rewrite list_insert_id by exact Hk. auto.
  - cbn [descend_nested length replicate].
    destruct (descend_skeleton k name data w sk Hk Hd Ht) as [l Hdesc].
    rewrite (bind_normal _ _ _ _ _ Hdesc).
    destruct (IH k (with_span_store (<[k:=count_plus_one sk]> (span_store w)) (with_logs l w))
                (count_plus_one sk)) as (w' & sk' & Hrest & Hs' & He' & Hr').
    + cbn. apply list_lookup_insert_eq. eapply lookup_lt_Some; exact Hk.
    + exact Hd.
    + exact Ht.
    + rewrite (bind_normal _ _ _ _ _ Hrest).
      exists w', sk'. split; [reflexivity|]. rewrite Hs', He', Hr'. cbn.
      rewrite list_insert_insert_eq. auto.
Qed.

(** [descend] on a sampled span without last event: [last.event] throws. *)
Lemma descend_sampled_no_last this name data w s :
  span_store w !! this = Some s ->
  Span.doSample s = true ->
  lastEvent w = None ->
  descend this name data w =
    (Throw (VError KTypeError "Cannot read property 'event' of null"),
     with_logs (logs w ++ [mkLog "span" "span.descend %s from ao.lastEvent %e"]) w).
Proof.
  intros Hs Hd Hl. unfold descend.
  rewrite (bind_normal (gets lastEvent) _ _ _ _ eq_refl).
  rewrite (bind_normal _ _ _ _ _ (log_eq _ _ _)).
  erewrite bind_normal by (apply read_span_eq; exact Hs).
  rewrite Hd, Hl. reflexivity.
Qed.

(** ** Properties *)

(** *** Dispatch of [run] *)

(** C6: [run(fn)] is [runAsync(fn)] exactly when [fn] declares one parameter
    and [runSync(fn)] for every other arity; the result of [run] is the
    result of the call it dispatches to. *)
Theorem run_dispatches_on_arity (this : nat) (fn : Fn.t) (w : World) :
  run this fn w =
    match Fn.length fn with
    | 1%nat => runAsync this fn w
    | _ => runSync this fn w
    end.
Proof.
  unfold run. destruct (Fn.length fn) as [|[|n]]; reflexivity.
Qed.

(** *** Construction *)

(** C8: constructing a Span with a falsy name throws a TypeError to the
    caller and leaves the process as it was: no entry/exit event pair is
    built (and no counter moves). *)
Theorem newSpan_falsy_name_throws (name : value) (settings : SpanSettings.t)
    (data : option (gmap string value)) (w : World) :
  truthy name = false ->
  newSpan name settings data w =
    (Throw (VError KTypeError ("invalid span name " +:+ to_str name)), w).
Proof.
  intros Hname. unfold newSpan, falsy. rewrite Hname. reflexivity.
Qed.

Lemma newSpan_falsy_name_throws_witness :
  newSpan (VString "") (SpanSettings.mk (mkAddon 7 8 true) None) None
    (init_world refusing_bridge) =
    (Throw (VError KTypeError "invalid span name "), init_world refusing_bridge).
Proof.
  apply (newSpan_falsy_name_throws (VString "")). reflexivity.
Defined.

(** *** Descent *)

(** C10: [descend] on a sampled span, when the context store has no last
    event, throws a TypeError to the caller and constructs nothing: the
    stores of spans and events and the counters are as before. *)
Theorem descend_without_last_event_throws (this : nat) (name : value)
    (data : option (gmap string value)) (w : World) (s : Span.t) :
  span_store w !! this = Some s ->
  Span.doSample s = true ->
  lastEvent w = None ->
  exists msg w',
    descend this name data w = (Throw (VError KTypeError msg), w') /\
    span_store w' = span_store w /\
    event_store w' = event_store w /\
    stats w' = stats w.
Proof.
  intros Hs Hd Hl.
  rewrite (descend_sampled_no_last this name data w s Hs Hd Hl).
  do 2 eexists. split; [reflexivity|]. cbn. auto.
Qed.

Lemma descend_without_last_event_throws_witness :
  exists msg w',
    descend 0 (VString "fs") None (http_world true) =
      (Throw (VError KTypeError msg), w') /\
    span_store w' = span_store (http_world true) /\
    event_store w' = event_store (http_world true) /\
    stats w' = stats (http_world true).
Proof.
  eapply (descend_without_last_event_throws 0 (VString "fs") None (http_world true));
    vm_compute; reflexivity.
Defined.

(** *** Transaction names *)

(** C9 (as the code has it): [sendNonHttpSpan] hands the name, the duration
    and the error flag [!!error] to the Reporter Bridge, once; it returns the
    bridge's answer when that is a non-empty string; otherwise it returns the
    name it was given when that name is truthy and ["unknown"] when it is
    not. *)
Theorem sendNonHttpSpan_returns_final_name (txname : value) (duration : jsnum)
    (error : value) (w : World) :
  let args := mkTxArgs txname duration (truthy error) in
  let answer := reporter w args in
  exists w',
    sendNonHttpSpan txname duration error w =
      (Normal (if is_string answer && truthy answer then answer
               else if truthy txname then txname
               else VString "unknown"), w') /\
    sent w' = sent w ++ [args] /\
    logs w' = (if is_string answer && truthy answer then logs w
               else logs w ++ [mkLog "error" "sendNonHttpSpan() code"]).
Proof.
  intros args answer.
  unfold sendNonHttpSpan, bind, log, modify, ret. cbn. fold args answer.
  destruct (is_string answer && truthy answer); cbn;
    eexists; (split; [reflexivity|]); split; reflexivity.
Qed.

(** C9, the claim as written fails: the bridge refuses the summary and the
    name given is the empty string; ["unknown"] comes back, not the name
    given. *)
Lemma sendNonHttpSpan_empty_name_becomes_unknown :
  fst (sendNonHttpSpan (VString "") (Num 5) VUndefined
         (init_world refusing_bridge)) = Normal (VString "unknown") /\
  fst (sendNonHttpSpan (VString "") (Num 5) VUndefined
         (init_world refusing_bridge)) <> Normal (VString "").
Proof. split; [reflexivity | discriminate]. Qed.

(** C7 (as the code has it): [getTransactionName] never throws and returns
    the custom name when it is a non-empty string; when it is a function,
    what the call returns provided that is truthy; and the default name in
    every other case: no custom name, a custom name that is the empty string
    or neither string nor function, a function that throws or that returns
    a falsy value.  The default name of an entry span is ["custom-"] followed
    by its name, and no custom name is set at creation; a span without a
    (truthy) name is never made, the constructor throws. *)
Theorem getTransactionName_precedence :
  (forall (this : nat) (w : World) (s : Span.t),
      span_store w !! this = Some s ->
      exists w',
        getTransactionName this w =
          (Normal
             match Span.customTxName s with
             | TxValue (VString n) =>
                 if String.eqb n "" then Span.defaultTxName s else VString n
             | TxFunction customTxName =>
                 match customTxName tt with
                 | Returns v => if truthy v then v else Span.defaultTxName s
                 | Raises _ => Span.defaultTxName s
                 end
             | _ => Span.defaultTxName s
             end, w') /\
        span_store w' = span_store w) /\
  (forall (name : value) (settings : Settings.t)
          (kvpairs : option (gmap string value)) (w : World),
      truthy name = true ->
      exists top w1 s,
        makeEntrySpan name settings kvpairs w = (Normal top, w1) /\
        span_store w1 !! top = Some s /\
        Span.customTxName s = TxUnset /\
        Span.defaultTxName s = VString ("custom-" +:+ to_str name)) /\
  (forall (name : value) (settings : Settings.t)
          (kvpairs : option (gmap string value)) (w : World),
      truthy name = false ->
      exists err w1,
        makeEntrySpan name settings kvpairs w = (Throw err, w1) /\
        span_store w1 = span_store w).
Proof.
  split; [|split].
  - intros this w s Hs.
    destruct (getTransactionName_spec this w s Hs) as [l Hget].
    eexists. split; [exact Hget|]. reflexivity.
  - intros name settings kvpairs w Hname.
    destruct (makeEntrySpan_spec name settings kvpairs w Hname)
      as (w1 & evs & Hmake & Hs1 & _).
    do 3 eexists. split; [exact Hmake|]. rewrite Hs1.
    split; [apply lookup_first|]. split; reflexivity.
  - intros name settings kvpairs w Hname.
    destruct (makeEntrySpan_falsy_name name settings kvpairs w Hname)
      as (w1 & Hmake & Hs1 & _).
    do 2 eexists. split; [exact Hmake | exact Hs1].
Qed.

Lemma getTransactionName_precedence_witness :
  exists w',
    getTransactionName 0 (http_world true) = (Normal (VString "custom-http"), w') /\
    span_store w' = span_store (http_world true).
Proof.
  destruct (proj1 getTransactionName_precedence 0 (http_world true)
              (entry_span (VString "http") (fresh_settings true) 0 0) eq_refl)
    as (w' & Hget & Hsame).
  exists w'. split; [exact Hget | exact Hsame].
Defined.

(** C7, the claim as written fails: the custom name is a function that
    returns the empty string; the default name comes back, not the result of
    the call. *)
Lemma getTransactionName_falsy_result_is_dropped :
  let w := snd (update_span 0 (Span.with_customTxName (TxFunction names_nothing))
                  (http_world true)) in
  fst (getTransactionName 0 w) = Normal (VString "custom-http") /\
  fst (getTransactionName 0 w) <> Normal (VString "").
Proof. split; [vm_compute; reflexivity | vm_compute; discriminate]. Qed.

(** *** Exit *)

(** C5: [exit] never throws; the exit event gets exactly one more edge, to
    the last event, when there is a last event, it is not the span's own
    entry event and the exit event is not flagged to skip edging, and no more
    edge in every other case; the exit event is reported once, with those
    edges.  In particular, with no last event the edges are those the exit
    event already had (the edge to the entry event that the constructor
    gave it). *)
Theorem exit_adds_extra_edge_to_last_event (this : nat)
    (data : option (gmap string value)) (w : World) (s : Span.t)
    (e x : Event.t) :
  span_store w !! this = Some s ->
  event_store w !! Span.events_entry s = Some e ->
  event_store w !! Span.events_exit s = Some x ->
  Span.events_entry s <> Span.events_exit s ->
  exists w' x',
    exit this data w = (Normal tt, w') /\
    event_store w' !! Span.events_exit s = Some x' /\
    reported w' = reported w ++ [(Span.events_exit s, x')] /\
    Event.edges x' =
      Event.edges x ++
        match lastEvent w with
        | Some l =>
            if bool_decide (l ≠ Span.events_entry s) && negb (Event.ignore x)
            then [EdgeEvent l] else []
        | None => []
        end /\
    (lastEvent w = None -> Event.edges x' = Event.edges x).
Proof.
  intros Hs He Hx Hne.
  destruct (exit_spec this data w s e x Hs He Hx Hne)
    as (w' & Hexit & _ & He' & Hr' & _).
  do 2 eexists. split; [exact Hexit|]. split; [|split; [exact Hr'|]].
  - rewrite He'. rewrite list_lookup_insert_ne by exact Hne.
    apply list_lookup_insert_eq. eapply lookup_lt_Some; exact Hx.
  - assert (Hedges : forall d y, Event.edges (Event.sendReport d y) = Event.edges y)
      by (intros [d|] y; reflexivity).
    rewrite Hedges. cbn. split; [reflexivity|].
    intros Hl. unfold extra_edge. rewrite Hl. apply app_nil_r.
Qed.

Lemma exit_adds_extra_edge_to_last_event_witness :
  exists w' x',
    exit 0 None (http_world true) = (Normal tt, w') /\
    event_store w' !! 1%nat = Some x' /\
    reported w' = [(1%nat, x')] /\
    Event.edges x' = [EdgeOp 2].
Proof.
  edestruct (exit_adds_extra_edge_to_last_event 0 None (http_world true))
    as (w' & x' & Hexit & He' & Hr' & _ & Hnone);
    [ vm_compute; reflexivity | vm_compute; reflexivity | vm_compute; reflexivity
    | vm_compute; lia | ].
  exists w', x'. split; [exact Hexit|]. split; [exact He'|]. split; [exact Hr'|].
  exact (Hnone eq_refl).
Defined.

(** *** The skeleton *)

(** C2 (as the code has it): constructing an entry span with the name [""]
    fails with a TypeError and builds nothing; constructing an entry span
    with a truthy name and an unsampled trace succeeds and creates one
    Skeleton span beside it, and however many nested [descend] calls follow,
    each returns that same skeleton object. *)
Theorem unsampled_descendants_are_the_skeleton :
  (forall (settings : Settings.t) (kvpairs : option (gmap string value))
          (w : World),
      exists w',
        makeEntrySpan (VString "") settings kvpairs w =
          (Throw (VError KTypeError "invalid span name "), w') /\
        span_store w' = span_store w /\
        event_store w' = event_store w) /\
  (forall (name : value) (settings : Settings.t)
          (kvpairs : option (gmap string value)) (w : World)
          (args : list (value * option (gmap string value))),
      truthy name = true ->
      sample_of settings = false ->
      exists top k w1 w2 st sk,
        makeEntrySpan name settings kvpairs w = (Normal top, w1) /\
        span_store w1 !! top = Some st /\
        Span.skeleton st = Some k /\
        span_store w1 !! k = Some sk /\
        Span.isSkeleton sk = true /\
        k <> top /\
        descend_nested args top w1 = (Normal (replicate (length args) k), w2)).
Proof.
  split.
  { intros settings kvpairs w.
    exact (makeEntrySpan_falsy_name (VString "") settings kvpairs w eq_refl). }
  intros name settings kvpairs w args Hname Hsample.
  destruct (makeEntrySpan_spec name settings kvpairs w Hname)
    as (w1 & evs & Hmake & Hs1 & _).
  rewrite Hsample in Hs1.
  set (top := length (span_store w)) in *.
  assert (Htop : span_store w1 !! top =
                 Some (entry_span name settings top (length (event_store w))))
    by (rewrite Hs1; apply lookup_first).
  assert (Hk : span_store w1 !! S top =
               Some (skeleton_span (S (S (length (event_store w))))))
    by (rewrite Hs1; apply lookup_second).
  assert (Hskel : Span.skeleton (entry_span name settings top (length (event_store w)))
                  = Some (S top))
    by (cbn; rewrite Hsample; reflexivity).
  assert (Hdesc : exists w2,
            descend_nested args top w1 = (Normal (replicate (length args) (S top)), w2)).
  { destruct args as [|[n d] rest]; [eexists; reflexivity|].
    cbn [descend_nested length replicate].
    edestruct (descend_top_unsampled top n d w1) as [l Hd];
      [exact Htop | cbn; exact Hsample | reflexivity | exact Hskel | exact Hk |].
    rewrite (bind_normal _ _ _ _ _ Hd).
    match goal with |- context [bind (descend_nested rest (S top)) _ ?W] =>
      edestruct (descend_nested_skeleton rest (S top) W) as (w2 & sk' & Hrest & _)
    end.
    - cbn. apply list_lookup_insert_eq. eapply lookup_lt_Some; exact Hk.
    - reflexivity.
    - reflexivity.
    - rewrite (bind_normal _ _ _ _ _ Hrest). eexists. reflexivity. }
  destruct Hdesc as [w2 Hdesc].
  exists top, (S top), w1, w2. do 2 eexists.
  split; [exact Hmake|]. split; [exact Htop|]. split; [exact Hskel|].
  split; [exact Hk|]. split; [reflexivity|]. split; [lia | exact Hdesc].
Qed.

Lemma unsampled_descendants_are_the_skeleton_witness :
  exists top k w1 w2 st sk,
    makeEntrySpan (VString "http") (fresh_settings false) None
      (init_world refusing_bridge) = (Normal top, w1) /\
    span_store w1 !! top = Some st /\
    Span.skeleton st = Some k /\
    span_store w1 !! k = Some sk /\
    Span.isSkeleton sk = true /\
    k <> top /\
    descend_nested [(VString "a", None); (VString "b", None); (VString "c", None)]
      top w1 = (Normal [k; k; k], w2).
Proof.
  apply (proj2 unsampled_descendants_are_the_skeleton (VString "http")
           (fresh_settings false) None (init_world refusing_bridge)
           [(VString "a", None); (VString "b", None); (VString "c", None)]);
    reflexivity.
Defined.

(** C2, the claim as written fails: with the name [""] the constructor
    throws, so no entry span and no skeleton are made. *)
Lemma makeEntrySpan_empty_name_throws :
  fst (makeEntrySpan (VString "") (fresh_settings false) None
         (init_world refusing_bridge)) =
    Throw (VError KTypeError "invalid span name ") /\
  span_store (snd (makeEntrySpan (VString "") (fresh_settings false) None
                     (init_world refusing_bridge))) = [].
Proof. split; reflexivity. Qed.

(** The reuse counter of the skeleton is never initialised: after three
    nested descents it is NaN. *)
Example skeleton_count_after_three_descents :
  Span.count <$>
    span_store
      (snd (descend_nested
              [(VString "a", None); (VString "b", None); (VString "c", None)]
              0 (http_world false))) !! 1%nat
  = Some (VNumber NaN).
Proof. vm_compute. reflexivity. Qed.

(** [{Layer, Label}] has the two reserved keys, whatever they hold. *)
Lemma dom_keep_reserved (m : gmap string value) : dom (keep_reserved m) = reserved.
Proof.
  unfold keep_reserved, reserved. rewrite !dom_insert_L, dom_empty_L. set_solver.
Qed.

(** One report on a skeleton, entry or exit, resets the entry event. *)
Lemma skeleton_op_clears_entry this op w s e x :
  span_store w !! this = Some s ->
  Span.isSkeleton s = true ->
  event_store w !! Span.events_entry s = Some e ->
  event_store w !! Span.events_exit s = Some x ->
  Span.events_entry s <> Span.events_exit s ->
  exists w' e' x',
    match op with
    | OpEnter data => enter this data
    | OpExit data => exit this data
    end w = (Normal tt, w') /\
    span_store w' = span_store w /\
    event_store w' !! Span.events_entry s = Some e' /\
    event_store w' !! Span.events_exit s = Some x' /\
    dom (Event.kv e') = reserved.
Proof.
  intros Hs Hsk He Hx Hne.
  pose proof (lookup_lt_Some _ _ _ He) as Hlte.
  pose proof (lookup_lt_Some _ _ _ Hx) as Hltx.
  destruct op as [data|data].
  - destruct (enter_spec this data w s e Hs He) as (w' & Hent & Hs' & He' & _).
    rewrite Hsk in He'.
    do 3 eexists. split; [exact Hent|]. split; [exact Hs'|]. rewrite He'.
    split; [apply list_lookup_insert_eq; exact Hlte|].
    split; [rewrite list_lookup_insert_ne by exact Hne; exact Hx|].
    apply dom_keep_reserved.
  - destruct (exit_spec this data w s e x Hs He Hx Hne) as (w' & Hex & Hs' & He' & _).
    rewrite Hsk in He'.
    do 3 eexists. split; [exact Hex|]. split; [exact Hs'|]. rewrite He'.
    split; [apply list_lookup_insert_eq; rewrite length_insert; exact Hlte|].
    split; [rewrite list_lookup_insert_ne by exact Hne;
            apply list_lookup_insert_eq; exact Hltx|].
    apply dom_keep_reserved.
Qed.

(** A sequence of reports on a skeleton keeps the span and its events. *)
Lemma run_ops_skeleton this ops : forall w s e x,
  span_store w !! this = Some s ->
  Span.isSkeleton s = true ->
  event_store w !! Span.events_entry s = Some e ->
  event_store w !! Span.events_exit s = Some x ->
  Span.events_entry s <> Span.events_exit s ->
  exists w' e',
    run_ops this ops w = (Normal tt, w') /\
    span_store w' !! this = Some s /\
    event_store w' !! Span.events_entry s = Some e' /\
    (ops <> [] \/ dom (Event.kv e) = reserved -> dom (Event.kv e') = reserved).
Proof.
  induction ops as [|op rest IH]; intros w s e x Hs Hsk He Hx Hne.
  - exists w, e. split; [reflexivity|]. split; [exact Hs|]. split; [exact He|].
    intros [H|H]; [congruence | exact H].
  - destruct (skeleton_op_clears_entry this op w s e x Hs Hsk He Hx Hne)
      as (w1 & e1 & x1 & Hop & Hs1 & He1 & Hx1 & Hdom).
    rewrite <- Hs1 in Hs.
    destruct (IH w1 s e1 x1 Hs Hsk He1 Hx1 Hne) as (w' & e' & Hrest & Hs' & He' & Hdom').
    exists w', e'. split.
    + destruct op; cbn [run_ops]; rewrite (bind_normal _ _ _ _ _ Hop); exact Hrest.
    + split; [exact Hs'|]. split; [exact He'|]. intros _. apply Hdom'. right. exact Hdom.
Qed.

(** X24: on a Skeleton span every call of [enter] and every call of [exit]
    ends by cutting the annotation mapping of the span's entry event down to
    the reserved keys Layer and Label; so after any non-empty sequence of
    such calls, whatever extra data they carry, that mapping has exactly the
    reserved keys.  (Both functions reset [this.events.entry.kv]; the exit
    event's mapping is left to [sendReport].) *)
Theorem skeleton_entry_annotations_stay_reserved (this : nat)
    (ops : list report_op) (w : World) (s : Span.t) (e x : Event.t) :
  span_store w !! this = Some s ->
  Span.isSkeleton s = true ->
  event_store w !! Span.events_entry s = Some e ->
  event_store w !! Span.events_exit s = Some x ->
  Span.events_entry s <> Span.events_exit s ->
  ops <> [] ->
  exists w' e',
    run_ops this ops w = (Normal tt, w') /\
    event_store w' !! Span.events_entry s = Some e' /\
    dom (Event.kv e') = reserved.
Proof.
  intros Hs Hsk He Hx Hne Hops.
  destruct (run_ops_skeleton this ops w s e x Hs Hsk He Hx Hne)
    as (w' & e' & Hrun & _ & He' & Hdom).
  exists w', e'. split; [exact Hrun|]. split; [exact He'|]. apply Hdom. left. exact Hops.
Qed.

Lemma skeleton_entry_annotations_stay_reserved_witness :
  exists w' e',
    run_ops 1 [OpEnter foo_data; OpExit foo_data] (http_world false) = (Normal tt, w') /\
    event_store w' !! 2%nat = Some e' /\
    dom (Event.kv e') = reserved.
Proof.
  eapply (skeleton_entry_annotations_stay_reserved 1
           [OpEnter foo_data; OpExit foo_data] (http_world false)
           (skeleton_span 2));
    [vm_compute; reflexivity | reflexivity | vm_compute; reflexivity
    | vm_compute; reflexivity | vm_compute; lia | discriminate ].
Defined.

(** *** runSync *)

(** A function that only throws leaves the span alone. *)
Lemma throws_keeps_span (v : value) (this : nat) : keeps_span this (throws v).
Proof. intros w Hwf. split; [discriminate | exact Hwf]. Qed.

(** C1: during [runSync] the entry event is reported once before the wrapped
    function runs and the exit event is reported once after it ends, whether
    it returned or threw: the function starts in a process whose report log
    is the log at the call plus the entry report, and [runSync] ends, with
    the function's own completion, in the process the function left plus the
    exit report. *)
Theorem runSync_reports_entry_and_exit_once (this : nat) (fn : Fn.t)
    (w : World) (s : Span.t) (e : Event.t) :
  span_store w !! this = Some s ->
  event_store w !! Span.events_entry s = Some e ->
  is_Some (event_store w !! Span.events_exit s) ->
  Span.events_entry s <> Span.events_exit s ->
  keeps_span this fn ->
  exists w1 c w2 s2 x' w',
    reported w1 = reported w ++ [(Span.events_entry s, Event.sendReport None e)] /\
    Fn.call fn this None w1 = (c, w2) /\
    span_store w2 !! this = Some s2 /\
    runSync this fn w = (c, w') /\
    reported w' = reported w2 ++ [(Span.events_exit s2, x')].
Proof.
  intros Hs He Hx Hne Hfn.
  destruct (runSync_spec this fn w s e Hs He Hx Hne Hfn)
    as (w1 & c & w2 & s2 & x2 & x' & w' & Hr1 & _ & Hcall & _ & Hs2 & _ & Hrun & Hr' & _).
  exists w1, c, w2, s2, x', w'. auto.
Qed.

Lemma runSync_reports_entry_and_exit_once_witness :
  exists w',
    runSync 0 (throws (VString "boom")) (http_world true) =
      (Throw (VString "boom"), w') /\
    length (reported w') = 2%nat.
Proof.
  edestruct (runSync_reports_entry_and_exit_once 0 (throws (VString "boom"))
               (http_world true))
    as (w1 & c & w2 & s2 & x' & w' & Hr1 & Hcall & _ & Hrun & Hr');
    [ vm_compute; reflexivity | vm_compute; reflexivity
    | vm_compute; eexists; reflexivity | vm_compute; lia
    | apply throws_keeps_span | ].
  cbn in Hcall. injection Hcall as Hc Hw. subst c w2.
  exists w'. split; [exact Hrun|].
  rewrite Hr', Hr1, !length_app. reflexivity.
Defined.

(** C3 (as the code has it): when the function wrapped by [runSync] throws,
    the thrown value is re-raised unchanged after [setExitError] was given
    it.  A thrown string is attached to the exit event as a new Error with
    that message and a thrown Error as itself, unless the span's
    ignore-predicate returns a truthy value for it (or throws): then nothing
    is attached.  A thrown value that is neither a string nor an Error is
    re-raised too, and nothing is attached.  Where nothing is attached the
    exit event keeps the error it had (none, on a span that had none).  The
    exit event is the last report. *)
Theorem runSync_rethrows_after_setExitError (this : nat) (fn : Fn.t)
    (w : World) (s : Span.t) (e : Event.t) :
  span_store w !! this = Some s ->
  event_store w !! Span.events_entry s = Some e ->
  is_Some (event_store w !! Span.events_exit s) ->
  Span.events_entry s <> Span.events_exit s ->
  keeps_span this fn ->
  exists w1 c w2 s2 x2 x' w',
    span_store w1 = span_store w /\
    Fn.call fn this None w1 = (c, w2) /\
    span_store w2 !! this = Some s2 /\
    event_store w2 !! Span.events_exit s2 = Some x2 /\
    runSync this fn w = (c, w') /\
    event_store w' !! Span.events_exit s2 = Some x' /\
    last (reported w') = Some (Span.events_exit s2, x') /\
    forall err, c = Throw err ->
      Event.error x' =
        match toError err with
        | VError k m =>
            match Span.ignoreErrorFn s2 with
            | None => Some (VError k m)
            | Some ignoreErrorFn =>
                match ignoreErrorFn (VError k m) with
                | Returns b =>
                    if truthy b then Event.error x2 else Some (VError k m)
                | Raises _ => Event.error x2
                end
            end
        | _ => Event.error x2
        end.
Proof.
  intros Hs He Hx Hne Hfn.
  destruct (runSync_spec this fn w s e Hs He Hx Hne Hfn)
    as (w1 & c & w2 & s2 & x2 & x' & w' & _ & Hs1 & Hcall & _ & Hs2 & Hx2 & Hrun & Hr' & He' & Herr).
  exists w1, c, w2, s2, x2, x', w'.
  split; [exact Hs1|]. split; [exact Hcall|]. split; [exact Hs2|]. split; [exact Hx2|].
  split; [exact Hrun|]. split; [exact He'|].
  split; [rewrite Hr'; apply last_snoc|].
  intros err ->. exact Herr.
Qed.

Lemma runSync_rethrows_after_setExitError_witness :
  exists w' x',
    runSync 0 (throws (VString "boom")) (http_world true) =
      (Throw (VString "boom"), w') /\
    event_store w' !! 1%nat = Some x' /\
    Event.error x' = Some (VError KError "boom").
Proof.
  edestruct (runSync_rethrows_after_setExitError 0 (throws (VString "boom"))
               (http_world true))
    as (w1 & c & w2 & s2 & x2 & x' & w' & Hs1 & Hcall & Hs2 & Hx2 & Hrun & He' & _ & Herr);
    [ vm_compute; reflexivity | vm_compute; reflexivity
    | vm_compute; eexists; reflexivity | vm_compute; lia
    | apply throws_keeps_span | ].
  cbn in Hcall. injection Hcall as Hc Hw. subst c w2.
  rewrite Hs1 in Hs2. vm_compute in Hs2. injection Hs2 as Hs2. subst s2.
  exists w', x'. split; [exact Hrun|]. split; [exact He'|].
  exact (Herr (VString "boom") eq_refl).
Defined.

(** C3, the claim as written fails: the wrapped function throws the number
    42 on a span without ignore-predicate; 42 is re-raised, but the exit
    event carries no error. *)
Lemma runSync_thrown_number_is_not_attached :
  let r := runSync 0 (throws (VNumber (Num 42))) (http_world true) in
  fst r = Throw (VNumber (Num 42)) /\
  exists s x,
    span_store (snd r) !! 0%nat = Some s /\
    Span.ignoreErrorFn s = None /\
    event_store (snd r) !! Span.events_exit s = Some x /\
    Event.error x = None.
Proof.
  cbn zeta. split; [vm_compute; reflexivity|].
  do 2 eexists. split; [vm_compute; reflexivity|]. split; [reflexivity|].
  split; [vm_compute; reflexivity | reflexivity].
Qed.

(** With an ignore-predicate that matches, the Error is re-raised and the
    exit event carries no error. *)
Example runSync_ignored_error_is_rethrown :
  let w := snd (setIgnoreErrorFn 0 ignores_all (http_world true)) in
  let r := runSync 0 (throws (VError KError "ENOENT")) w in
  fst r = Throw (VError KError "ENOENT") /\
  Event.error <$> event_store (snd r) !! 1%nat = Some None /\
  length (reported (snd r)) = 2%nat.
Proof. cbn zeta. repeat split; vm_compute; reflexivity. Qed.

(** ** Further properties of lib/span.js *)

(** *** Errors *)

(** [Span.toError] gives undefined for what is neither string nor Error. *)
Lemma toError_undefined (v : value) :
  (forall s, v <> VString s) ->
  (forall k m, v <> VError k m) ->
  toError v = VUndefined.
Proof.
  intros Hs He. destruct v; try reflexivity.
  - exfalso. eapply Hs. reflexivity.
  - exfalso. eapply He. reflexivity.
Qed.

(** X1: [Span.toError] gives an Error or undefined, never anything else; it
    gives undefined exactly for the values that are neither a string nor an
    Error; a string becomes an Error with that message, an Error stays the
    object it is; and normalising twice is normalising once. *)
Theorem toError_normalises (v : value) :
  (toError v = VUndefined \/ exists k m, toError v = VError k m) /\
  (toError v = VUndefined <->
     (forall s, v <> VString s) /\ (forall k m, v <> VError k m)) /\
  (forall s, toError (VString s) = VError KError s) /\
  (forall k m, toError (VError k m) = VError k m) /\
  toError (toError v) = toError v.
Proof.
  split; [|split; [|split; [|split]]].
  - destruct v; cbn; eauto.
  - split.
    + intros H. destruct v; cbn in H; try discriminate; split; intros; discriminate.
    + intros [Hs He]. apply toError_undefined; assumption.
  - reflexivity.
  - reflexivity.
  - destruct v; reflexivity.
Qed.

(** [setExitError] with a value that is neither a string nor an Error does
    nothing at all. *)
Lemma setExitError_not_an_error this err w :
  toError err = VUndefined ->
  setExitError this err w = (Normal tt, w).
Proof.
  intros H. unfold setExitError. rewrite H. reflexivity.
Qed.

(** X2: [exitCheckingError(error, data)] with an [error] that is neither a
    string nor an Error (the [undefined] or [null] of a callback that
    succeeded) is [exit(data)]: nothing is attached, nothing else happens. *)
Theorem exitCheckingError_without_error_is_exit (this : nat) (err : value)
    (data : option (gmap string value)) (w : World) :
  (forall s, err <> VString s) ->
  (forall k m, err <> VError k m) ->
  exitCheckingError this err data w = exit this data w.
Proof.
  intros Hs He. unfold exitCheckingError.
  rewrite (bind_normal _ _ _ _ _
             (setExitError_not_an_error this err w (toError_undefined err Hs He))).
  reflexivity.
Qed.

Lemma exitCheckingError_without_error_is_exit_witness :
  exitCheckingError 0 VNull None (http_world true) = exit 0 None (http_world true).
Proof.
  apply exitCheckingError_without_error_is_exit; intros; discriminate.
Defined.

(** X3: [setExitError] never throws, and no call of it takes an error off
    the exit event: spans, reports and every other event are as before, and
    an exit event that carried an error still carries one. *)
Theorem setExitError_never_removes_an_error (this : nat) (err : value)
    (w : World) (s : Span.t) (x : Event.t) :
  span_store w !! this = Some s ->
  event_store w !! Span.events_exit s = Some x ->
  exists w' x',
    setExitError this err w = (Normal tt, w') /\
    span_store w' = span_store w /\
    reported w' = reported w /\
    event_store w' = <[Span.events_exit s := x']> (event_store w) /\
    Event.kv x' = Event.kv x /\ Event.edges x' = Event.edges x /\
    (is_Some (Event.error x) -> is_Some (Event.error x')).
Proof.
  intros Hs Hx.
  destruct (setExitError_spec this err w s x Hs Hx) as [l Hset].
  do 2 eexists. split; [exact Hset|]. cbn.
  split; [reflexivity|]. split; [reflexivity|]. split; [reflexivity|].
  split; [reflexivity|]. split; [reflexivity|].
  intros Hsome. unfold exit_error_after.
  destruct (toError err); try exact Hsome.
  destruct (Span.ignoreErrorFn s) as [f|]; [|eauto].
  destruct (f (VError k msg)) as [b|e]; [|exact Hsome].
  destruct (truthy b); [exact Hsome | eauto].
Qed.

Lemma setExitError_never_removes_an_error_witness :
  exists w' x',
    setExitError 0 (VString "boom") (http_world true) = (Normal tt, w') /\
    event_store w' = <[1%nat := x']> (event_store (http_world true)) /\
    reported w' = [].
Proof.
  edestruct (setExitError_never_removes_an_error 0 (VString "boom") (http_world true))
    as (w' & x' & Hset & _ & Hr & He & _);
    [vm_compute; reflexivity | vm_compute; reflexivity |].
  exists w', x'. split; [exact Hset|]. split; [exact He | exact Hr].
Defined.

(** [setIgnoreErrorFn] replaces the predicate and touches nothing else but
    the log. *)
Lemma setIgnoreErrorFn_spec this f w s :
  span_store w !! this = Some s ->
  exists l,
    setIgnoreErrorFn this f w =
      (Normal tt,
       with_span_store
         (<[this := Span.with_ignoreErrorFn (Some f) s]> (span_store w))
         (with_logs l w)).
Proof.
  intros Hs. unfold setIgnoreErrorFn.
  rewrite (bind_normal _ _ _ _ _ (read_span_eq _ _ _ Hs)).
  unfold when. destruct (bool_decide _).
  - rewrite (bind_normal _ _ _ _ _ (log_eq _ _ _)).
    erewrite update_span_eq by exact Hs. eexists. reflexivity.
  - rewrite (bind_normal (ret tt) _ _ _ _ eq_refl).
    erewrite update_span_eq by exact Hs. exists (logs w).
    rewrite with_logs_id. reflexivity.
Qed.

(** X4: once [setIgnoreErrorFn(fn)] ran, only [fn] decides what
    [setExitError] attaches, whatever predicate the span had before: an
    error for which [fn] returns a truthy value, or on which [fn] throws, is
    not attached and the exit event keeps what it had; any other string or
    Error is attached; and [setExitError] does not throw even when [fn]
    does. *)
Theorem setIgnoreErrorFn_decides_what_is_attached (this : nat)
    (fn : value -> outcome) (err : value) (w : World) (s : Span.t)
    (x : Event.t) :
  span_store w !! this = Some s ->
  event_store w !! Span.events_exit s = Some x ->
  exists w' x',
    (setIgnoreErrorFn this fn ;; setExitError this err)%js w = (Normal tt, w') /\
    event_store w' !! Span.events_exit s = Some x' /\
    Event.error x' =
      match toError err with
      | VError k m =>
          match fn (VError k m) with
          | Returns b => if truthy b then Event.error x else Some (VError k m)
          | Raises _ => Event.error x
          end
      | _ => Event.error x
      end.
Proof.
  intros Hs Hx.
  destruct (setIgnoreErrorFn_spec this fn w s Hs) as [l Hign].
  rewrite (bind_normal _ _ _ _ _ Hign).
  match goal with |- context [setExitError this err ?W] =>
    destruct (setExitError_spec this err W (Span.with_ignoreErrorFn (Some fn) s) x)
      as [l' Hset]
  end.
  - cbn. apply list_lookup_insert_eq. eapply lookup_lt_Some; exact Hs.
  - exact Hx.
  - cbn [Span.events_exit Span.with_ignoreErrorFn] in Hset.
    do 2 eexists. split; [exact Hset|]. cbn.
    split; [apply list_lookup_insert_eq; eapply lookup_lt_Some; exact Hx|].
    reflexivity.
Qed.

Lemma setIgnoreErrorFn_decides_what_is_attached_witness :
  exists w' x',
    (setIgnoreErrorFn 0 ignores_all ;; setExitError 0 (VString "ENOENT"))%js
      (http_world true) = (Normal tt, w') /\
    event_store w' !! 1%nat = Some x' /\
    Event.error x' = None.
Proof.
  edestruct (setIgnoreErrorFn_decides_what_is_attached 0 ignores_all
               (VString "ENOENT") (http_world true))
    as (w' & x' & Hrun & He & Herr);
    [vm_compute; reflexivity | vm_compute; reflexivity |].
  exists w', x'. split; [exact Hrun|]. split; [exact He | exact Herr].
Defined.

(** *** Names handed to the bridge *)

(** X5: [Span.sendNonHttpSpan] never throws and never returns a falsy
    name, whatever the bridge answers and whatever name it was given. *)
Theorem sendNonHttpSpan_never_returns_a_falsy_name (txname : value)
    (duration : jsnum) (error : value) (w : World) :
  exists v w',
    sendNonHttpSpan txname duration error w = (Normal v, w') /\
    truthy v = true.
Proof.
  destruct (sendNonHttpSpan_spec txname duration error w) as [l Hsend].
  do 2 eexists. split; [exact Hsend|].
  unfold final_name. cbn.
  destruct (is_string _ && truthy _) eqn:Hans.
  - apply andb_true_iff in Hans. apply Hans.
  - destruct (truthy txname) eqn:Ht; [exact Ht | reflexivity].
Qed.

(** X6: on a span whose default transaction name is truthy (every entry span
    is made so), [getTransactionName] never returns a falsy name, whatever
    the custom name is or does. *)
Theorem getTransactionName_is_truthy (this : nat) (w : World) (s : Span.t) :
  span_store w !! this = Some s ->
  truthy (Span.defaultTxName s) = true ->
  exists v w',
    getTransactionName this w = (Normal v, w') /\
    truthy v = true.
Proof.
  intros Hs Hdef.
  destruct (getTransactionName_spec this w s Hs) as [l Hget].
  do 2 eexists. split; [exact Hget|].
  unfold chosen_name.
  destruct (Span.customTxName s) as [|f|v]; [exact Hdef| |].
  - destruct (f tt) as [v|e]; [|exact Hdef].
    destruct (truthy v) eqn:Hv; [exact Hv | exact Hdef].
  - destruct v; try exact Hdef.
    destruct (String.eqb s0 "") eqn:E; [exact Hdef|]. cbn. rewrite E. reflexivity.
Qed.

Lemma getTransactionName_is_truthy_witness :
  exists v w',
    getTransactionName 0
      (snd (update_span 0 (Span.with_customTxName (TxFunction names_nothing))
              (http_world true))) = (Normal v, w') /\
    truthy v = true.
Proof.
  eapply getTransactionName_is_truthy; [vm_compute; reflexivity | reflexivity].
Defined.

(** *** The counters *)

(** What [enter] does to the counters. *)
Lemma enter_stats this data w s e :
  span_store w !! this = Some s ->
  event_store w !! Span.events_entry s = Some e ->
  stats (snd (enter this data w)) =
    if Span.topSpan s then
      mkStats (totalCreated (stats w)) (topSpansCreated (stats w))
        (topSpansActive (stats w) + 1)
        (Z.max (topSpansMax (stats w)) (topSpansActive (stats w) + 1))
        (topSpansExited (stats w)) (otherSpansActive (stats w))
    else
      mkStats (totalCreated (stats w)) (topSpansCreated (stats w))
        (topSpansActive (stats w)) (topSpansMax (stats w))
        (topSpansExited (stats w)) (otherSpansActive (stats w) + 1).
Proof.
  intros Hs He.
  pose proof (lookup_lt_Some _ _ _ He) as Hlt.
  exec. rewrite Hs.
  destruct (Span.topSpan s); cbn; rewrite He; cbn;
    rewrite list_lookup_insert_eq by exact Hlt; cbn;
    destruct (Span.isSkeleton s); cbn;
    rewrite ?list_lookup_insert_eq by exact Hlt; cbn; try reflexivity.
  all: destruct (Z.ltb_spec (topSpansMax (stats w)) (topSpansActive (stats w) + 1));
    cbn; f_equal; lia.
Qed.

(** What [exit] does to the counters. *)
Lemma exit_stats this data w s e x :
  span_store w !! this = Some s ->
  event_store w !! Span.events_entry s = Some e ->
  event_store w !! Span.events_exit s = Some x ->
  Span.events_entry s <> Span.events_exit s ->
  stats (snd (exit this data w)) =
    if Span.topSpan s then
      mkStats (totalCreated (stats w)) (topSpansCreated (stats w))
        (topSpansActive (stats w) - 1) (topSpansMax (stats w))
        (topSpansExited (stats w) + 1) (otherSpansActive (stats w))
    else
      mkStats (totalCreated (stats w)) (topSpansCreated (stats w))
        (topSpansActive (stats w)) (topSpansMax (stats w))
        (topSpansExited (stats w)) (otherSpansActive (stats w) - 1).
Proof.
  intros Hs He Hx Hne.
  pose proof (lookup_lt_Some _ _ _ He) as Hlte.
  pose proof (lookup_lt_Some _ _ _ Hx) as Hltx.
  exec. rewrite Hs. cbn.
  destruct (Span.topSpan s); cbn;
  destruct (lastEvent w) as [l|] eqn:Hl; cbn;
  try (destruct (bool_decide (l ≠ Span.events_entry s)); cbn);
  rewrite ?Hx; cbn;
  try (destruct (Event.ignore x); cbn).
  all: rewrite ?Hx; cbn.
  all: rewrite ?list_lookup_insert_eq by (rewrite ?length_insert; exact Hltx); cbn.
  all: rewrite ?list_insert_insert_eq.
  all: rewrite ?list_lookup_insert_eq by (rewrite ?length_insert; exact Hltx); cbn.
  all: rewrite ?list_insert_insert_eq.
  all: destruct (Span.isSkeleton s); cbn.
  all: rewrite ?list_lookup_insert_ne by (intros E; apply Hne; symmetry; exact E); rewrite ?He; cbn.
  all: reflexivity.
Qed.

(** One report on a span, entry or exit: the span stays, its events stay. *)
Lemma op_keeps_span this op w s e x :
  span_store w !! this = Some s ->
  event_store w !! Span.events_entry s = Some e ->
  event_store w !! Span.events_exit s = Some x ->
  Span.events_entry s <> Span.events_exit s ->
  exists w' e' x',
    match op with
    | OpEnter data => enter this data
    | OpExit data => exit this data
    end w = (Normal tt, w') /\
    span_store w' = span_store w /\
    event_store w' !! Span.events_entry s = Some e' /\
    event_store w' !! Span.events_exit s = Some x'.
Proof.
  intros Hs He Hx Hne.
  pose proof (lookup_lt_Some _ _ _ He) as Hlte.
  pose proof (lookup_lt_Some _ _ _ Hx) as Hltx.
  destruct op as [data|data].
  - destruct (enter_spec this data w s e Hs He) as (w' & Hent & Hs' & He' & _).
    do 3 eexists. split; [exact Hent|]. split; [exact Hs'|]. rewrite He'.
    split; [apply list_lookup_insert_eq; exact Hlte|].
    rewrite list_lookup_insert_ne by exact Hne; exact Hx.
  - destruct (exit_spec this data w s e x Hs He Hx Hne) as (w' & Hex & Hs' & He' & _).
    do 3 eexists. split; [exact Hex|]. split; [exact Hs'|]. rewrite He'.
    split; [apply list_lookup_insert_eq; rewrite length_insert; exact Hlte|].
    rewrite list_lookup_insert_ne by exact Hne.
    apply list_lookup_insert_eq; exact Hltx.
Qed.

(** The counters after a sequence of reports. *)
Lemma run_ops_stats this ops : forall w s e x,
  span_store w !! this = Some s ->
  event_store w !! Span.events_entry s = Some e ->
  event_store w !! Span.events_exit s = Some x ->
  Span.events_entry s <> Span.events_exit s ->
  exists w',
    run_ops this ops w = (Normal tt, w') /\
    totalCreated (stats w') = totalCreated (stats w) /\
    topSpansCreated (stats w') = topSpansCreated (stats w) /\
    (Span.topSpan s = true ->
       topSpansActive (stats w') = (topSpansActive (stats w) + enters ops - exits ops)%Z /\
       topSpansExited (stats w') = (topSpansExited (stats w) + exits ops)%Z /\
       otherSpansActive (stats w') = otherSpansActive (stats w)) /\
    (Span.topSpan s = false ->
       otherSpansActive (stats w') = (otherSpansActive (stats w) + enters ops - exits ops)%Z /\
       topSpansActive (stats w') = topSpansActive (stats w) /\
       topSpansExited (stats w') = topSpansExited (stats w) /\
       topSpansMax (stats w') = topSpansMax (stats w)) /\
    (topSpansMax (stats w) <= topSpansMax (stats w'))%Z /\
    ((topSpansActive (stats w) <= topSpansMax (stats w))%Z ->
     (topSpansActive (stats w') <= topSpansMax (stats w'))%Z).
Proof.
  induction ops as [|op rest IH]; intros w s e x Hs He Hx Hne.
  - exists w. split; [reflexivity|]. cbn.
    repeat split; intros; try lia.
  - destruct (op_keeps_span this op w s e x Hs He Hx Hne)
      as (w1 & e1 & x1 & Hop & Hs1 & He1 & Hx1).
    assert (Hst : stats w1 =
      match op with
      | OpEnter _ =>
        if Span.topSpan s then
          mkStats (totalCreated (stats w)) (topSpansCreated (stats w))
            (topSpansActive (stats w) + 1)
            (Z.max (topSpansMax (stats w)) (topSpansActive (stats w) + 1))
            (topSpansExited (stats w)) (otherSpansActive (stats w))
        else
          mkStats (totalCreated (stats w)) (topSpansCreated (stats w))
            (topSpansActive (stats w)) (topSpansMax (stats w))
            (topSpansExited (stats w)) (otherSpansActive (stats w) + 1)
      | OpExit _ =>
        if Span.topSpan s then
          mkStats (totalCreated (stats w)) (topSpansCreated (stats w))
            (topSpansActive (stats w) - 1) (topSpansMax (stats w))
            (topSpansExited (stats w) + 1) (otherSpansActive (stats w))
        else
          mkStats (totalCreated (stats w)) (topSpansCreated (stats w))
            (topSpansActive (stats w)) (topSpansMax (stats w))
            (topSpansExited (stats w)) (otherSpansActive (stats w) - 1)
      end).
    { destruct op as [d|d].
      - rewrite <- (enter_stats this d w s e Hs He). rewrite Hop. reflexivity.
      - rewrite <- (exit_stats this d w s e x Hs He Hx Hne). rewrite Hop. reflexivity. }
    rewrite <- Hs1 in Hs.
    destruct (IH w1 s e1 x1 Hs He1 Hx1 Hne)
      as (w' & Hrest & Htc & Htsc & Htop & Hother & Hmax & Hinv).
    exists w'. split.
    { destruct op; cbn [run_ops]; rewrite (bind_normal _ _ _ _ _ Hop); exact Hrest. }
    rewrite Htc, Htsc. rewrite Hst in *. clear Hst Hrest Hop.
    destruct op as [d|d]; cbn [enters exits]; destruct (Span.topSpan s); cbn in *;
      repeat split; intros; try discriminate;
      repeat match goal with
             | H : true = true -> _ |- _ => specialize (H eq_refl)
             | H : false = false -> _ |- _ => specialize (H eq_refl)
             | H : _ /\ _ |- _ => destruct H
             end; try lia.
Qed.

(** X7: the active counters count the entry reports that no exit report has
    matched yet.  After any sequence of [enter] and [exit] calls on a top
    span, [topSpansActive] has grown by the number of enters minus the
    number of exits and [topSpansExited] by the number of exits, and
    [otherSpansActive] has not moved; on any other span it is
    [otherSpansActive] that has grown by enters minus exits, and the top-span
    counters have not moved.  [totalCreated] and [topSpansCreated] never
    move. *)
Theorem active_counters_follow_reports (this : nat) (ops : list report_op)
    (w : World) (s : Span.t) (e x : Event.t) :
  span_store w !! this = Some s ->
  event_store w !! Span.events_entry s = Some e ->
  event_store w !! Span.events_exit s = Some x ->
  Span.events_entry s <> Span.events_exit s ->
  exists w',
    run_ops this ops w = (Normal tt, w') /\
    totalCreated (stats w') = totalCreated (stats w) /\
    topSpansCreated (stats w') = topSpansCreated (stats w) /\
    (Span.topSpan s = true ->
       topSpansActive (stats w') = (topSpansActive (stats w) + enters ops - exits ops)%Z /\
       topSpansExited (stats w') = (topSpansExited (stats w) + exits ops)%Z /\
       otherSpansActive (stats w') = otherSpansActive (stats w)) /\
    (Span.topSpan s = false ->
       otherSpansActive (stats w') = (otherSpansActive (stats w) + enters ops - exits ops)%Z /\
       topSpansActive (stats w') = topSpansActive (stats w) /\
       topSpansExited (stats w') = topSpansExited (stats w) /\
       topSpansMax (stats w') = topSpansMax (stats w)).
Proof.
  intros Hs He Hx Hne.
  destruct (run_ops_stats this ops w s e x Hs He Hx Hne)
    as (w' & Hrun & Htc & Htsc & Htop & Hother & _).
  exists w'. auto.
Qed.

Lemma active_counters_follow_reports_witness :
  exists w',
    run_ops 0 [OpEnter None; OpExit None; OpEnter None] (http_world true) =
      (Normal tt, w') /\
    topSpansActive (stats w') = 1%Z /\
    topSpansExited (stats w') = 1%Z /\
    otherSpansActive (stats w') = 0%Z.
Proof.
  edestruct (active_counters_follow_reports 0 [OpEnter None; OpExit None; OpEnter None]
               (http_world true))
    as (w' & Hrun & _ & _ & Htop & _);
    [ vm_compute; reflexivity | vm_compute; reflexivity | vm_compute; reflexivity
    | vm_compute; lia | ].
  destruct (Htop eq_refl) as (Ha & Hx & Ho).
  exists w'. split; [exact Hrun|]. split; [exact Ha|]. split; [exact Hx | exact Ho].
Defined.

(** X8: [topSpansMax] is a high-water mark: no sequence of [enter] and [exit]
    calls lowers it, and if it is at least [topSpansActive] before such a
    sequence, it is at least [topSpansActive] after it. *)
Theorem topSpansMax_is_a_high_water_mark (this : nat) (ops : list report_op)
    (w : World) (s : Span.t) (e x : Event.t) :
  span_store w !! this = Some s ->
  event_store w !! Span.events_entry s = Some e ->
  event_store w !! Span.events_exit s = Some x ->
  Span.events_entry s <> Span.events_exit s ->
  (topSpansActive (stats w) <= topSpansMax (stats w))%Z ->
  exists w',
    run_ops this ops w = (Normal tt, w') /\
    (topSpansMax (stats w) <= topSpansMax (stats w'))%Z /\
    (topSpansActive (stats w') <= topSpansMax (stats w'))%Z.
Proof.
  intros Hs He Hx Hne Hinv.
  destruct (run_ops_stats this ops w s e x Hs He Hx Hne)
    as (w' & Hrun & _ & _ & _ & _ & Hmax & Hkeep).
  exists w'. auto.
Qed.

Lemma topSpansMax_is_a_high_water_mark_witness :
  exists w',
    run_ops 0 [OpEnter None; OpExit None] (http_world true) = (Normal tt, w') /\
    (topSpansMax (stats (http_world true)) <= topSpansMax (stats w'))%Z /\
    (topSpansActive (stats w') <= topSpansMax (stats w'))%Z.
Proof.
  eapply (topSpansMax_is_a_high_water_mark 0 [OpEnter None; OpExit None]
            (http_world true));
    [ vm_compute; reflexivity | vm_compute; reflexivity | vm_compute; reflexivity
    | vm_compute; lia | vm_compute; discriminate ].
Defined.

(** *** The async flag *)

(** X9: the setter of [span.async] never throws; afterwards the getter reads
    the value that was set, the entry event's annotation [Async] is [true]
    when that value is truthy and absent when it is not, and every other
    annotation is as before. *)
Theorem async_setter_and_getter (this : nat) (val : value) (w : World)
    (s : Span.t) (e : Event.t) :
  span_store w !! this = Some s ->
  event_store w !! Span.events_entry s = Some e ->
  exists w' e',
    set_async this val w = (Normal tt, w') /\
    get_async this w' = (Normal val, w') /\
    event_store w' !! Span.events_entry s = Some e' /\
    Event.kv e' !! "Async" = (if truthy val then Some (VBool true) else None) /\
    (forall k, k <> "Async" -> Event.kv e' !! k = Event.kv e !! k) /\
    reported w' = reported w.
Proof.
  intros Hs He.
  pose proof (lookup_lt_Some _ _ _ Hs) as Hlts.
  pose proof (lookup_lt_Some _ _ _ He) as Hlte.
  unfold set_async, get_async. exec. rewrite Hs. cbn.
  rewrite list_lookup_insert_eq by exact Hlts. cbn.
  destruct (truthy val); cbn; rewrite He; cbn;
    do 2 eexists; (split; [reflexivity|]); cbn;
    rewrite list_lookup_insert_eq by exact Hlts; cbn;
    (split; [reflexivity|]); rewrite list_lookup_insert_eq by exact Hlte;
    (split; [reflexivity|]); cbn.
  - split; [apply lookup_insert_eq|]. split; [|reflexivity].
    intros k Hk. apply lookup_insert_ne. congruence.
  - split; [apply lookup_delete_eq|]. split; [|reflexivity].
    intros k Hk. apply lookup_delete_ne. congruence.
Qed.

Lemma async_setter_and_getter_witness :
  exists w' e',
    set_async 0 (VBool true) (http_world true) = (Normal tt, w') /\
    get_async 0 w' = (Normal (VBool true), w') /\
    event_store w' !! 0%nat = Some e' /\
    Event.kv e' !! "Async" = Some (VBool true).
Proof.
  edestruct (async_setter_and_getter 0 (VBool true) (http_world true))
    as (w' & e' & Hset & Hget & He & Hk & _);
    [vm_compute; reflexivity | vm_compute; reflexivity |].
  exists w', e'. split; [exact Hset|]. split; [exact Hget|]. split; [exact He | exact Hk].
Defined.

(** *** Internal events: [info] and [error] *)

(** [_internal] without last event logs and returns. *)
Lemma _internal_no_last this label data w :
  lastEvent w = None ->
  _internal this label data w =
    (Normal tt,
     with_logs (logs w ++ [mkLog "error" "span call could not find last event"]) w).
Proof.
  intros Hl. unfold _internal.
  rewrite (bind_normal (gets lastEvent) _ _ _ _ eq_refl). rewrite Hl. reflexivity.
Qed.

(** [_internal] with a last event makes one event after it, keeps it in the
    span's list and reports it. *)
Lemma _internal_spec this label data w s l le :
  span_store w !! this = Some s ->
  lastEvent w = Some l ->
  event_store w !! l = Some le ->
  let n := length (event_store w) in
  let ev := Event.sendReport data
              (Event.construct VNull label (Event.event le) (VBool true) (next_op w)) in
  _internal this label data w =
    (Normal tt,
     with_reported (reported w ++ [(n, ev)])
       (with_event_store (event_store w ++ [ev])
          (with_span_store (<[this := push_internal n s]> (span_store w))
             (with_next_op (S (next_op w)) w)))).
Proof.
  intros Hs Hl Hle n ev. subst n ev. unfold _internal.
  rewrite (bind_normal (gets lastEvent) _ _ _ _ eq_refl). rewrite Hl.
  rewrite (bind_normal _ _ _ _ _ (read_event_eq _ _ _ Hle)).
  unfold newEvent, fresh_op, alloc_event.
  unfold bind at 2. unfold bind at 1. cbn.
  erewrite bind_normal by (apply update_span_eq; cbn; exact Hs).
  unfold sendReport.
  erewrite bind_normal by (apply update_event_eq; cbn; apply lookup_snoc).
  erewrite bind_normal by (apply read_event_eq; cbn; rewrite insert_snoc; apply lookup_snoc).
  unfold modify. cbn. rewrite insert_snoc. reflexivity.
Qed.

(** X10: [info] and [error] never throw, and when the context store has no
    last event they make no event, report nothing and leave the span as it
    is, whatever they are given: only the log changes. *)
Theorem info_and_error_need_a_last_event (this : nat) (data : js_arg)
    (err : value) (w : World) :
  lastEvent w = None ->
  (exists l, info this data w = (Normal tt, with_logs l w)) /\
  (exists l, error this err w = (Normal tt, with_logs l w)).
Proof.
  intros Hl. split.
  - unfold info. rewrite (bind_normal _ _ _ _ _ (log_eq _ _ _)).
    unfold try_catch.
    destruct data as [kv|v]; cbn [isRealObject negb].
    + erewrite bind_normal.
      2:{ apply attempt_eq; [apply _internal_no_last; exact Hl | discriminate]. }
      eexists. reflexivity.
    + erewrite bind_normal.
      2:{ apply attempt_eq; [apply log_eq | discriminate]. }
      eexists. reflexivity.
  - unfold error. rewrite (bind_normal _ _ _ _ _ (log_eq _ _ _)).
    unfold try_catch. cbn zeta.
    destruct (falsy (toError err)).
    + erewrite bind_normal.
      2:{ apply attempt_eq; [apply log_eq | discriminate]. }
      eexists. reflexivity.
    + erewrite bind_normal.
      2:{ apply attempt_eq; [apply _internal_no_last; exact Hl | discriminate]. }
      eexists. reflexivity.
Qed.

Lemma info_and_error_need_a_last_event_witness :
  (exists l, info 0 (ArgObject ∅) (http_world true)
             = (Normal tt, with_logs l (http_world true))) /\
  (exists l, error 0 (VString "boom") (http_world true)
             = (Normal tt, with_logs l (http_world true))).
Proof.
  apply info_and_error_need_a_last_event. reflexivity.
Defined.

(** X11: [info] given anything but a real object (a string, a number, an
    Error, [null], an array) sends nothing, even with a last event: only the
    log changes; [error] given anything but a string or an Error does the
    same. *)
Theorem info_and_error_skip_invalid_input (this : nat) (v err : value)
    (w : World) :
  (forall s, err <> VString s) ->
  (forall k m, err <> VError k m) ->
  (exists l, info this (ArgValue v) w = (Normal tt, with_logs l w)) /\
  (exists l, error this err w = (Normal tt, with_logs l w)).
Proof.
  intros Hs He. split.
  - unfold info. rewrite (bind_normal _ _ _ _ _ (log_eq _ _ _)).
    unfold try_catch. cbn [isRealObject negb].
    erewrite bind_normal.
    2:{ apply attempt_eq; [apply log_eq | discriminate]. }
    eexists. reflexivity.
  - unfold error. rewrite (bind_normal _ _ _ _ _ (log_eq _ _ _)).
    unfold try_catch. cbn zeta. rewrite (toError_undefined err Hs He). cbn [falsy truthy negb].
    erewrite bind_normal.
    2:{ apply attempt_eq; [apply log_eq | discriminate]. }
    eexists. reflexivity.
Qed.

Lemma info_and_error_skip_invalid_input_witness :
  (exists l, info 0 (ArgValue (VString "text")) (http_world true)
             = (Normal tt, with_logs l (http_world true))) /\
  (exists l, error 0 (VNumber (Num 42)) (http_world true)
             = (Normal tt, with_logs l (http_world true))).
Proof.
  apply info_and_error_skip_invalid_input; intros; discriminate.
Defined.

(** X12: with a last event, [info] given a real object makes exactly one
    new event, after the last event (same task, an edge to it), appends it
    to the span's internal events, and reports it once, carrying the data;
    the events that existed are as before. *)
Theorem info_reports_one_internal_event (this : nat)
    (kv : gmap string value) (w : World) (s : Span.t) (l : nat)
    (le : Event.t) :
  span_store w !! this = Some s ->
  lastEvent w = Some l ->
  event_store w !! l = Some le ->
  exists w' s' ev,
    info this (ArgObject kv) w = (Normal tt, w') /\
    event_store w' = event_store w ++ [ev] /\
    span_store w' = <[this := s']> (span_store w) /\
    Span.events_internal s' = Span.events_internal s ++ [length (event_store w)] /\
    Span.events_entry s' = Span.events_entry s /\
    Span.events_exit s' = Span.events_exit s /\
    reported w' = reported w ++ [(length (event_store w), ev)] /\
    taskId (Event.event ev) = taskId (Event.event le) /\
    Event.edges ev = [EdgeOp (opId (Event.event le))] /\
    (forall k v, kv !! k = Some v -> Event.kv ev !! k = Some v).
Proof.
  intros Hs Hl Hle.
  unfold info. rewrite (bind_normal _ _ _ _ _ (log_eq _ _ _)).
  unfold try_catch. cbn [isRealObject negb].
  erewrite bind_normal.
  2:{ apply attempt_eq;
        [ apply (_internal_spec this "info" (Some kv) _ s l le); cbn; assumption
        | discriminate ]. }
  do 3 eexists. split; [reflexivity|]. cbn.
  split; [reflexivity|]. split; [reflexivity|]. split; [reflexivity|].
  split; [reflexivity|]. split; [reflexivity|]. split; [reflexivity|].
  split; [reflexivity|]. split; [reflexivity|].
  intros k v Hk. apply lookup_union_Some_l. exact Hk.
Qed.

Lemma info_reports_one_internal_event_witness :
  exists w' s' ev,
    info 0 (ArgObject (<["Foo" := VNumber (Num 1)]> ∅))
      (with_lastEvent (Some 0%nat) (http_world true)) = (Normal tt, w') /\
    span_store w' !! 0%nat = Some s' /\
    Span.events_internal s' = [2%nat] /\
    reported w' = [(2%nat, ev)] /\
    Event.kv ev !! "Foo" = Some (VNumber (Num 1)).
Proof.
  edestruct (info_reports_one_internal_event 0 (<["Foo" := VNumber (Num 1)]> ∅)
               (with_lastEvent (Some 0%nat) (http_world true)))
    as (w' & s' & ev & Hinfo & _ & Hs' & Hint & _ & _ & Hr & _ & _ & Hkv);
    [vm_compute; reflexivity | reflexivity | vm_compute; reflexivity |].
  exists w', s', ev. split; [exact Hinfo|].
  split; [rewrite Hs'; reflexivity|]. split; [exact Hint|]. split; [exact Hr|].
  apply Hkv. reflexivity.
Defined.

(** X13: with a last event, [error] given a string or an Error makes
    exactly one new event after the last event, appends it to the span's
    internal events and reports it once; its annotation [error] is the
    normalised Error: a new Error with the string as message, or the Error
    itself. *)
Theorem error_reports_the_normalised_error (this : nat) (err : value)
    (w : World) (s : Span.t) (l : nat) (le : Event.t) :
  span_store w !! this = Some s ->
  lastEvent w = Some l ->
  event_store w !! l = Some le ->
  toError err <> VUndefined ->
  exists w' s' ev,
    error this err w = (Normal tt, w') /\
    event_store w' = event_store w ++ [ev] /\
    span_store w' = <[this := s']> (span_store w) /\
    Span.events_internal s' = Span.events_internal s ++ [length (event_store w)] /\
    reported w' = reported w ++ [(length (event_store w), ev)] /\
    Event.kv ev !! "error" = Some (toError err) /\
    Event.edges ev = [EdgeOp (opId (Event.event le))].
Proof.
  intros Hs Hl Hle Herr.
  unfold error. rewrite (bind_normal _ _ _ _ _ (log_eq _ _ _)).
  unfold try_catch. cbn zeta.
  assert (Hf : falsy (toError err) = false).
  { destruct err; cbn in *; try reflexivity; congruence. }
  rewrite Hf.
  erewrite bind_normal.
  2:{ apply attempt_eq;
        [ apply (_internal_spec this "error" _ _ s l le); cbn; assumption
        | discriminate ]. }
  do 3 eexists. split; [reflexivity|]. cbn.
  split; [reflexivity|]. split; [reflexivity|]. split; [reflexivity|].
  split; [reflexivity|]. split; [|reflexivity].
  apply lookup_union_Some_l. apply lookup_insert_eq.
Qed.

Lemma error_reports_the_normalised_error_witness :
  exists w' ev,
    error 0 (VString "boom") (with_lastEvent (Some 0%nat) (http_world true))
      = (Normal tt, w') /\
    reported w' = [(2%nat, ev)] /\
    Event.kv ev !! "error" = Some (VError KError "boom").
Proof.
  edestruct (error_reports_the_normalised_error 0 (VString "boom")
               (with_lastEvent (Some 0%nat) (http_world true)))
    as (w' & s' & ev & Herr & _ & _ & _ & Hr & Hkv & _);
    [ vm_compute; reflexivity | reflexivity | vm_compute; reflexivity
    | discriminate | ].
  exists w', ev. split; [exact Herr|]. split; [exact Hr | exact Hkv].
Defined.

(** *** Construction and descent on a sampled trace *)

(** The constructor, given a truthy name, with the counters. *)
Lemma newSpan_full name settings data w :
  truthy name = true ->
  let t := SpanSettings.traceTaskId settings in
  let entry := Event.construct name "entry" t (edge_flag settings) (next_op w) in
  let exit := Event.construct name "exit" (Event.event entry) (VBool true)
                (S (next_op w)) in
  newSpan name settings data w =
    (Normal (length (span_store w)),
     with_span_store
       (span_store w ++
          [fresh_span name (sampleFlag t) (length (event_store w))])
       (with_event_store (event_store w ++ [Event.set data entry; exit])
          (with_next_op (S (S (next_op w)))
             (with_stats
                (mkStats (totalCreated (stats w) + 1) (topSpansCreated (stats w))
                   (topSpansActive (stats w)) (topSpansMax (stats w))
                   (topSpansExited (stats w)) (otherSpansActive (stats w)))
                w)))).
Proof.
  intros Hname t entry exit. unfold newSpan, falsy. rewrite Hname. cbn.
  unfold newEvent, fresh_op, alloc_event, alloc_span, update_event, read_event,
    bump, bind, modify, ret. cbn.
  rewrite lookup_snoc. cbn.
  rewrite length_app. cbn.
  rewrite lookup_app_l by (rewrite length_app; cbn; lia).
  rewrite lookup_snoc. cbn.
  rewrite insert_app_l by (rewrite length_app; cbn; lia).
  rewrite insert_snoc. rewrite <- app_assoc. cbn.
  rewrite Nat.add_1_r.
  reflexivity.
Qed.

(** X14: the constructor, given a truthy name, always succeeds; it puts one
    new span and two new events at fresh references and leaves every span
    and event that existed as it was; it adds one to [totalCreated] and
    reports nothing.  The new span is no top span, carries no metrics, and
    is sampled exactly when the task id it was given is; its exit event has
    one edge, to its own entry event; its entry event holds the data. *)
Theorem newSpan_allocates_fresh_objects (name : value)
    (settings : SpanSettings.t) (data : gmap string value) (w : World) :
  truthy name = true ->
  exists w' s' e' x',
    newSpan name settings (Some data) w = (Normal (length (span_store w)), w') /\
    (forall r s, span_store w !! r = Some s -> span_store w' !! r = Some s) /\
    (forall r e, event_store w !! r = Some e -> event_store w' !! r = Some e) /\
    length (span_store w') = S (length (span_store w)) /\
    length (event_store w') = S (S (length (event_store w))) /\
    totalCreated (stats w') = (totalCreated (stats w) + 1)%Z /\
    reported w' = reported w /\
    span_store w' !! length (span_store w) = Some s' /\
    Span.topSpan s' = false /\ Span.doMetrics s' = false /\
    Span.doSample s' = sampleFlag (SpanSettings.traceTaskId settings) /\
    Span.events_entry s' <> Span.events_exit s' /\
    event_store w' !! Span.events_entry s' = Some e' /\
    event_store w' !! Span.events_exit s' = Some x' /\
    Event.edges x' = [EdgeOp (opId (Event.event e'))] /\
    (forall k v, data !! k = Some v -> Event.kv e' !! k = Some v).
Proof.
  intros Hname.
  rewrite (newSpan_full name settings (Some data) w Hname).
  do 4 eexists. split; [reflexivity|]. cbn.
  split; [intros r s Hr; apply lookup_app_l_Some; exact Hr|].
  split; [intros r e Hr; apply lookup_app_l_Some; exact Hr|].
  split; [rewrite length_app; cbn; lia|].
  split; [rewrite length_app; cbn; lia|].
  split; [reflexivity|]. split; [reflexivity|].
  split; [apply lookup_snoc|].
  split; [reflexivity|]. split; [reflexivity|]. split; [reflexivity|].
  split; [cbn; lia|].
  split; [cbn; apply lookup_first|].
  split; [cbn; apply lookup_second|].
  split; [reflexivity|].
  intros k v Hk. cbn. apply lookup_union_Some_l. exact Hk.
Qed.

Lemma newSpan_allocates_fresh_objects_witness :
  exists w' s',
    newSpan (VString "fs") (SpanSettings.mk (mkAddon 7 8 true) None)
      (Some (<["File" := VString "a.txt"]> ∅)) (http_world true)
      = (Normal 1%nat, w') /\
    span_store w' !! 1%nat = Some s' /\
    Span.doSample s' = true /\
    totalCreated (stats w') = 2%Z.
Proof.
  edestruct (newSpan_allocates_fresh_objects (VString "fs")
               (SpanSettings.mk (mkAddon 7 8 true) None)
               (<["File" := VString "a.txt"]> ∅) (http_world true) eq_refl)
    as (w' & s' & e' & x' & Hnew & _ & _ & _ & _ & Htc & _ & Hs' & _ & _ & Hd & _).
  exists w', s'. split; [exact Hnew|]. split; [exact Hs'|]. split; [exact Hd | exact Htc].
Defined.

(** X15: on a sampled span with a last event, [descend] given a truthy name
    makes a new span, other than the parent, and leaves the parent as it is;
    the child's causal predecessor is the last event, not the parent: its
    entry event has the last event's task id and one edge, to the last
    event, and the child is sampled exactly when the last event is.  Given a
    falsy name it throws the constructor's TypeError. *)
Theorem descend_sampled_follows_last_event (this : nat) (name : value)
    (data : option (gmap string value)) (w : World) (s : Span.t) (l : nat)
    (le : Event.t) :
  span_store w !! this = Some s ->
  Span.doSample s = true ->
  lastEvent w = Some l ->
  event_store w !! l = Some le ->
  (truthy name = true ->
   exists child w' c e',
     descend this name data w = (Normal child, w') /\
     child <> this /\
     span_store w' !! this = Some s /\
     span_store w' !! child = Some c /\
     Span.topSpan c = false /\
     Span.doSample c = sampleFlag (Event.event le) /\
     event_store w' !! Span.events_entry c = Some e' /\
     taskId (Event.event e') = taskId (Event.event le) /\
     Event.edges e' = [EdgeOp (opId (Event.event le))]) /\
  (truthy name = false ->
   exists w',
     descend this name data w =
       (Throw (VError KTypeError ("invalid span name " +:+ to_str name)), w') /\
     span_store w' = span_store w /\ event_store w' = event_store w).
Proof.
  intros Hs Hd Hl Hle.
  assert (Hstart : descend this name data w =
            newSpan name (SpanSettings.mk (Event.event le) None) data
              (with_logs (logs w ++ [mkLog "span" "span.descend %s from ao.lastEvent %e"]) w)).
  { unfold descend.
    rewrite (bind_normal (gets lastEvent) _ _ _ _ eq_refl).
    rewrite (bind_normal _ _ _ _ _ (log_eq _ _ _)).
    erewrite bind_normal by (apply read_span_eq; exact Hs).
    rewrite Hd, Hl. cbn [negb].
    erewrite bind_normal by (apply read_event_eq; exact Hle).
    reflexivity. }
  rewrite Hstart. split; intros Hname.
  - rewrite (newSpan_full _ _ _ _ Hname). cbn.
    do 4 eexists. split; [reflexivity|].
    pose proof (lookup_lt_Some _ _ _ Hs) as Hlt.
    split; [lia|].
    split; [apply lookup_app_l_Some; exact Hs|].
    split; [apply lookup_snoc|].
    split; [reflexivity|]. split; [reflexivity|].
    split; [cbn; apply lookup_first|].
    split; [destruct data; reflexivity|].
    destruct data; reflexivity.
  - unfold newSpan, falsy. rewrite Hname. cbn.
    eexists. split; [reflexivity|]. cbn. auto.
Qed.

Lemma descend_sampled_follows_last_event_witness :
  exists child w' c,
    descend 0 (VString "fs") None (with_lastEvent (Some 0%nat) (http_world true))
      = (Normal child, w') /\
    child <> 0%nat /\
    span_store w' !! child = Some c /\
    Span.doSample c = true.
Proof.
  edestruct (descend_sampled_follows_last_event 0 (VString "fs") None
               (with_lastEvent (Some 0%nat) (http_world true)))
    as [Hok _];
    [ vm_compute; reflexivity | reflexivity | reflexivity | vm_compute; reflexivity | ].
  destruct (Hok eq_refl) as (child & w' & c & e' & Hdesc & Hne & _ & Hc & _ & Hsample & _).
  exists child, w', c. split; [exact Hdesc|]. split; [exact Hne|]. split; [exact Hc|].
  exact Hsample.
Defined.

(** X16: on an unsampled span [descend] makes nothing and checks nothing:
    whatever the name (a falsy one too) and the data, it returns the
    skeleton of a top span, or the span itself if it is no top span; no span
    and no event is added, no counter moves, nothing is reported, and the
    data is dropped. *)
Theorem descend_unsampled_allocates_nothing (this : nat) (name : value)
    (data : option (gmap string value)) (w : World) (s : Span.t) (k : nat)
    (sk : Span.t) :
  span_store w !! this = Some s ->
  Span.doSample s = false ->
  (Span.topSpan s = true -> Span.skeleton s = Some k /\ span_store w !! k = Some sk) ->
  exists w',
    descend this name data w =
      (Normal (if Span.topSpan s then k else this), w') /\
    length (span_store w') = length (span_store w) /\
    event_store w' = event_store w /\
    stats w' = stats w /\
    reported w' = reported w /\
    lastEvent w' = lastEvent w.
Proof.
  intros Hs Hd Hk.
  destruct (Span.topSpan s) eqn:Ht.
  - destruct (Hk eq_refl) as [Hskel Hsk].
    destruct (descend_top_unsampled this name data w s k sk Hs Hd Ht Hskel Hsk)
      as [l Hdesc].
    eexists. split; [exact Hdesc|]. cbn. rewrite length_insert. auto.
  - destruct (descend_skeleton this name data w s Hs Hd Ht) as [l Hdesc].
    eexists. split; [exact Hdesc|]. cbn. rewrite length_insert. auto.
Qed.

Lemma descend_unsampled_allocates_nothing_witness :
  exists w',
    descend 0 VUndefined (Some (<["File" := VString "a.txt"]> ∅)) (http_world false)
      = (Normal 1%nat, w') /\
    length (span_store w') = 2%nat /\
    event_store w' = event_store (http_world false).
Proof.
  edestruct (descend_unsampled_allocates_nothing 0 VUndefined
               (Some (<["File" := VString "a.txt"]> ∅)) (http_world false))
    as (w' & Hdesc & Hlen & He & _);
    [ vm_compute; reflexivity | reflexivity
    | intros _; split; [reflexivity | vm_compute; reflexivity] | ].
  exists w'. split; [exact Hdesc|]. split; [exact Hlen | exact He].
Defined.

(** The setter of [span.async], step by step. *)
Lemma set_async_spec this val w s e :
  span_store w !! this = Some s ->
  event_store w !! Span.events_entry s = Some e ->
  set_async this val w =
    (Normal tt,
     with_logs (logs w ++ [mkLog "span" "span enabled or disabled async"])
       (with_event_store
          (<[Span.events_entry s :=
               Event.with_kv
                 (if truthy val then <["Async" := VBool true]> (Event.kv e)
                  else delete "Async" (Event.kv e)) e]> (event_store w))
          (with_span_store (<[this := Span.with_async val s]> (span_store w)) w))).
Proof.
  intros Hs He.
  pose proof (lookup_lt_Some _ _ _ Hs) as Hlts.
  unfold set_async. exec. rewrite Hs. cbn.
  rewrite list_lookup_insert_eq by exact Hlts. cbn.
  destruct (truthy val); cbn; rewrite He; reflexivity.
Qed.

(** [runAsync] up to the call of its function: the span is flagged async,
    the entry event is reported once, and the function runs with the
    wrapper; afterwards the context is released and the function's value
    returned. *)
Lemma runAsync_prelude this fn w s e :
  span_store w !! this = Some s ->
  event_store w !! Span.events_entry s = Some e ->
  exists w1 ctx startTime e1,
    runAsync this fn w =
      (r <- Fn.call fn this
              (Some (async_wrapper this (length (closures w)) startTime)) ;;
       release ctx ;;
       ret r) w1 /\
    span_store w1 = <[this := Span.with_async (VBool true) s]> (span_store w) /\
    event_store w1 = <[Span.events_entry s := e1]> (event_store w) /\
    reported w1 = reported w ++
      [(Span.events_entry s,
        Event.with_kv (<["Async" := VBool true]> (Event.kv e)) e)] /\
    closures w1 = closures w ++ [∅] /\
    lastEvent w1 = lastEvent w /\
    sent w1 = sent w /\
    reporter w1 = reporter w.
Proof.
  intros Hs He.
  pose proof (lookup_lt_Some _ _ _ Hs) as Hlts.
  pose proof (lookup_lt_Some _ _ _ He) as Hlte.
  remember (runAsync this fn w) as R eqn:HR.
  pose proof HR as Hrun. unfold runAsync in Hrun.
  rewrite (bind_normal _ _ _ _ _ (set_async_spec this (VBool true) w s e Hs He)) in Hrun.
  cbn [truthy] in Hrun.
  unfold new_kvpairs at 1 in Hrun. unfold bind at 1 in Hrun. cbn in Hrun.
  set (s1 := Span.with_async (VBool true) s) in *.
  set (e0 := Event.with_kv (<["Async" := VBool true]> (Event.kv e)) e) in *.
  match type of Hrun with _ = bind ?m _ ?W =>
    assert (Hctx : exists ctx W', m W = (Normal ctx, W') /\
      span_store W' = <[this := s1]> (span_store w) /\
      event_store W' = <[Span.events_entry s := e0]> (event_store w) /\
      reported W' = reported w /\ closures W' = closures w ++ [∅] /\
      lastEvent W' = lastEvent w /\ sent W' = sent w /\ reporter W' = reporter w)
  end.
  { exec_run. rewrite list_lookup_insert_eq by exact Hlts. cbn.
    do 2 eexists. split; [reflexivity|]. cbn. auto 10. }
  destruct Hctx as (ctx & W' & Hctx & Hs' & He' & Hr' & Hc' & Hl' & Hsent' & Hrep').
  rewrite (bind_normal _ _ _ _ _ Hctx) in Hrun.
  assert (Hread : read_span this W' = (Normal s1, W')).
  { apply read_span_eq. rewrite Hs'. apply list_lookup_insert_eq. exact Hlts. }
  rewrite (bind_normal _ _ _ _ _ Hread) in Hrun.
  match type of Hrun with _ = bind ?m _ ?W =>
    assert (Hst : exists st, m W = (Normal st, W'))
  end.
  { destruct (Span.doMetrics s1); eexists; reflexivity. }
  destruct Hst as (startTime & Hst).
  rewrite (bind_normal _ _ _ _ _ Hst) in Hrun.
  destruct (enter_spec this None W' s1 e0)
    as (w1 & Hent & Hs1 & He1 & Hr1 & Hl1 & Hc1 & Hsent1 & Hrep1 & _).
  { rewrite Hs'. apply list_lookup_insert_eq. exact Hlts. }
  { rewrite He'. apply list_lookup_insert_eq. exact Hlte. }
  rewrite (bind_normal _ _ _ _ _ Hent) in Hrun.
  exists w1, ctx, startTime. eexists.
  split; [rewrite Hrun; reflexivity|].
  split; [rewrite Hs1; exact Hs'|].
  split; [rewrite He1, He'; cbn; rewrite list_insert_insert_eq; reflexivity|].
  split; [rewrite Hr1, Hr'; reflexivity|].
  split; [rewrite Hc1; exact Hc'|].
  split; [rewrite Hl1; exact Hl'|].
  split; [rewrite Hsent1; exact Hsent' | rewrite Hrep1; exact Hrep'].
Qed.

(** What the wrapped callback does before it calls the user's callback, when
    no handler came with it: the transaction summary of a metrics-bearing top
    span, the exit error, the exit report. *)
Lemma async_wrapper_exits this kvpairs startTime cb args W s e x m :
  span_store W !! this = Some s ->
  event_store W !! Span.events_entry s = Some e ->
  event_store W !! Span.events_exit s = Some x ->
  Span.events_entry s <> Span.events_exit s ->
  closures W !! kvpairs = Some m ->
  let err := hd VUndefined args in
  let metrics := Span.topSpan s && Span.doMetrics s in
  let summary := mkTxArgs (chosen_name s) (elapsed (clock W) startTime) (truthy err) in
  exists W3 x',
    async_wrapper this kvpairs startTime cb None args W = cb args W3 /\
    span_store W3 = span_store W /\
    reported W3 = reported W ++ [(Span.events_exit s, x')] /\
    event_store W3 !! Span.events_exit s = Some x' /\
    Event.error x' = exit_error_after s err (Event.error x) /\
    sent W3 = sent W ++ (if metrics then [summary] else []) /\
    (metrics = true ->
       Event.kv x' !! "TransactionName" = Some (final_name (reporter W) summary)) /\
    lastEvent W3 = lastEvent W.
Proof.
  intros Hs He Hx Hne Hm err metrics summary.
  pose proof (lookup_lt_Some _ _ _ Hx) as Hltx.
  pose proof (lookup_lt_Some _ _ _ Hm) as Hltm.
  remember (async_wrapper this kvpairs startTime cb None args W) as R eqn:HR.
  pose proof HR as Hrun. unfold async_wrapper in Hrun. cbv zeta in Hrun.
  fold err in Hrun.
  match type of Hrun with _ = bind ?m _ _ =>
    assert (Hpre : exists W3 x',
      m W = (Normal tt, W3) /\
      span_store W3 = span_store W /\
      reported W3 = reported W ++ [(Span.events_exit s, x')] /\
      event_store W3 !! Span.events_exit s = Some x' /\
      Event.error x' = exit_error_after s err (Event.error x) /\
      sent W3 = sent W ++ (if metrics then [summary] else []) /\
      (metrics = true ->
         Event.kv x' !! "TransactionName" = Some (final_name (reporter W) summary)) /\
      lastEvent W3 = lastEvent W)
  end.
  { rewrite (bind_normal _ _ _ _ _ (read_span_eq _ _ _ Hs)).
    fold metrics.
    assert (Hblock : exists W1 kv,
      (when metrics
         (txname <- getTransactionName this ;;
          now <- Date_now ;;
          finaltxname <- sendNonHttpSpan txname (elapsed now startTime) err ;;
          set_kvpairs kvpairs "TransactionName" finaltxname ;;
          when (bool_decide (txname ≠ finaltxname))
            (log "warn" "Span.runAsync txname mismatch: %s !== %s"))) W
        = (Normal tt, W1) /\
      span_store W1 = span_store W /\ event_store W1 = event_store W /\
      reported W1 = reported W /\ lastEvent W1 = lastEvent W /\
      sent W1 = sent W ++ (if metrics then [summary] else []) /\
      closures W1 !! kvpairs = Some kv /\
      (metrics = true ->
         kv !! "TransactionName" = Some (final_name (reporter W) summary))).
    { destruct metrics; unfold when at 1.
      - destruct (getTransactionName_spec this W s Hs) as [l1 Hget].
        rewrite (bind_normal _ _ _ _ _ Hget).
        rewrite (bind_normal Date_now _ _ _ _ eq_refl).
        match goal with |- context [bind (sendNonHttpSpan ?a ?b ?c) _ ?d] =>
          destruct (sendNonHttpSpan_spec a b c d) as [l2 Hsend] end.
        rewrite (bind_normal _ _ _ _ _ Hsend). cbn [clock with_logs reporter].
        unfold set_kvpairs at 1. unfold modify at 1. unfold bind at 1.
        cbn [closures with_closures with_logs with_sent].
        unfold when. destruct (bool_decide _).
        + rewrite log_eq. do 2 eexists. split; [reflexivity|]. cbn.
          rewrite list_lookup_alter_eq, Hm. cbn.
          split; [reflexivity|]. split; [reflexivity|]. split; [reflexivity|].
          split; [reflexivity|]. split; [reflexivity|]. split; [reflexivity|].
          intros _. apply lookup_insert_eq.
        + do 2 eexists. split; [reflexivity|]. cbn.
          rewrite list_lookup_alter_eq, Hm. cbn.
          split; [reflexivity|]. split; [reflexivity|]. split; [reflexivity|].
          split; [reflexivity|]. split; [reflexivity|]. split; [reflexivity|].
          intros _. apply lookup_insert_eq.
      - exists W, m. split; [reflexivity|]. rewrite app_nil_r.
        repeat split; try reflexivity; try exact Hm. discriminate. }
    destruct Hblock as (W1 & kv & Hblock & Hs1 & He1 & Hr1 & Hl1 & Hsent1 & Hkv1 & Htx).
    rewrite (bind_normal _ _ _ _ _ Hblock).
    assert (Hrk : read_kvpairs kvpairs W1 = (Normal kv, W1)).
    { unfold read_kvpairs. rewrite Hkv1. reflexivity. }
    rewrite (bind_normal _ _ _ _ _ Hrk).
    unfold exitCheckingError.
    destruct (setExitError_spec this err W1 s x) as [l Hset];
      [rewrite Hs1; exact Hs | rewrite He1; exact Hx |].
    rewrite (bind_normal _ _ _ _ _ Hset).
    match goal with |- context [exit this (Some kv) ?W2] =>
      destruct (exit_spec this (Some kv) W2 s e
                  (Event.with_error (exit_error_after s err (Event.error x)) x))
        as (W3 & Hexit & Hs3 & He3 & Hr3 & Hl3 & _ & _ & Hsent3 & _)
    end.
    { cbn. rewrite Hs1. exact Hs. }
    { cbn. rewrite He1. rewrite list_lookup_insert_ne by (intros E; apply Hne; symmetry; exact E).
      exact He. }
    { cbn. rewrite He1. apply list_lookup_insert_eq. exact Hltx. }
    { exact Hne. }
    cbn in Hs3, He3, Hr3, Hl3, Hsent3.
    do 2 eexists. split; [exact Hexit|].
    split; [rewrite Hs3; exact Hs1|].
    split; [rewrite Hr3, Hr1; reflexivity|].
    split.
    { rewrite He3. rewrite list_lookup_insert_ne by exact Hne.
      apply list_lookup_insert_eq. rewrite length_insert, He1. exact Hltx. }
    split; [reflexivity|].
    split; [rewrite Hsent3; exact Hsent1|].
    split; [|rewrite Hl3; exact Hl1].
    intros Hmet. cbn. apply lookup_union_Some_l. apply Htx. exact Hmet. }
  destruct Hpre as (W3 & x' & Hpre & Hfacts).
  rewrite (bind_normal _ _ _ _ _ Hpre) in Hrun.
  exists W3, x'. split; [exact Hrun | exact Hfacts].
Qed.

(** *** runAsync *)

(** X17: [runAsync] itself never sends the exit report.  When the function
    it runs never uses the wrapper, the span is flagged async, the entry
    event is reported once, the function runs, and [runAsync] ends as the
    function did, with no report and no change to any event after the
    function's end: the span stays open. *)
Theorem runAsync_without_callback_never_exits (this : nat) (fn : Fn.t)
    (w : World) (s : Span.t) (e : Event.t) :
  span_store w !! this = Some s ->
  event_store w !! Span.events_entry s = Some e ->
  ignores_wrapper fn ->
  exists w1 s1,
    span_store w1 !! this = Some s1 /\
    Span._async s1 = VBool true /\
    reported w1 = reported w ++
      [(Span.events_entry s,
        Event.with_kv (<["Async" := VBool true]> (Event.kv e)) e)] /\
    forall c w2,
      Fn.call fn this None w1 = (c, w2) ->
      exists w',
        runAsync this fn w = (c, w') /\
        reported w' = reported w2 /\
        event_store w' = event_store w2 /\
        span_store w' = span_store w2.
Proof.
  intros Hs He Hign.
  destruct (runAsync_prelude this fn w s e Hs He)
    as (w1 & ctx & startTime & e1 & Hrun & Hs1 & He1 & Hr1 & _).
  exists w1. eexists.
  split; [rewrite Hs1; apply list_lookup_insert_eq; eapply lookup_lt_Some; exact Hs|].
  split; [reflexivity|]. split; [exact Hr1|].
  intros c w2 Hcall. rewrite Hrun. unfold bind at 1.
  rewrite Hign, Hcall.
  destruct c as [r| |]; [|eexists; split; [reflexivity|auto] ..].
  unfold release. exec_run.
  destruct ctx; cbn; eexists; (split; [reflexivity|]); cbn; auto.
Qed.

Lemma runAsync_without_callback_never_exits_witness :
  exists w',
    runAsync 0 (throws (VString "boom")) (http_world true)
      = (Throw (VString "boom"), w') /\
    length (reported w') = 1%nat.
Proof.
  edestruct (runAsync_without_callback_never_exits 0 (throws (VString "boom"))
               (http_world true))
    as (w1 & s1 & _ & _ & Hr1 & Hrest);
    [ vm_compute; reflexivity | vm_compute; reflexivity
    | intros t wrap w0; reflexivity | ].
  destruct (Hrest (Throw (VString "boom")) w1 eq_refl) as (w' & Hrun & Hr' & _).
  exists w'. split; [exact Hrun|]. rewrite Hr', Hr1. reflexivity.
Defined.

(** X18: when the function run by [runAsync] wraps a callback (without
    handler) and the wrapped callback is called, the span exits before the
    user's callback runs: the first argument goes through [setExitError],
    the exit event is reported once, after the entry event, and only then is
    the callback called, with the same arguments; what it returns or throws
    is what the wrapped callback returns or throws.  On a top span with
    metrics exactly one transaction summary is sent, with the truthiness of
    the first argument as error flag, and the exit event carries the final
    transaction name; on any other span no summary is sent. *)
Theorem runAsync_callback_exits_then_calls_back (this : nat) (cb : Callback)
    (args : list value) (w : World) (s : Span.t) (e x : Event.t) :
  span_store w !! this = Some s ->
  event_store w !! Span.events_entry s = Some e ->
  event_store w !! Span.events_exit s = Some x ->
  Span.events_entry s <> Span.events_exit s ->
  let err := hd VUndefined args in
  let metrics := Span.topSpan s && Span.doMetrics s in
  exists w3 x' summary,
    reported w3 = reported w ++
      [(Span.events_entry s,
        Event.with_kv (<["Async" := VBool true]> (Event.kv e)) e);
       (Span.events_exit s, x')] /\
    event_store w3 !! Span.events_exit s = Some x' /\
    Event.error x' = exit_error_after s err (Event.error x) /\
    sent w3 = sent w ++ (if metrics then [summary] else []) /\
    args_txname summary = chosen_name s /\
    args_error summary = truthy err /\
    (metrics = true ->
       Event.kv x' !! "TransactionName" = Some (final_name (reporter w) summary)) /\
    forall c w4,
      cb args w3 = (c, w4) ->
      exists w',
        runAsync this (calls_back cb None args) w = (c, w') /\
        reported w' = reported w4 /\
        event_store w' = event_store w4 /\
        sent w' = sent w4.
Proof.
  intros Hs He Hx Hne err metrics.
  pose proof (lookup_lt_Some _ _ _ Hs) as Hlts.
  pose proof (lookup_lt_Some _ _ _ He) as Hlte.
  destruct (runAsync_prelude this (calls_back cb None args) w s e Hs He)
    as (w1 & ctx & startTime & e1 & Hrun & Hs1 & He1 & Hr1 & Hc1 & Hl1 & Hsent1 & Hrep1).
  destruct (async_wrapper_exits this (length (closures w)) startTime cb args w1
              (Span.with_async (VBool true) s) e1 x ∅)
    as (w3 & x' & Hwrap & Hs3 & Hr3 & He3 & Herr & Hsent3 & Htx & _).
  { rewrite Hs1. apply list_lookup_insert_eq. exact Hlts. }
  { rewrite He1. apply list_lookup_insert_eq. exact Hlte. }
  { rewrite He1. cbn. rewrite list_lookup_insert_ne by exact Hne. exact Hx. }
  { exact Hne. }
  { rewrite Hc1. apply lookup_snoc. }
  cbn [Span.events_exit Span.events_entry Span.topSpan Span.doMetrics Span.with_async]
    in Hr3, He3, Hsent3, Htx.
  exists w3, x'. eexists.
  split; [rewrite Hr3, Hr1, <- app_assoc; reflexivity|].
  split; [exact He3|]. split; [exact Herr|].
  split; [rewrite Hsent3, Hsent1; reflexivity|].
  split; [reflexivity|]. split; [reflexivity|].
  split.
  { intros Hmet. rewrite (Htx Hmet), Hrep1. reflexivity. }
  intros c w4 Hcb. rewrite Hrun. unfold bind at 1.
  cbn [calls_back Fn.call]. rewrite Hwrap, Hcb.
  destruct c as [r| |]; [|eexists; split; [reflexivity|auto] ..].
  unfold release. exec_run.
  destruct ctx; cbn; eexists; (split; [reflexivity|]); cbn; auto.
Qed.

Lemma runAsync_callback_exits_then_calls_back_witness :
  exists w',
    runAsync 0 (calls_back (answers (VString "done")) None [VString "failed"])
      (http_world true) = (Normal (VString "done"), w') /\
    length (reported w') = 2%nat /\
    length (sent w') = 1%nat.
Proof.
  edestruct (runAsync_callback_exits_then_calls_back 0 (answers (VString "done"))
               [VString "failed"] (http_world true))
    as (w3 & x' & summary & Hr3 & _ & _ & Hsent3 & _ & _ & _ & Hrest);
    [ vm_compute; reflexivity | vm_compute; reflexivity | vm_compute; reflexivity
    | vm_compute; lia | ].
  destruct (Hrest (Normal (VString "done")) w3 eq_refl) as (w' & Hrun & Hr' & _ & Hsent').
  exists w'. split; [exact Hrun|]. split; [rewrite Hr', Hr3; reflexivity|].
  rewrite Hsent', Hsent3. reflexivity.
Defined.

(** X19: a handler that comes with the callback takes the place of the
    completion: the wrapped callback calls the handler, then the user's
    callback, both with its own arguments, and nothing else.  The span is
    not exited: the entry report is the only one [runAsync] makes, no
    summary is sent and no event but the entry event is touched before the
    handler runs, and after it [runAsync] adds no report, sends nothing and
    changes no event beyond what handler and callback themselves do; so the
    first argument is never attached as an error. *)
Theorem runAsync_handler_bypasses_exit (this : nat) (cb handler : Callback)
    (args : list value) (w : World) (s : Span.t) (e : Event.t) :
  span_store w !! this = Some s ->
  event_store w !! Span.events_entry s = Some e ->
  exists w1,
    reported w1 = reported w ++
      [(Span.events_entry s,
        Event.with_kv (<["Async" := VBool true]> (Event.kv e)) e)] /\
    sent w1 = sent w /\
    (forall r, r <> Span.events_entry s ->
       event_store w1 !! r = event_store w !! r) /\
    forall v w2 c w3,
      handler args w1 = (Normal v, w2) ->
      cb args w2 = (c, w3) ->
      exists w',
        runAsync this (calls_back cb (Some handler) args) w = (c, w') /\
        reported w' = reported w3 /\
        event_store w' = event_store w3 /\
        sent w' = sent w3.
Proof.
  intros Hs He.
  destruct (runAsync_prelude this (calls_back cb (Some handler) args) w s e Hs He)
    as (w1 & ctx & startTime & e1 & Hrun & _ & He1 & Hr1 & _ & _ & Hsent1 & _).
  exists w1. split; [exact Hr1|]. split; [exact Hsent1|].
  split.
  { intros r Hne. rewrite He1. apply list_lookup_insert_ne. congruence. }
  intros v w2 c w3 Hh Hcb. rewrite Hrun. unfold bind at 1.
  cbn [calls_back Fn.call]. unfold async_wrapper. cbv zeta.
  rewrite (bind_normal _ _ _ _ _ (bind_normal _ _ _ _ _ Hh)).
  rewrite Hcb.
  destruct c as [r| |]; [|eexists; split; [reflexivity|auto] ..].
  unfold release. exec_run.
  destruct ctx; cbn; eexists; (split; [reflexivity|]); cbn; auto.
Qed.

Lemma runAsync_handler_bypasses_exit_witness :
  exists w',
    runAsync 0
      (calls_back (answers (VString "done")) (Some (answers VUndefined))
         [VString "failed"])
      (http_world true) = (Normal (VString "done"), w') /\
    length (reported w') = 1%nat.
Proof.
  edestruct (runAsync_handler_bypasses_exit 0 (answers (VString "done"))
               (answers VUndefined) [VString "failed"] (http_world true))
    as (w1 & Hr1 & _ & _ & Hrest);
    [ vm_compute; reflexivity | vm_compute; reflexivity | ].
  destruct (Hrest VUndefined w1 (Normal (VString "done")) w1 eq_refl eq_refl)
    as (w' & Hrun & Hr' & _).
  exists w'. split; [exact Hrun|]. rewrite Hr', Hr1. reflexivity.
Defined.

(** [runSync], step by step once more, following the transaction summary. *)
Lemma runSync_summary this fn w s e :
  span_store w !! this = Some s ->
  event_store w !! Span.events_entry s = Some e ->
  is_Some (event_store w !! Span.events_exit s) ->
  Span.events_entry s <> Span.events_exit s ->
  keeps_span this fn ->
  exists w1 c w2 s2 x2 x' w',
    clock w1 = clock w /\
    sent w1 = sent w /\
    span_store w1 = span_store w /\
    Fn.call fn this None w1 = (c, w2) /\
    span_store w2 !! this = Some s2 /\
    event_store w2 !! Span.events_exit s2 = Some x2 /\
    runSync this fn w = (c, w') /\
    event_store w' !! Span.events_exit s2 = Some x' /\
    let metrics := Span.topSpan s2 && Span.doMetrics s2 in
    let summary :=
      mkTxArgs (chosen_name s2)
        (elapsed (clock w2)
           (if Span.topSpan s && Span.doMetrics s then Some (clock w) else None))
        (truthy match c with Throw err => err | _ => VUndefined end) in
    sent w' = sent w2 ++ (if metrics then [summary] else []) /\
    Event.kv x' !! "TransactionName" =
      (if metrics then Some (final_name (reporter w2) summary)
       else Event.kv x2 !! "TransactionName").
Proof.
  intros Hs He Hx Hne Hfn.
  assert (Hentered : exists ctx startTime wp,
    try_catch
       (bind (read_span this) (fun s =>
        if Span.topSpan s then
          bind (if Span.doMetrics s then
                          bind Date_now (fun now => ret (Some now))
                        else ret None) (fun startTime =>
          bind (createContext true) (fun ctx =>
          bind (store_enter ctx) (fun _ =>
          ret (Some ctx, startTime))))
        else ret (None, None)))
       (fun e => bind (log "error" "span failed to enter context") (fun _ =>
                 ret (None, None))) w = (Normal (ctx, startTime), wp) /\
    span_store wp = span_store w /\ event_store wp = event_store w /\
    reported wp = reported w /\ clock wp = clock w /\ sent wp = sent w /\
    startTime = (if Span.topSpan s && Span.doMetrics s then Some (clock w) else None)).
  { exec_run. rewrite Hs. destruct (Span.topSpan s); cbn;
      [destruct (Span.doMetrics s); cbn|]; do 3 eexists; (split; [reflexivity|]);
      cbn; auto 10. }
  destruct Hentered as (ctx & startTime & wp & Hpro & Hsp & Hep & Hrp & Hcp & Hsentp & Hstart).
  pose proof (eq_refl (runSync this fn w)) as Hrun.
  unfold runSync at 2 in Hrun.
  rewrite (bind_normal _ _ _ _ _ Hpro) in Hrun. cbv beta iota in Hrun.
  destruct (enter_spec this None wp s e)
    as (w1 & Hent & Hs1 & He1 & Hr1 & _ & _ & Hsent1 & _ & Hc1 & _);
    [rewrite Hsp; exact Hs | rewrite Hep; exact He |].
  rewrite (bind_normal _ _ _ _ _ Hent) in Hrun.
  assert (Hwf1 : span_wf w1 this).
  { exists s. rewrite Hs1, Hsp, He1, Hep. split; [exact Hs|].
    split; [apply is_Some_insert; eauto|]. split; [apply is_Some_insert; exact Hx|exact Hne]. }
  destruct (Hfn w1 Hwf1) as [Hc Hwf2].
  destruct (Fn.call fn this None w1) as [c w2] eqn:Hcall. cbn in Hc, Hwf2.
  destruct Hwf2 as (s2 & Hs2 & [e2 He2] & [x2 Hx2] & Hne2).
  rewrite (bind_normal _ _ _ _ _ (attempt_eq _ _ _ _ Hcall Hc)) in Hrun.
  cbv beta iota in Hrun.
  set (x3 := Event.with_error
               match c with
               | Throw err => exit_error_after s2 err (Event.error x2)
               | _ => Event.error x2
               end x2).
  match type of Hrun with _ = bind ?m _ _ =>
    assert (Hcatch : exists w3, m w2 = (Normal c, w3) /\
      span_store w3 = span_store w2 /\
      event_store w3 = <[Span.events_exit s2 := x3]> (event_store w2) /\
      reported w3 = reported w2 /\ lastEvent w3 = lastEvent w2 /\
      sent w3 = sent w2 /\ clock w3 = clock w2 /\ reporter w3 = reporter w2)
  end.
  { subst x3. destruct c as [v|err|]; [| |congruence].
    - eexists. split; [reflexivity|]. rewrite with_error_id, list_insert_id by exact Hx2. auto 10.
    - destruct (setExitError_spec this err w2 s2 x2 Hs2 Hx2) as [l Hset].
      eexists. split.
      + apply attempt_eq; [|discriminate]. rewrite (bind_normal _ _ _ _ _ Hset). reflexivity.
      + cbn. auto 10. }
  destruct Hcatch as (w3 & Hcatch & Hs3 & He3 & Hr3 & Hl3 & Hsent3 & Hc3 & Hrep3).
  rewrite (bind_normal _ _ _ _ _ Hcatch) in Hrun.
  assert (Hread : read_span this w3 = (Normal s2, w3)).
  { unfold read_span. rewrite Hs3, Hs2. reflexivity. }
  rewrite (bind_normal _ _ _ _ _ Hread) in Hrun.
  match type of Hrun with _ = bind ?m _ _ =>
    assert (Hkv : exists kv w4, m w3 = (Normal kv, w4) /\
      span_store w4 = span_store w3 /\ event_store w4 = event_store w3 /\
      reported w4 = reported w3 /\ lastEvent w4 = lastEvent w3 /\
      sent w4 = sent w3 ++
        (if Span.topSpan s2 && Span.doMetrics s2
         then [mkTxArgs (chosen_name s2) (elapsed (clock w3) startTime)
                 (truthy match c with Throw err => err | _ => VUndefined end)]
         else []) /\
      kv !! "TransactionName" =
        (if Span.topSpan s2 && Span.doMetrics s2
         then Some (final_name (reporter w3)
                      (mkTxArgs (chosen_name s2) (elapsed (clock w3) startTime)
                         (truthy match c with Throw err => err | _ => VUndefined end)))
         else None))
  end.
  { destruct (Span.topSpan s2 && Span.doMetrics s2).
    - destruct (getTransactionName_spec this w3 s2) as [l1 Hget]; [rewrite Hs3; exact Hs2|].
      rewrite (bind_normal _ _ _ _ _ Hget).
      rewrite (bind_normal Date_now _ _ _ _ eq_refl).
      match goal with |- context [bind (sendNonHttpSpan ?a ?b ?c) _ ?d] =>
        destruct (sendNonHttpSpan_spec a b c d) as [l2 Hsend] end.
      rewrite (bind_normal _ _ _ _ _ Hsend).
      unfold when. destruct (bool_decide _); exec_run; do 2 eexists;
        (split; [reflexivity|]); cbn;
        (repeat split; try reflexivity); apply lookup_insert_eq.
    - do 2 eexists. split; [reflexivity|]. rewrite app_nil_r.
      repeat split; try reflexivity. }
  destruct Hkv as (kv & w4 & Hkv & Hs4 & He4 & Hr4 & Hl4 & Hsent4 & Htx4).
  rewrite (bind_normal _ _ _ _ _ Hkv) in Hrun.
  assert (Hx3 : event_store w4 !! Span.events_exit s2 = Some x3).
  { rewrite He4, He3. apply list_lookup_insert_eq. eapply lookup_lt_Some; exact Hx2. }
  assert (He3' : event_store w4 !! Span.events_entry s2 = Some e2).
  { rewrite He4, He3. rewrite list_lookup_insert_ne by (intros E; apply Hne2; symmetry; exact E).
    exact He2. }
  destruct (exit_spec this (Some kv) w4 s2 e2 x3)
    as (w5 & Hexit & Hs5 & He5 & Hr5 & _ & _ & _ & Hsent5 & _);
    [rewrite Hs4, Hs3; exact Hs2 | exact He3' | exact Hx3 | exact Hne2 |].
  rewrite (bind_normal _ _ _ _ _ Hexit) in Hrun.
  set (x' := Event.sendReport (Some kv)
               (Event.with_edges (Event.edges x3 ++ extra_edge w4 s2 x3) x3)) in *.
  assert (Hfinal : exists w', runSync this fn w = (c, w') /\
            event_store w' = event_store w5 /\ reported w' = reported w5 /\
            sent w' = sent w5).
  { rewrite Hrun. exec_run. destruct ctx; cbn; eexists; (split; [reflexivity|]); cbn; auto. }
  destruct Hfinal as (w' & Hres & He' & Hr' & Hsent').
  exists w1, c, w2, s2, x2, x', w'.
  split; [rewrite Hc1, Hcp; reflexivity|].
  split; [rewrite Hsent1, Hsentp; reflexivity|].
  split; [rewrite Hs1, Hsp; reflexivity|].
  split; [exact Hcall|]. split; [exact Hs2|]. split; [exact Hx2|].
  split; [exact Hres|].
  split.
  { rewrite He', He5.
    rewrite list_lookup_insert_ne by exact Hne2.
    apply list_lookup_insert_eq. eapply lookup_lt_Some; exact Hx3. }
  cbv zeta. rewrite <- Hstart, <- Hc3, <- Hrep3, <- Hsent3.
  split; [rewrite Hsent', Hsent5; exact Hsent4|].
  subst x'. cbn.
  destruct (Span.topSpan s2 && Span.doMetrics s2).
  - apply lookup_union_Some_l. exact Htx4.
  - rewrite lookup_union_r by exact Htx4. reflexivity.
Qed.

(** [makeEntrySpan], given a truthy name, with the counters: the skeleton
    counts as a created span. *)
Lemma makeEntrySpan_counts name settings kvpairs w :
  truthy name = true ->
  exists w1,
    makeEntrySpan name settings kvpairs w = (Normal (length (span_store w)), w1) /\
    stats w1 =
      mkStats
        (totalCreated (stats w) + (if sample_of settings then 1 else 2))
        (topSpansCreated (stats w) + 1)
        (topSpansActive (stats w)) (topSpansMax (stats w))
        (topSpansExited (stats w)) (otherSpansActive (stats w)).
Proof.
  intros Hname.
  remember (makeEntrySpan name settings kvpairs w) as R eqn:HR.
  pose proof HR as Hrun. unfold makeEntrySpan in Hrun.
  rewrite (bind_normal _ _ _ _ _ (bump_eq _ _)) in Hrun.
  rewrite (bind_normal _ _ _ _ _ (log_eq _ _ _)) in Hrun.
  match type of Hrun with _ = bind ?m _ ?W =>
    assert (Htask : exists t W', m W = (Normal t, W') /\ sampleFlag t = sample_of settings /\
       span_store W' = span_store w /\ event_store W' = event_store w /\
       lastEvent W' = lastEvent w /\ reported W' = reported w /\
       stats W' =
         mkStats (totalCreated (stats w)) (topSpansCreated (stats w) + 1)
           (topSpansActive (stats w)) (topSpansMax (stats w))
           (topSpansExited (stats w)) (otherSpansActive (stats w)))
  end.
  { unfold sample_of. destruct (Settings.traceTaskId settings); do 2 eexists;
      (split; [reflexivity|]); cbn; auto 10. }
  destruct Htask as (t & W' & Htask & Hsample & Hs0 & He0 & Hl0 & Hr0 & Hst0).
  rewrite (bind_normal _ _ _ _ _ Htask) in Hrun.
  match type of Hrun with _ = bind (newSpan ?a ?b ?c) _ ?W =>
    pose proof (newSpan_full a b c W Hname) as Hnew end.
  rewrite (bind_normal _ _ _ _ _ Hnew) in Hrun. clear Hnew.
  cbn [SpanSettings.traceTaskId] in Hrun. rewrite Hs0, He0, Hsample, Hst0 in Hrun.
  cbn [totalCreated topSpansCreated topSpansActive topSpansMax topSpansExited
       otherSpansActive] in Hrun.
  erewrite bind_normal in Hrun by (apply update_span_eq; cbn; apply lookup_snoc).
  erewrite bind_normal in Hrun by (apply read_span_eq; cbn; rewrite insert_snoc; apply lookup_snoc).
  cbn [Span.doSample Span.events_entry Span.with_skeleton fresh_span] in Hrun.
  set (W1 := with_span_store _ _) in Hrun.
  assert (HsW1 : span_store W1 = span_store w ++ [fresh_span name (sample_of settings) (length (event_store w))]).
  { subst W1. cbn. rewrite insert_snoc. reflexivity. }
  assert (HeW1 : exists a b, event_store W1 = event_store w ++ [a; b] /\
            sampleFlag (Event.event a) = sample_of settings).
  { subst W1. cbn. do 2 eexists. split; [reflexivity|].
    rewrite <- Hsample. destruct kvpairs; reflexivity. }
  destruct HeW1 as (ea & eb & HeW1 & Hsea).
  assert (HlW1 : lastEvent W1 = lastEvent w /\ reported W1 = reported w).
  { subst W1. cbn. auto. }
  assert (HstW1 : stats W1 =
            mkStats (totalCreated (stats w) + 1) (topSpansCreated (stats w) + 1)
              (topSpansActive (stats w)) (topSpansMax (stats w))
              (topSpansExited (stats w)) (otherSpansActive (stats w))).
  { subst W1. reflexivity. }
  clearbody W1.
  match type of Hrun with _ = bind ?m _ _ =>
    assert (Hsk : exists W2 evs, m W1 = (Normal tt, W2) /\
      span_store W2 = span_store w ++
        Span.with_skeleton (if sample_of settings then None else Some (S (length (span_store w))))
          (fresh_span name (sample_of settings) (length (event_store w))) ::
        (if sample_of settings then [] else [skeleton_span (S (S (length (event_store w))))]) /\
      event_store W2 = event_store w ++ ea :: evs /\
      length evs = (if sample_of settings then 1 else 3)%nat /\
      lastEvent W2 = lastEvent w /\ reported W2 = reported w /\
      stats W2 =
        mkStats
          (totalCreated (stats w) + (if sample_of settings then 1 else 2))
          (topSpansCreated (stats w) + 1)
          (topSpansActive (stats w)) (topSpansMax (stats w))
          (topSpansExited (stats w)) (otherSpansActive (stats w)))
  end.
  { destruct (sample_of settings); cbn [negb].
    - exists W1, [eb]. split; [reflexivity|]. rewrite HsW1, HeW1. destruct HlW1. auto 10.
    - 
      erewrite bind_normal by (apply read_event_eq; rewrite HeW1; apply lookup_first).
      match goal with |- context [bind (newSpan ?a ?b ?c) _ ?W] =>
        pose proof (newSpan_full a b c W eq_refl) as Hnew end.
      rewrite (bind_normal _ _ _ _ _ Hnew). clear Hnew.
      rewrite HsW1, HeW1. cbn [SpanSettings.traceTaskId].
      rewrite !length_app. cbn [length]. rewrite !Nat.add_1_r.
      replace (length (event_store w) + 2)%nat with (S (S (length (event_store w)))) by lia.
      erewrite bind_normal by
        (apply update_span_eq; cbn; rewrite <- app_assoc; cbn [app]; apply lookup_first).
      erewrite update_span_eq by
        (cbn; rewrite <- app_assoc; cbn [app];
         rewrite insert_first; apply lookup_second).
      do 2 eexists. split; [reflexivity|]. cbn.
      rewrite <- !app_assoc. cbn [app]. rewrite insert_first, insert_second.
      rewrite Hsea.
      split; [reflexivity|]. split; [reflexivity|]. split; [reflexivity|].
      destruct HlW1.
      split; [assumption|]. split; [assumption|].
      rewrite HstW1. cbn. f_equal. lia. }
  destruct Hsk as (W2 & evs & Hsk & HsW2 & HeW2 & Hlen & HlW2 & HrW2 & HstW2).
  rewrite (bind_normal _ _ _ _ _ Hsk) in Hrun.
  erewrite bind_normal in Hrun by (apply update_span_eq; rewrite HsW2; apply lookup_first).
  erewrite bind_normal in Hrun by
    (apply update_span_eq; cbn; rewrite HsW2, insert_first; apply lookup_first).
  erewrite bind_normal in Hrun by
    (apply update_span_eq; cbn; rewrite HsW2, !insert_first; apply lookup_first).
  erewrite bind_normal in Hrun by
    (apply update_span_eq; cbn; rewrite HsW2, !insert_first; apply lookup_first).
  erewrite bind_normal in Hrun by
    (apply update_event_eq; cbn; rewrite HeW2; apply lookup_first).
  rewrite Hrun.
  eexists. split; [reflexivity|]. cbn. exact HstW2.
Qed.

(** *** The transaction summary of runSync *)

(** X20: [runSync] sends one transaction summary to the bridge when, at the
    end of the wrapped function, the span is a top span with metrics, and
    none otherwise.  The summary carries the transaction name of the span,
    the time since [runSync] started in microseconds (NaN if the span was no
    metrics-bearing top span at the start), and as error flag the truthiness
    of the thrown value: false when the function returned, and false too
    when it threw a falsy value.  The name the bridge settles on is put on
    the exit event as [TransactionName]; without summary that annotation is
    left as it was. *)
Theorem runSync_sends_one_summary (this : nat) (fn : Fn.t) (w : World)
    (s : Span.t) (e : Event.t) :
  span_store w !! this = Some s ->
  event_store w !! Span.events_entry s = Some e ->
  is_Some (event_store w !! Span.events_exit s) ->
  Span.events_entry s <> Span.events_exit s ->
  keeps_span this fn ->
  exists w1 c w2 s2 x2 x' w',
    clock w1 = clock w /\
    sent w1 = sent w /\
    span_store w1 = span_store w /\
    Fn.call fn this None w1 = (c, w2) /\
    span_store w2 !! this = Some s2 /\
    event_store w2 !! Span.events_exit s2 = Some x2 /\
    runSync this fn w = (c, w') /\
    event_store w' !! Span.events_exit s2 = Some x' /\
    let metrics := Span.topSpan s2 && Span.doMetrics s2 in
    let summary :=
      mkTxArgs (chosen_name s2)
        (elapsed (clock w2)
           (if Span.topSpan s && Span.doMetrics s then Some (clock w) else None))
        (truthy match c with Throw err => err | _ => VUndefined end) in
    sent w' = sent w2 ++ (if metrics then [summary] else []) /\
    Event.kv x' !! "TransactionName" =
      (if metrics then Some (final_name (reporter w2) summary)
       else Event.kv x2 !! "TransactionName").
Proof.
  intros Hs He Hx Hne Hfn.
  exact (runSync_summary this fn w s e Hs He Hx Hne Hfn).
Qed.

Lemma runSync_sends_one_summary_witness :
  exists w',
    runSync 0 (throws (VString "")) (http_world true) = (Throw (VString ""), w') /\
    sent w' = [mkTxArgs (VString "custom-http") (Num 0) false].
Proof.
  edestruct (runSync_sends_one_summary 0 (throws (VString "")) (http_world true))
    as (w1 & c & w2 & s2 & x2 & x' & w' & Hc1 & Hsent1 & Hs1 & Hcall & Hs2 & _ & Hrun & _ & Hsent & _);
    [ vm_compute; reflexivity | vm_compute; reflexivity
    | vm_compute; eexists; reflexivity | vm_compute; lia
    | apply throws_keeps_span | ].
  cbn in Hcall. injection Hcall as Hc Hw. subst c w2.
  rewrite Hs1 in Hs2. vm_compute in Hs2. injection Hs2 as Hs2. subst s2.
  exists w'. split; [exact Hrun|].
  rewrite Hsent, Hsent1, Hc1. reflexivity.
Defined.

(** *** The entry span *)

(** X21: [makeEntrySpan], given a truthy name, always succeeds and returns a
    new top span that takes its metrics flag from the settings and its
    sample flag from the trace.  On a sampled trace it makes that one span,
    without skeleton, and two events; on an unsampled trace it makes the
    span and its skeleton, and four events.  Spans and events that existed
    are as before and nothing is reported.  [topSpansCreated] grows by one
    and [totalCreated] by the number of spans made, the skeleton included;
    the active counters do not move. *)
Theorem makeEntrySpan_builds_a_top_span (name : value) (settings : Settings.t)
    (kvpairs : option (gmap string value)) (w : World) :
  truthy name = true ->
  exists w1 st,
    makeEntrySpan name settings kvpairs w = (Normal (length (span_store w)), w1) /\
    span_store w1 !! length (span_store w) = Some st /\
    Span.topSpan st = true /\
    Span.doMetrics st = Settings.doMetrics settings /\
    Span.doSample st = sample_of settings /\
    Span.skeleton st =
      (if sample_of settings then None else Some (S (length (span_store w)))) /\
    length (span_store w1) =
      (length (span_store w) + (if sample_of settings then 1 else 2))%nat /\
    length (event_store w1) =
      (length (event_store w) + (if sample_of settings then 2 else 4))%nat /\
    (forall r s, span_store w !! r = Some s -> span_store w1 !! r = Some s) /\
    (forall r e, event_store w !! r = Some e -> event_store w1 !! r = Some e) /\
    reported w1 = reported w /\
    topSpansCreated (stats w1) = (topSpansCreated (stats w) + 1)%Z /\
    totalCreated (stats w1) =
      (totalCreated (stats w) + (if sample_of settings then 1 else 2))%Z /\
    topSpansActive (stats w1) = topSpansActive (stats w) /\
    otherSpansActive (stats w1) = otherSpansActive (stats w).
Proof.
  intros Hname.
  destruct (makeEntrySpan_spec name settings kvpairs w Hname)
    as (w1 & evs & Hmake & Hs1 & He1 & Hlen & _ & Hr1).
  destruct (makeEntrySpan_counts name settings kvpairs w Hname)
    as (w1' & Hmake' & Hst).
  rewrite Hmake in Hmake'. injection Hmake' as <-.
  exists w1. eexists.
  split; [exact Hmake|]. rewrite Hs1, He1, Hst.
  split; [apply lookup_first|].
  split; [reflexivity|]. split; [reflexivity|]. split; [reflexivity|].
  split; [reflexivity|].
  split; [rewrite length_app; cbn; destruct (sample_of settings); cbn; lia|].
  split; [rewrite length_app, Hlen; reflexivity|].
  split; [intros r s Hr; apply lookup_app_l_Some; exact Hr|].
  split; [intros r e Hr; apply lookup_app_l_Some; exact Hr|].
  split; [exact Hr1|]. cbn. auto.
Qed.

Lemma makeEntrySpan_builds_a_top_span_witness :
  exists w1 st,
    makeEntrySpan (VString "http") (fresh_settings false) None
      (init_world refusing_bridge) = (Normal 0%nat, w1) /\
    span_store w1 !! 0%nat = Some st /\
    Span.skeleton st = Some 1%nat /\
    totalCreated (stats w1) = 2%Z.
Proof.
  edestruct (makeEntrySpan_builds_a_top_span (VString "http") (fresh_settings false)
               None (init_world refusing_bridge) eq_refl)
    as (w1 & st & Hmake & Hst & _ & _ & _ & Hsk & _ & _ & _ & _ & _ & _ & Htc & _).
  exists w1, st. split; [exact Hmake|]. split; [exact Hst|].
  split; [exact Hsk | exact Htc].
Defined.

(** *** The reuse counter *)

(** Nested descents from a skeleton add one to its counter each. *)
Lemma descend_nested_counts args : forall k w sk,
  span_store w !! k = Some sk ->
  Span.doSample sk = false -> Span.topSpan sk = false ->
  exists w',
    descend_nested args k w = (Normal (replicate (length args) k), w') /\
    span_store w' = <[k := Nat.iter (length args) count_plus_one sk]> (span_store w).
Proof.
  induction args as [|[name data] rest IH]; intros k w sk Hk Hd Ht.
  - exists w. split; [reflexivity|]. cbn. rewrite list_insert_id by exact Hk. reflexivity.
  - cbn [descend_nested length replicate].
    destruct (descend_skeleton k name data w sk Hk Hd Ht) as [l Hdesc].
    rewrite (bind_normal _ _ _ _ _ Hdesc).
    destruct (IH k (with_span_store (<[k:=count_plus_one sk]> (span_store w)) (with_logs l w))
                (count_plus_one sk)) as (w' & Hrest & Hs').
    + cbn. apply list_lookup_insert_eq. eapply lookup_lt_Some; exact Hk.
    + exact Hd.
    + exact Ht.
    + rewrite (bind_normal _ _ _ _ _ Hrest).
      exists w'. split; [reflexivity|]. rewrite Hs'. cbn.
      rewrite list_insert_insert_eq. rewrite <- Nat.iter_succ_r. reflexivity.
Qed.

Lemma iter_count_plus_one n sk :
  Span.count (Nat.iter n count_plus_one sk) = Nat.iter n js_plus_one (Span.count sk).
Proof.
  induction n; [reflexivity|].
  rewrite !Nat.iter_succ. unfold count_plus_one at 1. cbn [Span.count Span.with_count].
  rewrite IHn. reflexivity.
Qed.

Lemma iter_plus_one_undefined n :
  Nat.iter (S n) js_plus_one VUndefined = VNumber NaN.
Proof. induction n; [reflexivity|]. rewrite Nat.iter_succ, IHn. reflexivity. Qed.

(** X23: neither constructor sets the reuse counter [count], and [descend]
    only adds one to it: on the skeleton of a new unsampled entry span the
    counter is [undefined] before the first descent and NaN after any number
    of nested descents, never a number. *)
Theorem skeleton_count_is_never_a_number (name : value)
    (settings : Settings.t) (kvpairs : option (gmap string value)) (w : World)
    (args : list (value * option (gmap string value))) :
  truthy name = true ->
  sample_of settings = false ->
  exists top k w1 w2 sk sk',
    makeEntrySpan name settings kvpairs w = (Normal top, w1) /\
    span_store w1 !! k = Some sk /\
    Span.isSkeleton sk = true /\
    Span.count sk = VUndefined /\
    descend_nested args top w1 = (Normal (replicate (length args) k), w2) /\
    span_store w2 !! k = Some sk' /\
    Span.count sk' = (if args is [] then VUndefined else VNumber NaN).
Proof.
  intros Hname Hsample.
  destruct (makeEntrySpan_spec name settings kvpairs w Hname)
    as (w1 & evs & Hmake & Hs1 & _).
  rewrite Hsample in Hs1.
  set (top := length (span_store w)) in *.
  assert (Htop : span_store w1 !! top =
                 Some (entry_span name settings top (length (event_store w))))
    by (rewrite Hs1; apply lookup_first).
  assert (Hk : span_store w1 !! S top =
               Some (skeleton_span (S (S (length (event_store w))))))
    by (rewrite Hs1; apply lookup_second).
  assert (Hskel : Span.skeleton (entry_span name settings top (length (event_store w)))
                  = Some (S top))
    by (cbn; rewrite Hsample; reflexivity).
  pose proof (lookup_lt_Some _ _ _ Hk) as Hltk.
  destruct args as [|[n d] rest].
  - exists top, (S top), w1, w1. do 2 eexists.
    split; [exact Hmake|]. split; [exact Hk|]. split; [reflexivity|].
    split; [reflexivity|]. split; [reflexivity|]. split; [exact Hk | reflexivity].
  - edestruct (descend_top_unsampled top n d w1) as [l Hd];
      [exact Htop | cbn; exact Hsample | reflexivity | exact Hskel | exact Hk |].
    match type of Hd with _ = (_, ?W) =>
      edestruct (descend_nested_counts rest (S top) W) as (w2 & Hrest & Hs2)
    end.
    { cbn. apply list_lookup_insert_eq. exact Hltk. }
    { reflexivity. }
    { reflexivity. }
    exists top, (S top), w1, w2. do 2 eexists.
    split; [exact Hmake|]. split; [exact Hk|]. split; [reflexivity|].
    split; [reflexivity|].
    split.
    { cbn [descend_nested length replicate].
      rewrite (bind_normal _ _ _ _ _ Hd), (bind_normal _ _ _ _ _ Hrest). reflexivity. }
    split.
    { rewrite Hs2. apply list_lookup_insert_eq. cbn. rewrite length_insert. exact Hltk. }
    rewrite iter_count_plus_one. cbn [count_plus_one Span.count Span.with_count skeleton_span
      Span.with_isSkeleton fresh_span].
    change (Nat.iter (length rest) js_plus_one (js_plus_one VUndefined))
      with (Nat.iter (length rest) js_plus_one (Nat.iter 1 js_plus_one VUndefined)).
    rewrite <- Nat.iter_add, Nat.add_1_r. apply iter_plus_one_undefined.
Qed.

Lemma skeleton_count_is_never_a_number_witness :
  exists top k w1 w2 sk',
    makeEntrySpan (VString "http") (fresh_settings false) None
      (init_world refusing_bridge) = (Normal top, w1) /\
    descend_nested [(VString "a", None); (VString "b", None); (VString "c", None)]
      top w1 = (Normal [k; k; k], w2) /\
    span_store w2 !! k = Some sk' /\
    Span.count sk' = VNumber NaN.
Proof.
  edestruct (skeleton_count_is_never_a_number (VString "http") (fresh_settings false)
               None (init_world refusing_bridge)
               [(VString "a", None); (VString "b", None); (VString "c", None)]
               eq_refl eq_refl)
    as (top & k & w1 & w2 & sk & sk' & Hmake & _ & _ & _ & Hdesc & Hsk' & Hcount).
  exists top, k, w1, w2, sk'. split; [exact Hmake|]. split; [exact Hdesc|].
  split; [exact Hsk' | exact Hcount].
Defined.
